(** * Shot Data API backend (api.py): a shallow embedding and its properties

    The development follows the layout of [api.py]:
    - Python values as produced by [json.loads] and consumed by [jsonify];
    - the regular expression [\{.*\}] (DOTALL) used to cut the JSON out of a
      provider's completion;
    - naive [datetime] values, [isoformat] and [strftime('%Y-%m-%d')];
    - the Redis counter store, the per-user JSON files and the log of
      outgoing HTTP calls, gathered in one [World];
    - [rate_limit], [AIProcessor], [DataStore] and the [/extract] handler;
    - the theorems, one group per component. *)

From Stdlib Require Import ZArith QArith Ascii String List Bool Lia.
From stdpp Require Import base option list strings gmap.

Set Warnings "-register-all".

Local Open Scope string_scope.
Local Open Scope Z_scope.

(** ** Python values *)

(** The values that travel through the handlers are the ones [json.loads]
    builds: [None], booleans, integers, floats (modelled by the rational
    they denote), strings, lists and dicts.  A dict keeps insertion order
    and has at most one binding per key; it is modelled by an association
    list read and written through [Dict.get] and [Dict.set]. *)
Inductive pyval : Type :=
| PyNone
| PyBool (b : bool)
| PyInt (n : Z)
| PyFloat (q : Q)
| PyStr (s : string)
| PyList (l : list pyval)
| PyDict (d : list (string * pyval)).

Module Dict.

(** [d[k]] as an option: [None] stands for [KeyError]. *)
Fixpoint get (d : list (string * pyval)) (k : string) : option pyval :=
  match d with
  | [] => None
  | (k', v) :: d' => if String.eqb k' k then Some v else get d' k
  end.

(** [d[k] = v]: overwrite in place, or append a new binding. *)
Fixpoint set (d : list (string * pyval)) (k : string) (v : pyval)
  : list (string * pyval) :=
  match d with
  | [] => [(k, v)]
  | (k', v') :: d' =>
      if String.eqb k' k then (k', v) :: d' else (k', v') :: set d' k v
  end.

Definition keys (d : list (string * pyval)) : list string := map fst d.

End Dict.

(** Python truthiness, [bool(v)], as used by [if result:] and
    [if not shot_data:]. *)
Definition truthy (v : pyval) : bool :=
  match v with
  | PyNone => false
  | PyBool b => b
  | PyInt n => negb (n =? 0)
  | PyFloat q => negb (Qnum q =? 0)
  | PyStr s => negb (String.eqb s "")
  | PyList l => match l with [] => false | _ => true end
  | PyDict d => match d with [] => false | _ => true end
  end.

(** Truthiness of an [Optional[...]] value: [None] is falsy. *)
Definition truthy_opt (o : option pyval) : bool :=
  match o with
  | None => false
  | Some v => truthy v
  end.

(** ** The regular expression [\{.*\}] with [re.DOTALL] *)

Module Re.

Definition lbrace : ascii := "{"%char.
Definition rbrace : ascii := "}"%char.

(** The text after the leftmost ["{"]. *)
Fixpoint after_first_lbrace (s : string) : option string :=
  match s with
  | EmptyString => None
  | String c r => if Ascii.eqb c lbrace then Some r else after_first_lbrace r
  end.

(** The longest prefix of [s] that ends in ["}"]: [.*] is greedy and,
    under DOTALL, [.] matches every character, newlines included. *)
Fixpoint upto_last_rbrace (s : string) : option string :=
  match s with
  | EmptyString => None
  | String c r =>
      match upto_last_rbrace r with
      | Some p => Some (String c p)
      | None => if Ascii.eqb c rbrace then Some (String c EmptyString) else None
      end
  end.

(** [re.search(r'\{.*\}', text, re.DOTALL)], returning [m.group()].
    A search reports the leftmost position at which a match exists; if
    the leftmost ["{"] has no ["}"] after it then no later one has. *)
Definition search (text : string) : option string :=
  match after_first_lbrace text with
  | None => None
  | Some r =>
      match upto_last_rbrace r with
      | None => None
      | Some body => Some (String lbrace body)
      end
  end.

(** [c] does not occur in [s]. *)
Fixpoint lacks (c : ascii) (s : string) : bool :=
  match s with
  | EmptyString => true
  | String c' r => negb (Ascii.eqb c' c) && lacks c r
  end.

End Re.

(** ** Naive [datetime] values *)

Record datetime : Type := mkDatetime {
  year : Z; month : Z; day : Z;
  hour : Z; minute : Z; second : Z; microsecond : Z
}.

Module Calendar.

(** Day number of a proleptic Gregorian date, counted from 1970-01-01
    (what [date.toordinal] computes, up to the choice of origin). *)
Definition days_from_civil (y m d : Z) : Z :=
  let y' := if m <=? 2 then y - 1 else y in
  let era := y' / 400 in
  let yoe := y' - era * 400 in
  let mp := if 2 <? m then m - 3 else m + 9 in
  let doy := (153 * mp + 2) / 5 + d - 1 in
  let doe := yoe * 365 + yoe / 4 - yoe / 100 + doy in
  era * 146097 + doe - 719468.

(** The inverse direction ([date.fromordinal]). *)
Definition civil_from_days (z : Z) : Z * Z * Z :=
  let z' := z + 719468 in
  let era := z' / 146097 in
  let doe := z' - era * 146097 in
  let yoe := (doe - doe / 1460 + doe / 36524 - doe / 146096) / 365 in
  let doy := doe - (365 * yoe + yoe / 4 - yoe / 100) in
  let mp := (5 * doy + 2) / 153 in
  let d := doy - (153 * mp + 2) / 5 + 1 in
  let m := if mp <? 10 then mp + 3 else mp - 9 in
  let y := yoe + era * 400 in
  (if m <=? 2 then y + 1 else y, m, d).

Definition us_per_second : Z := 1000000.
Definition us_per_day : Z := 86400 * us_per_second.

(** The calendar reading of an instant given in microseconds since
    1970-01-01T00:00:00 on the clock that is being read. *)
Definition of_microseconds (t : Z) : datetime :=
  let '(y, m, d) := civil_from_days (t / us_per_day) in
  let r := t mod us_per_day in
  let s := r / us_per_second in
  {| year := y; month := m; day := d;
     hour := s / 3600; minute := (s / 60) mod 60; second := s mod 60;
     microsecond := r mod us_per_second |}.

(** [dt + timedelta(days=n)]: the date moves through its ordinal, the
    time of day is kept. *)
Definition add_days (dt : datetime) (n : Z) : datetime :=
  let '(y, m, d) :=
    civil_from_days (days_from_civil (year dt) (month dt) (day dt) + n) in
  {| year := y; month := m; day := d;
     hour := hour dt; minute := minute dt; second := second dt;
     microsecond := microsecond dt |}.

(** [dt.replace(hour=0, minute=0, second=0)]; the microsecond field is
    not among the replaced ones. *)
Definition replace_hms0 (dt : datetime) : datetime :=
  {| year := year dt; month := month dt; day := day dt;
     hour := 0; minute := 0; second := 0;
     microsecond := microsecond dt |}.

Definition digit (n : Z) : ascii := ascii_of_nat (48 + Z.to_nat (n mod 10)).

(** [n] written in base ten on exactly [width] digits, zero padded. *)
Fixpoint zfill (width : nat) (n : Z) : string :=
  match width with
  | O => EmptyString
  | S w => zfill w (n / 10) +:+ String (digit n) EmptyString
  end.

(** The digits of a non-negative [n], at least one. *)
Fixpoint decimal (fuel : nat) (n : Z) : string :=
  match fuel with
  | O => EmptyString
  | S f =>
      (if n <? 10 then EmptyString else decimal f (n / 10))
      +:+ String (digit n) EmptyString
  end.

Definition str_of_Z (n : Z) : string :=
  if n <? 0 then "-" +:+ decimal (S (Z.to_nat (Z.log2 (- n)))) (- n)
  else decimal (S (Z.to_nat (Z.log2 n))) n.

(** [dt.strftime('%Y-%m-%d')]. *)
Definition strftime_ymd (dt : datetime) : string :=
  zfill 4 (year dt) +:+ "-" +:+ zfill 2 (month dt) +:+ "-" +:+ zfill 2 (day dt).

(** [dt.isoformat()]: the fractional part is printed only when the
    microsecond field is not zero. *)
Definition isoformat (dt : datetime) : string :=
  strftime_ymd dt +:+ "T" +:+ zfill 2 (hour dt) +:+ ":" +:+
  zfill 2 (minute dt) +:+ ":" +:+ zfill 2 (second dt) +:+
  (if microsecond dt =? 0 then "" else "." +:+ zfill 6 (microsecond dt)).

(** Rounding to the nearest integer, ties to even. *)
Definition round_half_even (q : Q) : Z :=
  let n := Qnum q in
  let d := Zpos (Qden q) in
  let f := n / d in
  let r2 := 2 * (n mod d) in
  if r2 <? d then f
  else if d <? r2 then f + 1
  else if Z.even f then f else f + 1.

(** [f"{q:.2f}"] for a non-negative [q]. *)
Definition format_2f (q : Q) : string :=
  let c := round_half_even (q * 100) in
  (if c <? 0 then "-" else "") +:+
  str_of_Z (Z.abs c / 100) +:+ "." +:+ zfill 2 (Z.abs c).

End Calendar.

(** ** Library functions *)

(** Functions of the Python standard library that the module calls and
    whose definition is not part of the repository.  [json_loads] returns
    [None] where [json.loads] raises. *)
Class PyLib : Type := {
  json_loads : string -> option pyval;
  md5_hexdigest : string -> string;
  b64encode : string -> string
}.

(** An exception, as far as the handlers look at it: its class and
    [str(e)]. *)
Record exn : Type := mkExn { exn_class : string; exn_str : string }.

Inductive result (A : Type) : Type :=
| Ok (a : A)
| Raise (e : exn).
Arguments Ok {A} a.
Arguments Raise {A} e.

(** ** Configuration *)

Record Config : Type := mkConfig {
  DAILY_LIMIT_AUTH : Z;
  DAILY_LIMIT_ANON : Z;
  OPENAI_API_KEY : option string;
  GEMINI_API_KEY : option string;
  RESPONSE_TIMEOUT : Q
}.

(** [CONFIG], given the two values read from the environment with
    [os.getenv]. *)
Definition CONFIG (openai_api_key google_api_key : option string) : Config :=
  {| DAILY_LIMIT_AUTH := 20;
     DAILY_LIMIT_ANON := 3;
     OPENAI_API_KEY := openai_api_key;
     GEMINI_API_KEY := google_api_key;
     RESPONSE_TIMEOUT := 2 |}.

(** ** The world a request runs in *)

Inductive Provider : Type := Gemini | OpenAI.

(** One [requests.post]: the service addressed, the [timeout=] argument,
    the image placed in the payload and the clock when the call starts. *)
Record NetCall : Type := mkNetCall {
  call_provider : Provider;
  call_timeout : Q;
  call_image : string;
  call_started : Z
}.

(** What [requests.post] hands back: [status_code] and the value of
    [response.json()] ([None] where that raises). *)
Record HttpResponse : Type := mkHttpResponse {
  status_code : Z;
  json_body : option pyval
}.

(** The outcome of one call: a response, or [None] where [requests.post]
    raises (timeout, connection error), and the time the call took in
    microseconds. *)
Record NetReply : Type := mkNetReply {
  reply : option HttpResponse;
  duration : Z
}.

(** A file under [data/]: the value [json.load] reads from it, or
    [Unreadable] where [json.load] raises.  What [json.dump] has written
    is read back as the value that was written.  A file that was opened
    for writing and not written to the end is [Unreadable]: it is empty
    or holds the beginning of a document, and the text of a dict ends
    with its closing brace, so that no shorter beginning of it is a JSON
    document. *)
Inductive file : Type :=
| Unreadable
| Document (v : pyval).

Record World : Type := mkWorld {
  clock : Z;                           (* microseconds since the epoch, UTC *)
  utc_offset : Z -> Z;                 (* seconds east of UTC of the server's
                                          zone at each instant; it changes
                                          where the zone has daylight saving *)
  redis : gmap string (Z * option Z);  (* key -> count, expiry instant *)
  files : gmap string file;
  posts : list NetCall                 (* outgoing HTTP calls, oldest first *)
}.

Definition set_clock (t : Z) (w : World) : World :=
  {| clock := t; utc_offset := utc_offset w; redis := redis w;
     files := files w; posts := posts w |}.

Definition set_redis (r : gmap string (Z * option Z)) (w : World) : World :=
  {| clock := clock w; utc_offset := utc_offset w; redis := r;
     files := files w; posts := posts w |}.

Definition set_files (f : gmap string file) (w : World) : World :=
  {| clock := clock w; utc_offset := utc_offset w; redis := redis w;
     files := f; posts := posts w |}.

Definition set_posts (p : list NetCall) (w : World) : World :=
  {| clock := clock w; utc_offset := utc_offset w; redis := redis w;
     files := files w; posts := p |}.

(** What the surroundings decide while one request is served: the answer
    to each outgoing call, whether [open(user_file, 'w')] raises, and
    whether writing into the opened file does ([json.dump], or the flush
    and close that end the [with] block); [Some msg] is a failure, with
    [msg] the text of the [OSError].  [write_error] is looked at only
    once the file has been opened. *)
Record Env : Type := mkEnv {
  requests_post : NetCall -> NetReply;
  open_for_write : option string;
  write_error : option string
}.

(** [datetime.now()]: the naive local time of the server, at the offset
    its zone has at the current instant. *)
Definition datetime_now (w : World) : datetime :=
  Calendar.of_microseconds
    (clock w + utc_offset w (clock w) * Calendar.us_per_second).

(** [time.time()], in seconds. *)
Definition time_time (w : World) : Q :=
  Qmake (clock w) 1000000.

(** ** Redis *)

Module Redis.

(** A binding is live until its expiry instant, if it has one. *)
Definition live (now : Z) (e : Z * option Z) : bool :=
  match snd e with
  | None => true
  | Some t => now <? t
  end.

(** [GET key]. *)
Definition get (now : Z) (key : string) (r : gmap string (Z * option Z))
  : option Z :=
  match r !! key with
  | Some e => if live now e then Some (fst e) else None
  | None => None
  end.

(** [INCR key]: a missing or expired key counts from zero and carries no
    expiry; a live key keeps the expiry it has. *)
Definition incr (now : Z) (key : string) (r : gmap string (Z * option Z))
  : gmap string (Z * option Z) :=
  match r !! key with
  | Some e => if live now e then <[key := (fst e + 1, snd e)]> r
              else <[key := (1, None)]> r
  | None => <[key := (1, None)]> r
  end.

(** [EXPIRE key seconds]. *)
Definition expire (now : Z) (key : string) (seconds : Z)
    (r : gmap string (Z * option Z)) : gmap string (Z * option Z) :=
  match r !! key with
  | Some e => if live now e
              then <[key := (fst e, Some (now + seconds * Calendar.us_per_second))]> r
              else r
  | None => r
  end.

End Redis.

(** ** Requests and replies *)

Record UploadedFile : Type := mkUploadedFile {
  filename : string;
  content : string
}.

Record Request : Type := mkRequest {
  session_user_id : option string;     (* session['user_id'], when set *)
  x_forwarded_for : option string;
  remote_addr : string;
  files_image : option UploadedFile    (* request.files['image'], when sent *)
}.

(** What a view function returns: a bare [jsonify(...)] response, or a
    [(jsonify(...), status)] tuple.  The body is the dict given to
    [jsonify]. *)
Inductive Reply : Type :=
| Bare (body : list (string * pyval))
| WithStatus (body : list (string * pyval)) (status : Z).

Definition Handler : Type := Request -> Env -> World -> Reply * World.

Definition is_tuple (r : Reply) : bool :=
  match r with
  | Bare _ => false
  | WithStatus _ _ => true
  end.

Definition reply_body (r : Reply) : list (string * pyval) :=
  match r with
  | Bare b => b
  | WithStatus b _ => b
  end.

(** Truthiness of an optional string ([None] and [''] are falsy). *)
Definition truthy_str (o : option string) : bool :=
  match o with
  | None => false
  | Some s => negb (String.eqb s "")
  end.

(** ** The rate limiting decorator *)

(** The Redis key and the limit chosen for a request. *)
Definition quota_key (cfg : Config) (req : Request) (w : World) : string * Z :=
  let today := Calendar.strftime_ymd (datetime_now w) in
  if truthy_str (session_user_id req) then
    ("rate_limit:user:" +:+ default "" (session_user_id req) +:+ ":" +:+ today,
     DAILY_LIMIT_AUTH cfg)
  else
    let ip := default (remote_addr req) (x_forwarded_for req) in
    ("rate_limit:anon:" +:+ ip +:+ ":" +:+ today, DAILY_LIMIT_ANON cfg).

(** The [reset_time] of a denial:
    [(datetime.now() + timedelta(days=1)).replace(hour=0, minute=0, second=0)]. *)
Definition reset_time (w : World) : datetime :=
  Calendar.replace_hms0 (Calendar.add_days (datetime_now w) 1).

Definition denial (limit : Z) (w : World) : Reply :=
  WithStatus [("error", PyStr "Daily limit exceeded");
              ("limit", PyInt limit);
              ("reset_time", PyStr (Calendar.isoformat (reset_time w)))] 429.

Definition rate_limit_info (current limit : Z) : pyval :=
  PyDict [("used", PyInt (current + 1));
          ("limit", PyInt limit);
          ("remaining", PyInt (limit - (current + 1)))].

(** The [if isinstance(response, tuple):] block: the body of a
    [(body, status)] tuple gains a [rate_limit] entry, any other response
    is returned as it is. *)
Definition attach_rate_limit (current limit : Z) (response : Reply) : Reply :=
  match response with
  | WithStatus data status =>
      WithStatus (Dict.set data "rate_limit" (rate_limit_info current limit))
                 status
  | Bare _ => response
  end.

(** [rate_limit(f)], that is [decorated_function].  Every reading of
    [datetime.now()] inside one call sees the same instant. *)
Definition rate_limit (cfg : Config) (f : Handler) : Handler :=
  fun req env w =>
    let '(key, limit) := quota_key cfg req w in
    let current :=
      match Redis.get (clock w) key (redis w) with
      | None => 0
      | Some c => c
      end in
    if current >=? limit then (denial limit w, w)
    else
      let r1 := Redis.incr (clock w) key (redis w) in
      let r2 := Redis.expire (clock w) key 86400 r1 in
      let '(response, w') := f req env (set_redis r2 w) in
      (attach_rate_limit current limit response, w').

(** *** Two calls of [decorated_function] running at once *)

(** Redis executes one command at a time; two requests served at once
    interleave at the granularity of the commands they issue.  A call
    goes through [GET], then the comparison and [INCR], then [EXPIRE]. *)
Module Interleaving.

Inductive pc : Type :=
| AtGet                      (* about to issue GET *)
| AtIncr (current : Z)       (* holds the count it read *)
| AtExpire (current : Z)     (* has issued INCR *)
| Allowed (current : Z)     (* goes on to run the view function *)
| Denied.                    (* returns 429 *)

(** One move of a call working on [key] with limit [limit]. *)
Definition step (now : Z) (key : string) (limit : Z)
    (p : pc) (r : gmap string (Z * option Z))
  : pc * gmap string (Z * option Z) :=
  match p with
  | AtGet => (AtIncr (default 0 (Redis.get now key r)), r)
  | AtIncr current =>
      if current >=? limit then (Denied, r)
      else (AtExpire current, Redis.incr now key r)
  | AtExpire current => (Allowed current, Redis.expire now key 86400 r)
  | Allowed current => (Allowed current, r)
  | Denied => (Denied, r)
  end.

Inductive call : Type := First | Second.

Record state : Type := mkState {
  pc_first : pc;
  pc_second : pc;
  store : gmap string (Z * option Z)
}.

Definition move (now : Z) (key : string) (limit : Z) (c : call) (s : state)
  : state :=
  match c with
  | First =>
      let '(p, r) := step now key limit (pc_first s) (store s) in
      {| pc_first := p; pc_second := pc_second s; store := r |}
  | Second =>
      let '(p, r) := step now key limit (pc_second s) (store s) in
      {| pc_first := pc_first s; pc_second := p; store := r |}
  end.

(** Running a schedule: the list says whose turn each move is. *)
Definition run (now : Z) (key : string) (limit : Z)
    (schedule : list call) (s : state) : state :=
  fold_left (fun s c => move now key limit c s) schedule s.

Definition start (r : gmap string (Z * option Z)) : state :=
  {| pc_first := AtGet; pc_second := AtGet; store := r |}.

Definition allowed (p : pc) : bool :=
  match p with
  | Allowed _ => true
  | _ => false
  end.

Definition finished (p : pc) : bool :=
  match p with
  | Allowed _ | Denied => true
  | _ => false
  end.

(** A call alone: its three moves in a row. *)
Definition alone (now : Z) (key : string) (limit : Z)
    (r : gmap string (Z * option Z)) : pc * gmap string (Z * option Z) :=
  let '(p1, r1) := step now key limit AtGet r in
  let '(p2, r2) := step now key limit p1 r1 in
  step now key limit p2 r2.

End Interleaving.

(** ** Subscripting *)

(** [v[k]] for a string key: only a dict accepts it, and only when the key
    is bound; every other case raises, which is [None] here. *)
Definition subscript_key (v : pyval) (k : string) : option pyval :=
  match v with
  | PyDict d => Dict.get d k
  | _ => None
  end.

(** [v[0]]: the head of a non-empty list or the first character of a
    non-empty string; every other case raises. *)
Definition subscript_0 (v : pyval) : option pyval :=
  match v with
  | PyList (x :: _) => Some x
  | PyStr (String c _) => Some (PyStr (String c EmptyString))
  | _ => None
  end.

(** The argument of [re.search] must be a [str]. *)
Definition as_str (v : pyval) : option string :=
  match v with
  | PyStr s => Some s
  | _ => None
  end.

(** [result['candidates'][0]['content']['parts'][0]['text']]. *)
Definition gemini_text (result : pyval) : option string :=
  c ← subscript_key result "candidates";
  c0 ← subscript_0 c;
  ct ← subscript_key c0 "content";
  ps ← subscript_key ct "parts";
  p0 ← subscript_0 ps;
  t ← subscript_key p0 "text";
  as_str t.

(** [result['choices'][0]['message']['content']]. *)
Definition openai_text (result : pyval) : option string :=
  c ← subscript_key result "choices";
  c0 ← subscript_0 c;
  m ← subscript_key c0 "message";
  t ← subscript_key m "content";
  as_str t.

(** Where each provider's envelope keeps the completion. *)
Definition text_of (p : Provider) : pyval -> option string :=
  match p with
  | Gemini => gemini_text
  | OpenAI => openai_text
  end.

Section Api.

Context `{PyLib}.

(** ** AIProcessor *)

Record AIProcessor : Type := mkAIProcessor {
  openai_key : option string;
  gemini_key : option string
}.

(** [AIProcessor.__init__]. *)
Definition AIProcessor_init (cfg : Config) : AIProcessor :=
  {| openai_key := OPENAI_API_KEY cfg; gemini_key := GEMINI_API_KEY cfg |}.

(** The part shared by the two extractors once the completion text is
    at hand: [re.search], then [json.loads] of the match. *)
Definition json_from_text (text : string) : option pyval :=
  m ← Re.search text;
  json_loads m.

(** [requests.post(..., timeout=...)]: the call is logged and the clock
    moves on by the time it took. *)
Definition do_post (env : Env) (p : Provider) (timeout : Q) (image : string)
    (w : World) : option HttpResponse * World :=
  let c := {| call_provider := p; call_timeout := timeout;
              call_image := image; call_started := clock w |} in
  let a := requests_post env c in
  (reply a, set_clock (clock w + duration a) (set_posts (posts w ++ [c]) w)).

(** The completion text an extractor finds in the response, when the
    status is 200 and the envelope has the expected shape; every
    exception raised on the way is caught by [except Exception] and
    ends in [return None]. *)
Definition completion (text_of : pyval -> option string)
    (r : option HttpResponse) : option string :=
  response ← r;
  if status_code response =? 200 then
    result ← json_body response;
    text_of result
  else None.

(** What an extractor returns for a response. *)
Definition read_response (text_of : pyval -> option string)
    (r : option HttpResponse) : option pyval :=
  text ← completion text_of r;
  json_from_text text.

(** [AIProcessor.extract_with_gemini]. *)
Definition extract_with_gemini (cfg : Config) (self : AIProcessor)
    (image_base64 : string) (env : Env) (w : World)
  : option pyval * World :=
  if negb (truthy_str (gemini_key self)) then (None, w)
  else
    let '(r, w') := do_post env Gemini (RESPONSE_TIMEOUT cfg) image_base64 w in
    (read_response (text_of Gemini) r, w').

(** [AIProcessor.extract_with_openai]. *)
Definition extract_with_openai (cfg : Config) (self : AIProcessor)
    (image_base64 : string) (env : Env) (w : World)
  : option pyval * World :=
  if negb (truthy_str (openai_key self)) then (None, w)
  else
    let '(r, w') := do_post env OpenAI (RESPONSE_TIMEOUT cfg) image_base64 w in
    (read_response (text_of OpenAI) r, w').

(** [AIProcessor.process_image]. *)
Definition process_image (cfg : Config) (self : AIProcessor)
    (image_base64 : string) (env : Env) (w : World)
  : option pyval * string * World :=
  let start_time := time_time w in
  let '(result, w1) := extract_with_gemini cfg self image_base64 env w in
  if truthy_opt result then
    let processing_time := (time_time w1 - start_time)%Q in
    (result, "gemini (" +:+ Calendar.format_2f processing_time +:+ "s)", w1)
  else
    let '(result, w2) := extract_with_openai cfg self image_base64 env w1 in
    if truthy_opt result then
      let processing_time := (time_time w2 - start_time)%Q in
      (result, "openai (" +:+ Calendar.format_2f processing_time +:+ "s)", w2)
    else (None, "failed", w2).

(** ** DataStore *)

Definition data_dir : string := "data".

(** [os.path.join(self.data_dir, f"user_{user_id}.json")]. *)
Definition user_file (user_id : string) : string :=
  data_dir +:+ "/" +:+ "user_" +:+ user_id +:+ ".json".

Definition shot_id_of (user_id : string) (w : World) : string :=
  String.substring 0 12
    (md5_hexdigest (user_id +:+ Calendar.isoformat (datetime_now w))).

Definition shot_record_of (user_id : string) (shot_data : pyval) (w : World)
  : pyval :=
  PyDict [("id", PyStr (shot_id_of user_id w));
          ("user_id", PyStr user_id);
          ("timestamp", PyStr (Calendar.isoformat (datetime_now w)));
          ("data", shot_data)].

(** The [try: ... json.load(f) except: user_data = {'shots': []}] block. *)
Definition load_user_data (user_id : string) (w : World) : pyval :=
  match files w !! user_file user_id with
  | Some (Document v) => v
  | _ => PyDict [("shots", PyList [])]
  end.

Definition type_name (v : pyval) : string :=
  match v with
  | PyNone => "NoneType"
  | PyBool _ => "bool"
  | PyInt _ => "int"
  | PyFloat _ => "float"
  | PyStr _ => "str"
  | PyList _ => "list"
  | PyDict _ => "dict"
  end.

(** [user_data['shots'].append(shot_record)], which is outside the
    [try]: the subscript or the method lookup may raise. *)
Definition append_shot (user_data shot_record : pyval) : result pyval :=
  match user_data with
  | PyDict d =>
      match Dict.get d "shots" with
      | Some (PyList l) =>
          Ok (PyDict (Dict.set d "shots" (PyList (l ++ [shot_record]))))
      | Some v =>
          Raise (mkExn "AttributeError"
                   ("'" +:+ type_name v +:+ "' object has no attribute 'append'"))
      | None => Raise (mkExn "KeyError" "'shots'")
      end
  | PyList _ =>
      Raise (mkExn "TypeError" "list indices must be integers or slices, not str")
  | PyStr _ =>
      Raise (mkExn "TypeError" "string indices must be integers, not 'str'")
  | v =>
      Raise (mkExn "TypeError"
               ("'" +:+ type_name v +:+ "' object is not subscriptable"))
  end.

(** [DataStore.save_shot].  The two readings of [datetime.now()], for
    the id and for the timestamp, see the same instant.  Opening the file
    with mode ['w'] empties it; when the write then fails, the exception
    leaves the [with] block and the file stays without a whole
    document. *)
Definition save_shot (user_id : string) (shot_data : pyval) (env : Env)
    (w : World) : result string * World :=
  let shot_id := shot_id_of user_id w in
  let shot_record := shot_record_of user_id shot_data w in
  let user_data := load_user_data user_id w in
  match append_shot user_data shot_record with
  | Raise e => (Raise e, w)
  | Ok user_data' =>
      match open_for_write env with
      | Some msg => (Raise (mkExn "OSError" msg), w)
      | None =>
          match write_error env with
          | Some msg =>
              (Raise (mkExn "OSError" msg),
               set_files (<[user_file user_id := Unreadable]> (files w)) w)
          | None =>
              (Ok shot_id,
               set_files
                 (<[user_file user_id := Document user_data']> (files w)) w)
          end
      end
  end.

(** [DataStore.get_user_shots]: whatever goes wrong inside the [try]
    (no file, no JSON, a document without [.get]) ends in [return []]. *)
Definition get_user_shots (user_id : string) (w : World) : pyval :=
  match files w !! user_file user_id with
  | Some (Document (PyDict d)) => default (PyList []) (Dict.get d "shots")
  | _ => PyList []
  end.

(** ** The [/extract] view *)

Definition error_body (msg : string) : list (string * pyval) :=
  [("error", PyStr msg)].

Definition success_body (shot_id : option string) (shot_data : pyval)
    (processor_used : string) : list (string * pyval) :=
  [("success", PyBool true);
   ("shot_id", from_option PyStr PyNone shot_id);
   ("data", shot_data);
   ("processor", PyStr processor_used);
   ("saved", PyBool (truthy_str shot_id))].

(** [extract_shot_data], without its decorators. *)
Definition extract_shot_data (cfg : Config) : Handler :=
  fun req env w =>
    match files_image req with
    | None => (WithStatus (error_body "No image provided") 400, w)
    | Some image_file =>
        if String.eqb (filename image_file) "" then
          (WithStatus (error_body "No image selected") 400, w)
        else
          let image_base64 := b64encode (content image_file) in
          let '(shot_data, processor_used, w1) :=
            process_image cfg (AIProcessor_init cfg) image_base64 env w in
          match shot_data with
          | None =>
              (WithStatus (error_body "Failed to extract data from image") 422, w1)
          | Some sd =>
              if negb (truthy sd) then
                (WithStatus (error_body "Failed to extract data from image") 422, w1)
              else
                match session_user_id req with
                | Some user_id =>
                    match save_shot user_id sd env w1 with
                    | (Ok shot_id, w2) =>
                        (Bare (success_body (Some shot_id) sd processor_used), w2)
                    | (Raise e, w2) =>
                        (WithStatus (error_body (exn_str e)) 500, w2)
                    end
                | None => (Bare (success_body None sd processor_used), w1)
                end
          end
    end.

(** The view as routed: [@rate_limit] around [extract_shot_data]. *)
Definition extract_route (cfg : Config) : Handler :=
  rate_limit cfg (extract_shot_data cfg).

End Api.

(** ** A JSON decoder *)

(** A decoder for the JSON grammar with the conventions of Python's
    [json] module: an integer literal becomes an [int], a literal with a
    fraction or an exponent a [float], a repeated key keeps its first
    position and its last value, text after the value is an error.  It
    serves as the [json_loads] of the examples. *)
Module Json.

Definition is_ws (c : ascii) : bool :=
  let n := nat_of_ascii c in
  (n =? 32)%nat || (n =? 9)%nat || (n =? 10)%nat || (n =? 13)%nat.

Fixpoint skip_ws (s : string) : string :=
  match s with
  | String c r => if is_ws c then skip_ws r else s
  | EmptyString => s
  end.

Definition digit_val (c : ascii) : option Z :=
  let n := nat_of_ascii c in
  if (48 <=? n)%nat && (n <=? 57)%nat then Some (Z.of_nat n - 48) else None.

Definition hex_val (c : ascii) : option Z :=
  let n := nat_of_ascii c in
  if (48 <=? n)%nat && (n <=? 57)%nat then Some (Z.of_nat n - 48)
  else if (65 <=? n)%nat && (n <=? 70)%nat then Some (Z.of_nat n - 55)
  else if (97 <=? n)%nat && (n <=? 102)%nat then Some (Z.of_nat n - 87)
  else None.

(** The longest run of digits at the head of [s]: its value on top of
    [acc], how many digits were read, and the rest. *)
Fixpoint digits (s : string) (acc : Z) (n : nat) : Z * nat * string :=
  match s with
  | String c r =>
      match digit_val c with
      | Some d => digits r (acc * 10 + d) (S n)
      | None => (acc, n, s)
      end
  | EmptyString => (acc, n, s)
  end.

(** An optional minus sign, then a lone zero or a run of digits that
    does not start with zero: sign, value and rest. *)
Definition integer_part (s : string) : option (bool * Z * string) :=
  let '(neg, s1) :=
    match s with
    | String "-" r => (true, r)
    | _ => (false, s)
    end in
  match s1 with
  | String "0" r => Some (neg, 0, r)
  | _ =>
      match digits s1 0 0 with
      | (_, O, _) => None
      | (v, _, r) => Some (neg, v, r)
      end
  end.

(** An optional fraction: the digits after the point and how many
    there are. *)
Definition fraction_part (s : string) : option (Z * nat) * string :=
  match s with
  | String "." r =>
      match digits r 0 0 with
      | (_, O, _) => (None, s)
      | (v, n, r') => (Some (v, n), r')
      end
  | _ => (None, s)
  end.

(** An optional exponent: [e] or [E], a sign, digits. *)
Definition exponent_part (s : string) : option Z * string :=
  match s with
  | String c r =>
      if Ascii.eqb c "e" || Ascii.eqb c "E" then
        let '(neg, r1) :=
          match r with
          | String "-" r' => (true, r')
          | String "+" r' => (false, r')
          | _ => (false, r)
          end in
        match digits r1 0 0 with
        | (_, O, _) => (None, s)
        | (v, _, r') => (Some (if neg then - v else v), r')
        end
      else (None, s)
  | EmptyString => (None, s)
  end.

(** [m * 10 ^ e] as a rational. *)
Definition scale10 (m e : Z) : Q :=
  if e <? 0 then Qred (Qmake m (Z.to_pos (10 ^ (- e))))
  else Qmake (m * 10 ^ e) 1.

Definition number (s : string) : option (pyval * string) :=
  match integer_part s with
  | None => None
  | Some (neg, i, r) =>
      let sign := fun z : Z => if neg then - z else z in
      let '(f, r1) := fraction_part r in
      let '(e, r2) := exponent_part r1 in
      match f, e with
      | None, None => Some (PyInt (sign i), r2)
      | _, _ =>
          let '(fv, fn) := default (0, O) f in
          let m := i * 10 ^ Z.of_nat fn + fv in
          Some (PyFloat (scale10 (sign m) (default 0 e - Z.of_nat fn)), r2)
      end
  end.

Definition byte (n : Z) : ascii := ascii_of_nat (Z.to_nat n).

(** The UTF-8 bytes of a code point (a lone surrogate is written on
    three bytes like any other point of that range). *)
Definition utf8 (cp : Z) : string :=
  if cp <? 128 then String (byte cp) EmptyString
  else if cp <? 2048 then
    String (byte (192 + cp / 64)) (String (byte (128 + cp mod 64)) EmptyString)
  else if cp <? 65536 then
    String (byte (224 + cp / 4096))
      (String (byte (128 + (cp / 64) mod 64))
         (String (byte (128 + cp mod 64)) EmptyString))
  else
    String (byte (240 + cp / 262144))
      (String (byte (128 + (cp / 4096) mod 64))
         (String (byte (128 + (cp / 64) mod 64))
            (String (byte (128 + cp mod 64)) EmptyString))).

(** Four hexadecimal digits. *)
Definition hex4 (s : string) : option (Z * string) :=
  match s with
  | String a (String b (String c (String d r))) =>
      match hex_val a, hex_val b, hex_val c, hex_val d with
      | Some x, Some y, Some z, Some t =>
          Some (((x * 16 + y) * 16 + z) * 16 + t, r)
      | _, _, _, _ => None
      end
  | _ => None
  end.

(** The double quote. *)
Definition dquote : ascii := ascii_of_nat 34.

(** The characters of a string literal after its opening quote. *)
Fixpoint chars (fuel : nat) (s : string) : option (string * string) :=
  match fuel with
  | O => None
  | S f =>
      match s with
      | EmptyString => None
      | String c r =>
          if Ascii.eqb c dquote then Some (EmptyString, r)
          else if Ascii.eqb c "\" then
            match r with
            | String e r' =>
                let plain (x : ascii) :=
                  match chars f r' with
                  | Some (t, rest) => Some (String x t, rest)
                  | None => None
                  end in
                if Ascii.eqb e dquote then plain dquote
                else if Ascii.eqb e "\" then plain "\"%char
                else if Ascii.eqb e "/" then plain "/"%char
                else if Ascii.eqb e "b" then plain (ascii_of_nat 8)
                else if Ascii.eqb e "f" then plain (ascii_of_nat 12)
                else if Ascii.eqb e "n" then plain (ascii_of_nat 10)
                else if Ascii.eqb e "r" then plain (ascii_of_nat 13)
                else if Ascii.eqb e "t" then plain (ascii_of_nat 9)
                else if Ascii.eqb e "u" then
                  match hex4 r' with
                  | None => None
                  | Some (hi, r1) =>
                      let low :=
                        if (55296 <=? hi) && (hi <=? 56319) then
                          match r1 with
                          | String "\" (String "u" r2) =>
                              match hex4 r2 with
                              | Some (lo, r3) =>
                                  if (56320 <=? lo) && (lo <=? 57343)
                                  then Some (lo, r3) else None
                              | None => None
                              end
                          | _ => None
                          end
                        else None in
                      let '(cp, r4) :=
                        match low with
                        | Some (lo, r3) =>
                            (65536 + (hi - 55296) * 1024 + (lo - 56320), r3)
                        | None => (hi, r1)
                        end in
                      match chars f r4 with
                      | Some (t, rest) => Some (utf8 cp +:+ t, rest)
                      | None => None
                      end
                  end
                else None
            | EmptyString => None
            end
          else if (nat_of_ascii c <? 32)%nat then None
          else
            match chars f r with
            | Some (t, rest) => Some (String c t, rest)
            | None => None
            end
      end
  end.

(** A string literal at the head of [s]: its characters and the rest.
    No number starts with a quote, so a text on which this fails is not
    a string literal of any kind. *)
Definition string_literal (s : string) : option (string * string) :=
  match s with
  | String c r =>
      if Ascii.eqb c dquote then chars (S (String.length r)) r else None
  | EmptyString => None
  end.

Definition literal (word : string) (v : pyval) (s : string)
  : option (pyval * string) :=
  if String.prefix word s
  then Some (v, String.substring (String.length word)
                  (String.length s - String.length word) s)
  else None.

(** A value at the head of [s]; [members] and [elements] read what
    follows the opening bracket of an object and of an array. *)
Fixpoint value (fuel : nat) (s : string) : option (pyval * string) :=
  match fuel with
  | O => None
  | S f =>
      match s with
      | String "{" r =>
          match skip_ws r with
          | String "}" r' => Some (PyDict [], r')
          | r' => members f r' []
          end
      | String "[" r =>
          match skip_ws r with
          | String "]" r' => Some (PyList [], r')
          | r' => elements f r' []
          end
      | String "t" _ => literal "true" (PyBool true) s
      | String "f" _ => literal "false" (PyBool false) s
      | String "n" _ => literal "null" PyNone s
      | _ =>
          match string_literal s with
          | Some (t, r') => Some (PyStr t, r')
          | None => number s
          end
      end
  end
with members (fuel : nat) (s : string) (acc : list (string * pyval))
  : option (pyval * string) :=
  match fuel with
  | O => None
  | S f =>
      match string_literal s with
      | Some (k, r1) =>
          match skip_ws r1 with
          | String ":" r2 =>
              match value f (skip_ws r2) with
              | Some (v, r3) =>
                  match skip_ws r3 with
                  | String "}" r4 => Some (PyDict (Dict.set acc k v), r4)
                  | String "," r4 => members f (skip_ws r4) (Dict.set acc k v)
                  | _ => None
                  end
              | None => None
              end
          | _ => None
          end
      | None => None
      end
  end
with elements (fuel : nat) (s : string) (acc : list pyval)
  : option (pyval * string) :=
  match fuel with
  | O => None
  | S f =>
      match value f s with
      | Some (v, r) =>
          match skip_ws r with
          | String "]" r' => Some (PyList (acc ++ [v]), r')
          | String "," r' => elements f (skip_ws r') (acc ++ [v])
          | _ => None
          end
      | None => None
      end
  end.

(** [json.loads(s)]. *)
Definition loads (s : string) : option pyval :=
  match value (S (String.length s)) (skip_ws s) with
  | Some (v, r) =>
      match skip_ws r with
      | EmptyString => Some v
      | _ => None
      end
  | None => None
  end.

End Json.

(** ** MD5 and Base64 *)

(** [hashlib.md5(s.encode()).hexdigest()] (RFC 1321) over 32-bit words
    held in [Z], with the wrap-around written out. *)
Module Md5.

Definition mask32 (x : Z) : Z := x mod 2 ^ 32.

Definition rotl (x n : Z) : Z :=
  mask32 (Z.lor (Z.shiftl x n) (Z.shiftr (mask32 x) (32 - n))).

Definition lnot32 (x : Z) : Z := Z.lxor (mask32 x) (2 ^ 32 - 1).

Definition shifts : list Z :=
  [7; 12; 17; 22; 7; 12; 17; 22; 7; 12; 17; 22; 7; 12; 17; 22;
   5; 9; 14; 20; 5; 9; 14; 20; 5; 9; 14; 20; 5; 9; 14; 20;
   4; 11; 16; 23; 4; 11; 16; 23; 4; 11; 16; 23; 4; 11; 16; 23;
   6; 10; 15; 21; 6; 10; 15; 21; 6; 10; 15; 21; 6; 10; 15; 21].

Definition sines : list Z :=
  [3614090360; 3905402710; 606105819; 3250441966;
   4118548399; 1200080426; 2821735955; 4249261313;
   1770035416; 2336552879; 4294925233; 2304563134;
   1804603682; 4254626195; 2792965006; 1236535329;
   4129170786; 3225465664; 643717713; 3921069994;
   3593408605; 38016083; 3634488961; 3889429448;
   568446438; 3275163606; 4107603335; 1163531501;
   2850285829; 4243563512; 1735328473; 2368359562;
   4294588738; 2272392833; 1839030562; 4259657740;
   2763975236; 1272893353; 4139469664; 3200236656;
   681279174; 3936430074; 3572445317; 76029189;
   3654602809; 3873151461; 530742520; 3299628645;
   4096336452; 1126891415; 2878612391; 4237533241;
   1700485571; 2399980690; 4293915773; 2240044497;
   1873313359; 4264355552; 2734768916; 1309151649;
   4149444226; 3174756917; 718787259; 3951481745].

Definition bytes_of (s : string) : list Z :=
  map (fun c => Z.of_nat (nat_of_ascii c)) (list_ascii_of_string s).

(** [n] on [k] bytes, least significant first. *)
Fixpoint le_bytes (k : nat) (n : Z) : list Z :=
  match k with
  | O => []
  | S k' => n mod 256 :: le_bytes k' (n / 256)
  end.

(** The message, a one bit, zeros up to 56 modulo 64, the bit length. *)
Definition pad (m : list Z) : list Z :=
  let len := Z.of_nat (length m) in
  let zeros := Z.to_nat ((55 - len) mod 64) in
  m ++ [128] ++ repeat 0 zeros ++ le_bytes 8 ((len * 8) mod 2 ^ 64).

Fixpoint words (k : nat) (b : list Z) : list Z :=
  match k with
  | O => []
  | S k' =>
      match b with
      | b0 :: b1 :: b2 :: b3 :: r =>
          (b0 + 256 * (b1 + 256 * (b2 + 256 * b3))) :: words k' r
      | _ => []
      end
  end.

Definition round (m : list Z) (st : Z * Z * Z * Z) (i : nat) : Z * Z * Z * Z :=
  let '(a, b, c, d) := st in
  let '(f, g) :=
    if (i <? 16)%nat then
      (Z.lor (Z.land b c) (Z.land (lnot32 b) d), i)
    else if (i <? 32)%nat then
      (Z.lor (Z.land d b) (Z.land (lnot32 d) c), ((5 * i + 1) mod 16)%nat)
    else if (i <? 48)%nat then
      (Z.lxor b (Z.lxor c d), ((3 * i + 5) mod 16)%nat)
    else
      (Z.lxor c (Z.lor b (lnot32 d)), ((7 * i) mod 16)%nat) in
  let f' := mask32 (f + a + nth i sines 0 + nth g m 0) in
  (d, mask32 (b + rotl f' (nth i shifts 0)), b, c).

Definition block (st : Z * Z * Z * Z) (m : list Z) : Z * Z * Z * Z :=
  let '(a0, b0, c0, d0) := st in
  let '(a, b, c, d) := fold_left (round m) (seq 0 64) st in
  (mask32 (a0 + a), mask32 (b0 + b), mask32 (c0 + c), mask32 (d0 + d)).

Fixpoint blocks (n : nat) (b : list Z) (st : Z * Z * Z * Z) : Z * Z * Z * Z :=
  match n with
  | O => st
  | S n' => blocks n' (drop 64 b) (block st (words 16 b))
  end.

Definition hex_digit (n : Z) : ascii :=
  ascii_of_nat (Z.to_nat (if n <? 10 then 48 + n else 87 + n)).

Definition hex_byte (b : Z) : string :=
  String (hex_digit (b / 16)) (String (hex_digit (b mod 16)) EmptyString).

Definition hexdigest (s : string) : string :=
  let p := pad (bytes_of s) in
  let '(a, b, c, d) :=
    blocks (length p / 64) p (1732584193, 4023233417, 2562383102, 271733878) in
  String.concat ""
    (map hex_byte (le_bytes 4 a ++ le_bytes 4 b ++ le_bytes 4 c ++ le_bytes 4 d)).

End Md5.

(** [base64.b64encode(b).decode('utf-8')]. *)
Module Base64.

Definition alphabet : string :=
  "ABCDEFGHIJKLMNOPQRSTUVWXYZabcdefghijklmnopqrstuvwxyz0123456789+/".

Definition sextet (n : Z) : ascii :=
  default "="%char (String.get (Z.to_nat n) alphabet).

Definition code (c : ascii) : Z := Z.of_nat (nat_of_ascii c).

Fixpoint encode (s : string) : string :=
  match s with
  | String a (String b (String c r)) =>
      let n := (code a * 256 + code b) * 256 + code c in
      String (sextet (n / 262144))
        (String (sextet ((n / 4096) mod 64))
           (String (sextet ((n / 64) mod 64))
              (String (sextet (n mod 64)) (encode r))))
  | String a (String b EmptyString) =>
      let n := (code a * 256 + code b) * 256 in
      String (sextet (n / 262144))
        (String (sextet ((n / 4096) mod 64))
           (String (sextet ((n / 64) mod 64)) "="))
  | String a EmptyString =>
      let n := code a * 65536 in
      String (sextet (n / 262144))
        (String (sextet ((n / 4096) mod 64)) "==")
  | EmptyString => EmptyString
  end.

End Base64.

(** The library as the examples use it. *)
Definition python : PyLib :=
  {| json_loads := Json.loads;
     md5_hexdigest := Md5.hexdigest;
     b64encode := Base64.encode |}.

(** ** Serving requests one after the other *)

(** A request as it reaches the server: the instant it arrives, what it
    carries, and what the surroundings do while it is served. *)
Record Arrival : Type := mkArrival {
  arrives_at : Z;
  request : Request;
  surroundings : Env
}.

(** The requests are served in turn, each one to completion. *)
Fixpoint serve (h : Handler) (calls : list Arrival) (w : World)
  : list Reply * World :=
  match calls with
  | [] => ([], w)
  | a :: rest =>
      let '(r, w1) := h (request a) (surroundings a) (set_clock (arrives_at a) w) in
      let '(rs, w2) := serve h rest w1 in
      (r :: rs, w2)
  end.

(** The local calendar day an instant falls on, as a day number, in a
    zone whose offset from UTC at each instant is [utc_offset]. *)
Definition local_day (utc_offset : Z -> Z) (t : Z) : Z :=
  (t + utc_offset t * Calendar.us_per_second) / Calendar.us_per_day.

Definition reply_status (r : Reply) : option Z :=
  match r with
  | Bare _ => None
  | WithStatus _ s => Some s
  end.

(** The calls to one provider in a log. *)
Definition calls_to (p : Provider) (log : list NetCall) : list NetCall :=
  List.filter
    (fun c => match call_provider c, p with
              | Gemini, Gemini | OpenAI, OpenAI => true
              | _, _ => false
              end) log.

(** The key under which a signed-in user's requests of local day [d] are
    counted. *)
Definition user_key (user_id : string) (d : Z) : string :=
  "rate_limit:user:" +:+ user_id +:+ ":" +:+
  Calendar.strftime_ymd (Calendar.of_microseconds (d * Calendar.us_per_day)).

(** Read at any of the instants [T], the counter under [key] stands at
    [k]. *)
Definition counter_at (T : Z -> Prop) (key : string) (k : Z)
    (r : gmap string (Z * option Z)) : Prop :=
  forall t, T t -> default 0 (Redis.get t key r) = k.

(** The instants that come less than 86400 seconds after each of the
    requests: what [EXPIRE key 86400] has set while one of them was
    served has not run out then. *)
Definition soon_after (calls : list Arrival) (t : Z) : Prop :=
  Forall (fun a => t < arrives_at a + 86400 * Calendar.us_per_second) calls.

(** The requests arrive within less than 86400 seconds of one another.
    Requests of one local calendar day do where the day has its 24 hours;
    a day made longer by the end of daylight saving has room for requests
    further apart. *)
Definition within_24h (calls : list Arrival) : Prop :=
  Forall (fun a => soon_after calls (arrives_at a)) calls.

(** A request of the signed-in user [user_id] that arrives on local day
    [d]. *)
Definition of_the_day (user_id : string) (utc_offset : Z -> Z) (d : Z)
    (a : Arrival) : Prop :=
  session_user_id (request a) = Some user_id /\
  local_day utc_offset (arrives_at a) = d.

(** The midnight that starts the local calendar day after the current
    one. *)
Definition next_local_midnight (w : World) : datetime :=
  Calendar.of_microseconds
    ((local_day (utc_offset w) (clock w) + 1) * Calendar.us_per_day).

(** The parts of the world that an outgoing call does not touch. *)
Definition same_stores (w w' : World) : Prop :=
  redis w' = redis w /\ utc_offset w' = utc_offset w /\ files w' = files w.

(** The reply to a request that passed the quota check as the [used]-th
    of its day: the bare response of a successful extraction, or a tuple
    other than the denial whose body reports the counts. *)
Definition allowed_reply (used limit : Z) (r : Reply) : Prop :=
  match r with
  | Bare body => Dict.get body "success" = Some (PyBool true)
  | WithStatus body status =>
      status <> 429 /\
      Dict.get body "rate_limit" =
        Some (PyDict [("used", PyInt used);
                      ("limit", PyInt limit);
                      ("remaining", PyInt (limit - used))])
  end.

(** ** The wording of the specification *)

(** Notions the specification uses and the module does not compute; they
    are what the module's behaviour is compared with. *)
Module Spec.

(** The seven keys of ShotMetrics. *)
Definition metric_keys : list string :=
  ["ball_speed"; "launch_angle"; "spin_rate"; "carry_distance";
   "club_speed"; "smash_factor"; "apex_height"].

(** A ShotMetrics record holds the seven keys and [units], nothing
    else. *)
Definition within_schema (v : pyval) : bool :=
  match v with
  | PyDict d =>
      forallb (fun k => existsb (String.eqb k) ("units" :: metric_keys))
              (Dict.keys d)
  | _ => false
  end.

(** The text up to the brace that closes [depth] open braces. *)
Fixpoint closing (depth : nat) (s : string) : option string :=
  match s with
  | EmptyString => None
  | String c r =>
      if Ascii.eqb c Re.lbrace then
        option_map (String c) (closing (S depth) r)
      else if Ascii.eqb c Re.rbrace then
        match depth with
        | O => Some (String c EmptyString)
        | S d => option_map (String c) (closing d r)
        end
      else option_map (String c) (closing depth r)
  end.

(** "The first syntactically balanced object-literal substring". *)
Fixpoint first_balanced_object (s : string) : option string :=
  match s with
  | EmptyString => None
  | String c r =>
      if Ascii.eqb c Re.lbrace then
        match closing 0 r with
        | Some body => Some (String c body)
        | None => first_balanced_object r
        end
      else first_balanced_object r
  end.

(** "UTC midnight following the current moment". *)
Definition next_utc_midnight (w : World) : datetime :=
  Calendar.of_microseconds
    ((clock w / Calendar.us_per_day + 1) * Calendar.us_per_day).

(** "The remaining global time budget": the budget minus the time
    consumed since the request started, in seconds. *)
Definition remaining_budget (cfg : Config) (started now : Z) : Q :=
  (RESPONSE_TIMEOUT cfg - Qmake (now - started) 1000000)%Q.


End Spec.

(** ** Sample inputs *)

Module Sample.

Definition cfg : Config := CONFIG (Some "sk-openai") (Some "g-key").

(** 2024-01-01T12:00:00 UTC. *)
Definition noon : Z := 1704110400000000.

Definition world0 : World :=
  {| clock := noon; utc_offset := fun _ => 0; redis := ∅; files := ∅;
     posts := [] |}.

Definition image : UploadedFile :=
  {| filename := "shot.jpg"; content := "hello" |}.

Definition anonymous : Request :=
  {| session_user_id := None; x_forwarded_for := None;
     remote_addr := "10.0.0.7"; files_image := Some image |}.

Definition signed_in : Request :=
  {| session_user_id := Some "u1"; x_forwarded_for := None;
     remote_addr := "10.0.0.7"; files_image := Some image |}.

Definition no_image : Request :=
  {| session_user_id := Some "u1"; x_forwarded_for := None;
     remote_addr := "10.0.0.7"; files_image := None |}.

(** The reply envelope of Gemini around a completion text. *)
Definition gemini_envelope (text : string) : pyval :=
  PyDict [("candidates",
           PyList [PyDict [("content",
                            PyDict [("parts",
                                     PyList [PyDict [("text", PyStr text)]])])]])].

(** The reply envelope of OpenAI around a completion text. *)
Definition openai_envelope (text : string) : pyval :=
  PyDict [("choices",
           PyList [PyDict [("message",
                            PyDict [("content", PyStr text)])]])].

Definition answer (gemini openai : NetReply) : NetCall -> NetReply :=
  fun c => match call_provider c with
           | Gemini => gemini
           | OpenAI => openai
           end.

Definition ok_reply (body : pyval) (took : Z) : NetReply :=
  {| reply := Some {| status_code := 200; json_body := Some body |};
     duration := took |}.

Definition timed_out (took : Z) : NetReply :=
  {| reply := None; duration := took |}.

(** [s] between double quotes. *)
Definition quoted (s : string) : string :=
  String Json.dquote s +:+ String Json.dquote EmptyString.

(** Two metrics inside a sentence:
    [Sure, here is the data: {"ball_speed": 150.2, "launch_angle": null}]. *)
Definition metrics_text : string :=
  "Sure, here is the data: {" +:+ quoted "ball_speed" +:+ ": 150.2, " +:+
  quoted "launch_angle" +:+ ": null}".

(** [{"ball_speed": 150, "foo": 1}]. *)
Definition extra_key_text : string :=
  "{" +:+ quoted "ball_speed" +:+ ": 150, " +:+ quoted "foo" +:+ ": 1}".

(** [{"a": 1}]. *)
Definition first_object_text : string :=
  "{" +:+ quoted "a" +:+ ": 1}".

(** [{"a": 1} and {"b": 2}]. *)
Definition two_objects_text : string :=
  first_object_text +:+ " and {" +:+ quoted "b" +:+ ": 2}".

(** Gemini answers with metrics after 0.4 s; OpenAI is not needed. *)
Definition gemini_good : Env :=
  {| requests_post :=
       answer (ok_reply (gemini_envelope metrics_text) 400000)
              (timed_out 2000000);
     open_for_write := None; write_error := None |}.


(** Gemini answers with a document that has a key outside the schema. *)
Definition gemini_extra_key : Env :=
  {| requests_post :=
       answer (ok_reply (gemini_envelope extra_key_text) 400000)
              (timed_out 2000000);
     open_for_write := None; write_error := None |}.

(** Gemini runs into its timeout after 2.5 s; OpenAI then answers. *)
Definition gemini_slow : Env :=
  {| requests_post :=
       answer (timed_out 2500000)
              (ok_reply (openai_envelope metrics_text) 700000);
     open_for_write := None; write_error := None |}.

(** Gemini answers with an empty object; OpenAI then answers. *)
Definition gemini_empty : Env :=
  {| requests_post :=
       answer (ok_reply (gemini_envelope "{}") 300000)
              (ok_reply (openai_envelope metrics_text) 700000);
     open_for_write := None; write_error := None |}.

(** Both providers fail. *)
Definition all_down : Env :=
  {| requests_post := answer (timed_out 2000000) (timed_out 2000000);
     open_for_write := None; write_error := None |}.

Definition quota_key_u1 : string := "rate_limit:user:u1:2024-01-01".

(** One slot left for [u1]. *)
Definition one_slot_left : gmap string (Z * option Z) :=
  {[ quota_key_u1 := (19, None) ]}.

Definition interleaved : list Interleaving.call :=
  [Interleaving.First; Interleaving.Second;
   Interleaving.First; Interleaving.Second;
   Interleaving.First; Interleaving.Second].


(** Twenty requests of [u1] at noon, and one more. *)
Definition at_noon (req : Request) (env : Env) : Arrival :=
  {| arrives_at := noon; request := req; surroundings := env |}.

Definition twenty : list Arrival :=
  replicate 10 (at_noon no_image all_down) ++
  replicate 10 (at_noon signed_in all_down).

Definition one_more : Arrival := at_noon signed_in gemini_good.

(** A server two hours east of UTC that has not counted anything yet;
    the requests arrive at 2024-01-01T23:30:00 UTC. *)
Definition world_east0 : World :=
  {| clock := 1704151800000000; utc_offset := fun _ => 7200;
     redis := ∅; files := ∅; posts := [] |}.

Definition late_evening : Arrival :=
  {| arrives_at := 1704151800000000; request := no_image;
     surroundings := all_down |}.

(** Half a second past noon on a server that runs on UTC. *)
Definition world_half_past : World :=
  {| clock := noon + 500000; utc_offset := fun _ => 0;
     redis := ∅; files := ∅; posts := [] |}.

End Sample.

(** ** The session and the remaining views *)

(** [v[k]] for a string key, with the exception that a failure raises. *)
Definition subscript (v : pyval) (k : string) : result pyval :=
  match v with
  | PyDict d =>
      match Dict.get d k with
      | Some x => Ok x
      | None => Raise (mkExn "KeyError" ("'" +:+ k +:+ "'"))
      end
  | PyList _ =>
      Raise (mkExn "TypeError" "list indices must be integers or slices, not str")
  | PyStr _ =>
      Raise (mkExn "TypeError" "string indices must be integers, not 'str'")
  | _ =>
      Raise (mkExn "TypeError"
               ("'" +:+ type_name v +:+ "' object is not subscriptable"))
  end.

(** [d.get(k, default)] on a value that is a dict. *)
Definition get_or (v : pyval) (k : string) (dflt : pyval) : pyval :=
  match v with
  | PyDict d => default dflt (Dict.get d k)
  | _ => dflt
  end.

(** [auth_callback], given the token that
    [google.authorize_access_token()] returned and the session of the
    caller.  The session is written key by key, so an exception leaves the
    keys written before it.  Where [get_or] is reached [user_info] is a
    dict, its two subscripts having succeeded. *)
Definition auth_callback (token session : list (string * pyval))
  : result Reply * list (string * pyval) :=
  match Dict.get token "userinfo" with
  | Some user_info =>
      if truthy user_info then
        match subscript user_info "sub" with
        | Raise e => (Raise e, session)
        | Ok sub =>
            let session1 := Dict.set session "user_id" sub in
            match subscript user_info "email" with
            | Raise e => (Raise e, session1)
            | Ok email =>
                let session2 := Dict.set session1 "user_email" email in
                let session3 :=
                  Dict.set session2 "user_name"
                           (get_or user_info "name" (PyStr "User")) in
                (Ok (Bare [("success", PyBool true);
                           ("user",
                            PyDict [("id", sub);
                                    ("email", email);
                                    ("name", get_or user_info "name" PyNone)])]),
                 session3)
            end
        end
      else
        (Ok (WithStatus [("error", PyStr "Authentication failed")] 401), session)
  | None =>
      (Ok (WithStatus [("error", PyStr "Authentication failed")] 401), session)
  end.

(** [logout]: [session.clear()]. *)
Definition logout (session : list (string * pyval))
  : Reply * list (string * pyval) :=
  (Bare [("success", PyBool true)], []).

(** [auth_status]. *)
Definition auth_status (session : list (string * pyval)) : result Reply :=
  match Dict.get session "user_id" with
  | Some user_id =>
      match subscript (PyDict session) "user_email" with
      | Raise e => Raise e
      | Ok email =>
          match subscript (PyDict session) "user_name" with
          | Raise e => Raise e
          | Ok name =>
              Ok (Bare [("authenticated", PyBool true);
                        ("user", PyDict [("id", user_id);
                                         ("email", email);
                                         ("name", name)])])
          end
      end
  | None => Ok (Bare [("authenticated", PyBool false)])
  end.




(** [health_check], given the outcome of [redis_client.ping()]. *)
Definition health_check (cfg : Config) (ping : result pyval) (w : World)
  : result Reply :=
  match ping with
  | Raise e => Raise e
  | Ok pong =>
      Ok (Bare [("status", PyStr "healthy");
                ("timestamp", PyStr (Calendar.isoformat (datetime_now w)));
                ("services",
                 PyDict [("openai", PyBool (truthy_str (OPENAI_API_KEY cfg)));
                         ("gemini", PyBool (truthy_str (GEMINI_API_KEY cfg)));
                         ("redis", pong)])])
  end.

(** ** Notions used to state how requests add up *)

(** The key under which the anonymous requests from address [ip] of local
    day [d] are counted. *)
Definition anon_key (ip : string) (d : Z) : string :=
  "rate_limit:anon:" +:+ ip +:+ ":" +:+
  Calendar.strftime_ymd (Calendar.of_microseconds (d * Calendar.us_per_day)).

(** The address an anonymous request is counted under. *)
Definition counted_address (req : Request) : string :=
  default (remote_addr req) (x_forwarded_for req).

(** An anonymous request counted under address [ip] that arrives on local
    day [d]. *)
Definition anonymous_from (ip : string) (utc_offset : Z -> Z) (d : Z)
    (a : Arrival) : Prop :=
  truthy_str (session_user_id (request a)) = false /\
  counted_address (request a) = ip /\
  local_day utc_offset (arrives_at a) = d.

(** A request that is counted under [key] with limit [limit] in the zone
    [off]. *)
Definition counted_under (cfg : Config) (off : Z -> Z) (key : string)
    (limit : Z) (a : Arrival) : Prop :=
  forall w, utc_offset w = off ->
            quota_key cfg (request a) (set_clock (arrives_at a) w)
              = (key, limit).

(** A request counted under [key] that arrives at one of the instants
    [T], each of which comes less than 86400 seconds after it. *)
Definition counted_at (cfg : Config) (off : Z -> Z) (key : string)
    (limit : Z) (T : Z -> Prop) (a : Arrival) : Prop :=
  counted_under cfg off key limit a /\
  T (arrives_at a) /\
  forall t, T t -> t < arrives_at a + 86400 * Calendar.us_per_second.

(** What [save_shot] can add a record to: no file, a file that does not
    decode, or one that holds a dict with a list under ['shots']. *)
Definition well_shaped (f : option file) : Prop :=
  match f with
  | None | Some Unreadable => True
  | Some (Document (PyDict d)) =>
      exists l, Dict.get d "shots" = Some (PyList l)
  | Some (Document _) => False
  end.

(** Every file of the store is of that kind. *)
Definition ledgers_ok (w : World) : Prop :=
  forall path, well_shaped (files w !! path).

(** The storage takes the write: the file opens and is written to the
    end. *)
Definition storage_accepts (env : Env) : Prop :=
  open_for_write env = None /\ write_error env = None.

(** The write breaks off: the file opens, and is emptied, and the write
    into it fails. *)
Definition write_breaks_off (env : Env) : Prop :=
  open_for_write env = None /\ is_Some (write_error env).

(** None of the requests of [user_id] has its write break off. *)
Definition writes_complete (user_id : string) (calls : list Arrival) : Prop :=
  Forall (fun a => session_user_id (request a) = Some user_id ->
                   ~ write_breaks_off (surroundings a)) calls.

(** How many of the requests were made by [user_id] and answered with a
    bare success response. *)
Fixpoint stored_for (user_id : string) (calls : list Arrival)
    (replies : list Reply) : nat :=
  match calls, replies with
  | a :: calls', r :: replies' =>
      (if bool_decide (session_user_id (request a) = Some user_id)
          && negb (is_tuple r)
       then 1 else 0)%nat + stored_for user_id calls' replies'
  | _, _ => 0%nat
  end.

(** ** Notions used to follow two calls at once *)

(** What a call has added to the counter: one once it has issued its
    [INCR]. *)
Definition bumped (p : Interleaving.pc) : Z :=
  match p with
  | Interleaving.AtExpire _ | Interleaving.Allowed _ => 1
  | _ => 0
  end.

(** What holds of one call next to the other while they run, [c] being
    the count before both: the count it read lies between [c] and [c] plus
    what the other had added, and it is denied only after the other's
    [INCR]. *)
Definition sound (c : Z) (p other : Interleaving.pc) : Prop :=
  match p with
  | Interleaving.AtIncr cur => c <= cur <= c + bumped other
  | Interleaving.Denied => bumped other = 1
  | _ => True
  end.

(** The counter stands at [c] plus what the two calls have added, and
    each call is sound next to the other. *)
Definition in_step (now : Z) (key : string) (c : Z) (s : Interleaving.state)
  : Prop :=
  default 0 (Redis.get now key (Interleaving.store s))
    = c + bumped (Interleaving.pc_first s) + bumped (Interleaving.pc_second s) /\
  sound c (Interleaving.pc_first s) (Interleaving.pc_second s) /\
  sound c (Interleaving.pc_second s) (Interleaving.pc_first s).

(** ** More sample inputs *)

Module Example.

(** Neither provider is configured. *)
Definition no_keys : Config := CONFIG None None.

(** An anonymous request that carries an [X-Forwarded-For] header. *)
Definition forwarded (h : string) : Request :=
  {| session_user_id := None; x_forwarded_for := Some h;
     remote_addr := "10.0.0.7"; files_image := Some Sample.image |}.

(** Four anonymous requests from one address, each with its own header. *)
Definition four_headers : list Arrival :=
  [Sample.at_noon (forwarded "198.51.100.1") Sample.gemini_good;
   Sample.at_noon (forwarded "198.51.100.2") Sample.gemini_good;
   Sample.at_noon (forwarded "198.51.100.3") Sample.all_down;
   Sample.at_noon (forwarded "198.51.100.4") Sample.gemini_good].

(** Five anonymous requests from one address without the header. *)
Definition five_anonymous : list Arrival :=
  replicate 5 (Sample.at_noon Sample.anonymous Sample.all_down).

(** Twenty-two requests of [u1]. *)
Definition twenty_two : list Arrival :=
  Sample.twenty ++ [Sample.one_more; Sample.one_more].


(** As [Sample.gemini_good], on a disk that takes the file and runs full
    while it is written. *)
Definition write_fails : Env :=
  {| requests_post := requests_post Sample.gemini_good;
     open_for_write := None;
     write_error := Some "[Errno 28] No space left on device" |}.

(** A success of [u1], a request of [u1] whose write breaks off, and a
    success of [u1] again. *)
Definition broken_write : list Arrival :=
  [Sample.at_noon Sample.signed_in Sample.gemini_good;
   Sample.at_noon Sample.signed_in write_fails;
   Sample.at_noon Sample.signed_in Sample.gemini_good].

(** The counter of [u1] stands at the limit. *)
Definition world_at_limit : World :=
  set_redis {[ Sample.quota_key_u1 := (20, None) ]} Sample.world0.

(** The file of [u1] holds one shot. *)
Definition world_one_shot : World :=
  snd (save_shot (H := python) "u1"
         (PyDict [("ball_speed", PyFloat (751 # 5)); ("launch_angle", PyNone)])
         Sample.gemini_good Sample.world0).

(** The file of [u1] exists and does not decode. *)
Definition world_unreadable : World :=
  set_files {[ user_file "u1" := Unreadable ]} Sample.world0.

(** The file of [u1] holds the empty object. *)
Definition world_misshapen : World :=
  set_files {[ user_file "u1" := Document (PyDict []) ]} Sample.world0.

Definition metrics : pyval :=
  PyDict [("ball_speed", PyFloat (751 # 5)); ("launch_angle", PyNone)].


(** A zone two hours east of UTC until 2024-10-27T01:00:00 UTC and one
    hour east of it from then on: its 27 October 2024 has 25 hours. *)
Definition autumn_offset (t : Z) : Z :=
  if t <? 1729990800000000 then 7200 else 3600.

(** A server in that zone that has not counted anything yet. *)
Definition world_autumn : World :=
  {| clock := 1729980300000000; utc_offset := autumn_offset;
     redis := ∅; files := ∅; posts := [] |}.

(** A request of [u1] at 2024-10-26T22:05:00 UTC, five minutes past
    midnight of the 27th there. *)
Definition after_midnight : Arrival :=
  {| arrives_at := 1729980300000000; request := Sample.signed_in;
     surroundings := Sample.all_down |}.

(** A request of [u1] at 2024-10-27T22:30:00 UTC, half an hour before the
    midnight that ends the 27th there. *)
Definition before_midnight : Arrival :=
  {| arrives_at := 1730068200000000; request := Sample.signed_in;
     surroundings := Sample.all_down |}.

(** The token of a user with an id and an e-mail address. *)
Definition token : list (string * pyval) :=
  [("access_token", PyStr "ya29");
   ("userinfo", PyDict [("sub", PyStr "u1");
                        ("email", PyStr "u1@example.org");
                        ("name", PyStr "Pat")])].

(** The token of a user whose user info has no e-mail address. *)
Definition token_without_email : list (string * pyval) :=
  [("userinfo", PyDict [("sub", PyStr "u2")])].

(** The session of [u1] once signed in. *)
Definition session_u1 : list (string * pyval) :=
  [("user_id", PyStr "u1");
   ("user_email", PyStr "u1@example.org");
   ("user_name", PyStr "Pat")].

End Example.

(** * Properties *)

#[local] Arguments String.append !s1 s2 : simpl nomatch.
Local Open Scope list_scope.

(** ** Dicts *)

Lemma dict_get_set_eq d k v : Dict.get (Dict.set d k v) k = Some v.
Proof.
  induction d as [|[k' v'] d IH]; simpl.
  - by rewrite String.eqb_refl.
  - destruct (String.eqb k' k) eqn:E; simpl; rewrite E; [done | exact IH].
Qed.

Lemma dict_get_set_ne d k k' v :
  k <> k' -> Dict.get (Dict.set d k v) k' = Dict.get d k'.
Proof.
  intros Hne. induction d as [|[k0 v0] d IH]; simpl.
  - destruct (String.eqb k k') eqn:E; [|done].
    apply String.eqb_eq in E. contradiction.
  - destruct (String.eqb k0 k) eqn:E; simpl.
    + apply String.eqb_eq in E. subst k0.
      destruct (String.eqb k k') eqn:E'; [|done].
      apply String.eqb_eq in E'. contradiction.
    + destruct (String.eqb k0 k'); [done | exact IH].
Qed.

(** ** Strings *)

Lemma append_assoc (a b c : string) : (a +:+ b) +:+ c = a +:+ (b +:+ c).
Proof. induction a as [|x a IH]; simpl; [done | by rewrite IH]. Qed.

Lemma append_nil_r (a : string) : a +:+ "" = a.
Proof. induction a as [|x a IH]; simpl; [done | by rewrite IH]. Qed.

Lemma append_length (a b : string) :
  String.length (a +:+ b) = (String.length a + String.length b)%nat.
Proof. induction a as [|x a IH]; simpl; [done | by rewrite IH]. Qed.

(** A common suffix can be cancelled. *)
Lemma append_cancel_r (a b c : string) : a +:+ c = b +:+ c -> a = b.
Proof.
  revert b. induction a as [|x a IH]; intros [|y b] E; simpl in E.
  - done.
  - apply (f_equal String.length) in E. simpl in E.
    rewrite append_length in E. lia.
  - apply (f_equal String.length) in E. simpl in E.
    rewrite append_length in E. lia.
  - injection E as -> E. f_equal. by apply IH.
Qed.

(** ** The regular expression *)

Lemma after_first_lbrace_Some s r :
  Re.after_first_lbrace s = Some r ->
  exists pre, s = pre +:+ String Re.lbrace r /\ Re.lacks Re.lbrace pre = true.
Proof.
  revert r. induction s as [|c s IH]; intros r; simpl; [done|].
  destruct (Ascii.eqb c Re.lbrace) eqn:E.
  - intros [= ->]. apply Ascii.eqb_eq in E. subst c. by exists "".
  - intros Hs. destruct (IH _ Hs) as (pre & -> & Hpre).
    exists (String c pre). simpl. by rewrite E, Hpre.
Qed.

Lemma after_first_lbrace_None s :
  Re.after_first_lbrace s = None -> Re.lacks Re.lbrace s = true.
Proof.
  induction s as [|c s IH]; simpl; [done|].
  destruct (Ascii.eqb c Re.lbrace); [done|]. exact IH.
Qed.

Lemma upto_last_rbrace_None s :
  Re.upto_last_rbrace s = None -> Re.lacks Re.rbrace s = true.
Proof.
  induction s as [|c s IH]; simpl; [done|].
  destruct (Re.upto_last_rbrace s); [done|].
  destruct (Ascii.eqb c Re.rbrace); [done|]. intros _. by apply IH.
Qed.

Lemma upto_last_rbrace_Some s p :
  Re.upto_last_rbrace s = Some p ->
  exists body post,
    s = body +:+ String Re.rbrace post /\
    p = body +:+ String Re.rbrace "" /\
    Re.lacks Re.rbrace post = true.
Proof.
  revert p. induction s as [|c s IH]; intros p; simpl; [done|].
  destruct (Re.upto_last_rbrace s) as [q|] eqn:E.
  - intros [= <-]. destruct (IH _ eq_refl) as (body & post & -> & -> & Hpost).
    by exists (String c body), post.
  - destruct (Ascii.eqb c Re.rbrace) eqn:Ec; [|done].
    intros [= <-]. apply Ascii.eqb_eq in Ec. subst c.
    exists "", s. split_and!; [done | done |].
    by apply upto_last_rbrace_None.
Qed.

(** A string without [c] is not of the form [a ++ c :: b]. *)
Lemma lacks_no_occurrence c s a b :
  Re.lacks c s = true -> s <> a +:+ String c b.
Proof.
  revert s. induction a as [|x a IH]; intros [|y s]; simpl; try done.
  - rewrite andb_true_iff, negb_true_iff. intros [Hy _] [= -> _].
    by rewrite Ascii.eqb_refl in Hy.
  - rewrite andb_true_iff. intros [_ Hs] [= _ E]. by apply (IH s).
Qed.

(** [Re.search] finds the text from the leftmost ["{"] to the rightmost
    ["}"] after it, and fails exactly when no ["{"] has a ["}"] after it. *)
Lemma search_leftmost_longest text :
  match Re.search text with
  | Some m =>
      exists pre body post,
        text = pre +:+ "{" +:+ body +:+ "}" +:+ post /\
        m = "{" +:+ body +:+ "}" /\
        Re.lacks Re.lbrace pre = true /\
        Re.lacks Re.rbrace post = true
  | None =>
      forall pre body post, text <> pre +:+ "{" +:+ body +:+ "}" +:+ post
  end.
Proof.
  unfold Re.search.
  destruct (Re.after_first_lbrace text) as [r|] eqn:E1.
  - destruct (after_first_lbrace_Some _ _ E1) as (pre & -> & Hpre).
    destruct (Re.upto_last_rbrace r) as [p|] eqn:E2.
    + destruct (upto_last_rbrace_Some _ _ E2) as (body & post & -> & -> & Hpost).
      exists pre, body, post. split_and!; try done.
    + intros pre' body post E.
      apply upto_last_rbrace_None in E2.
      (* the leftmost brace of both decompositions is the same one *)
      assert (Hsuf : forall a b, Re.lacks Re.lbrace a = true ->
                 a +:+ String Re.lbrace r = b +:+ "{" +:+ body +:+ "}" +:+ post ->
                 exists u, r = u +:+ String Re.rbrace post).
      { clear. induction a as [|x a IH]; intros [|y b]; simpl.
        - intros _ [= ->]. by exists body.
        - intros _ [= <- ->]. exists (b +:+ "{" +:+ body).
          by rewrite !append_assoc.
        - rewrite andb_true_iff, negb_true_iff. intros [Hx _] [= -> _].
          by rewrite Ascii.eqb_refl in Hx.
        - rewrite andb_true_iff. intros [_ Ha] [= _ E]. by apply (IH b). }
      destruct (Hsuf _ _ Hpre E) as [u Hu].
      by apply (lacks_no_occurrence _ _ u post) in E2.
  - intros pre body post E. apply after_first_lbrace_None in E1.
    by apply (lacks_no_occurrence _ _ pre (body +:+ "}" +:+ post)) in E1.
Qed.

(** ** The calendar *)

(** Within an era of 400 years: the year of the era and the day of that
    year are in range. *)
Lemma year_of_era_bounds doe :
  0 <= doe < 146097 ->
  let yoe := (doe - doe / 1460 + doe / 36524 - doe / 146096) / 365 in
  0 <= yoe <= 399 /\
  0 <= doe - (365 * yoe + yoe / 4 - yoe / 100) <= 365.
Proof. intros Hdoe yoe. subst yoe. Z.div_mod_to_equations. lia. Qed.

(** [date.fromordinal(d.toordinal())] is [d] again, for the date of any
    day number. *)
Lemma days_from_civil_from_days z :
  let '(y, m, d) := Calendar.civil_from_days z in
  Calendar.days_from_civil y m d = z.
Proof.
  unfold Calendar.civil_from_days, Calendar.days_from_civil. cbv zeta.
  set (z' := z + 719468). set (era := z' / 146097).
  set (doe := z' - era * 146097).
  assert (Hdoe : 0 <= doe < 146097).
  { unfold doe, era. pose proof (Z.div_mod z' 146097).
    pose proof (Z.mod_pos_bound z' 146097). lia. }
  destruct (year_of_era_bounds doe Hdoe) as [Hyoe Hdoy].
  set (yoe := (doe - doe / 1460 + doe / 36524 - doe / 146096) / 365) in *.
  set (doy := doe - (365 * yoe + yoe / 4 - yoe / 100)) in *.
  set (mp := (5 * doy + 2) / 153).
  assert (Hmp : 0 <= mp <= 11) by (unfold mp; Z.div_mod_to_equations; lia).
  assert (Hera : forall y', y' = yoe + era * 400 ->
            y' / 400 = era /\ y' - y' / 400 * 400 = yoe).
  { intros y' ->. rewrite Z.div_add, Z.div_small by lia. lia. }
  destruct (Z.ltb_spec mp 10) as [Hlt|Hge].
  - destruct (Z.leb_spec (mp + 3) 2) as [|_]; [lia|].
    destruct (Z.ltb_spec 2 (mp + 3)) as [_|]; [|lia].
    destruct (Hera (yoe + era * 400) eq_refl) as [-> ->].
    replace (mp + 3 - 3) with mp by lia.
    unfold doy, z'. lia.
  - destruct (Z.leb_spec (mp - 9) 2) as [_|]; [|lia].
    destruct (Z.ltb_spec 2 (mp - 9)) as [|_]; [lia|].
    destruct (Hera (yoe + era * 400 + 1 - 1)) as [-> ->]; [lia|].
    replace (mp - 9 + 9) with mp by lia.
    unfold doy, z'. lia.
Qed.

(** The denial's [reset_time] is the next local midnight in every field
    but the microsecond, which is the one of the current instant. *)
Lemma reset_time_fields w :
  reset_time w =
  {| year := year (next_local_midnight w);
     month := month (next_local_midnight w);
     day := day (next_local_midnight w);
     hour := 0; minute := 0; second := 0;
     microsecond := microsecond (datetime_now w) |}.
Proof.
  unfold reset_time, next_local_midnight, datetime_now, local_day.
  set (t := clock w + utc_offset w (clock w) * Calendar.us_per_second).
  unfold Calendar.replace_hms0, Calendar.add_days, Calendar.of_microseconds.
  rewrite Z.div_mul by done.
  pose proof (days_from_civil_from_days (t / Calendar.us_per_day)) as Hrt.
  destruct (Calendar.civil_from_days (t / Calendar.us_per_day)) as [[y m] d].
  simpl. rewrite Hrt.
  destruct (Calendar.civil_from_days (t / Calendar.us_per_day + 1)) as [[y' m'] d'].
  done.
Qed.

Lemma next_local_midnight_time w :
  hour (next_local_midnight w) = 0 /\
  minute (next_local_midnight w) = 0 /\
  second (next_local_midnight w) = 0 /\
  microsecond (next_local_midnight w) = 0.
Proof.
  unfold next_local_midnight, Calendar.of_microseconds.
  destruct (Calendar.civil_from_days _) as [[y m] d].
  rewrite Z.mod_mul by done. done.
Qed.

(** ** Redis *)

Lemma live_incr now key (r : gmap string (Z * option Z)) :
  exists e, Redis.incr now key r = <[key := e]> r /\
            Redis.live now e = true /\
            fst e = default 0 (Redis.get now key r) + 1.
Proof.
  unfold Redis.incr, Redis.get.
  destruct (r !! key) as [[v e]|] eqn:E; simpl.
  - destruct (Redis.live now (v, e)) eqn:L; simpl.
    + by exists (v + 1, e).
    + by exists (1, None).
  - by exists (1, None).
Qed.

(** After [INCR] and [EXPIRE] the key holds the count read before plus
    one and expires [seconds] later. *)
Lemma incr_expire_lookup now key seconds (r : gmap string (Z * option Z)) :
  Redis.expire now key seconds (Redis.incr now key r) !! key =
  Some (default 0 (Redis.get now key r) + 1,
        Some (now + seconds * Calendar.us_per_second)).
Proof.
  destruct (live_incr now key r) as (e & -> & L & He).
  unfold Redis.expire. rewrite lookup_insert_eq, L.
  by rewrite lookup_insert_eq, He.
Qed.

Lemma incr_expire_other now key key' seconds (r : gmap string (Z * option Z)) :
  key <> key' ->
  Redis.expire now key seconds (Redis.incr now key r) !! key' = r !! key'.
Proof.
  intros Hne. destruct (live_incr now key r) as (e & -> & L & He).
  unfold Redis.expire. rewrite lookup_insert_eq, L.
  by rewrite !lookup_insert_ne.
Qed.

Lemma get_incr_expire now t key seconds (r : gmap string (Z * option Z)) :
  t < now + seconds * Calendar.us_per_second ->
  Redis.get t key (Redis.expire now key seconds (Redis.incr now key r)) =
  Some (default 0 (Redis.get now key r) + 1).
Proof.
  intros Ht. unfold Redis.get at 1. rewrite incr_expire_lookup.
  unfold Redis.live. simpl.
  destruct (Z.ltb_spec t (now + seconds * Calendar.us_per_second)); [done | lia].
Qed.

(** ** One call of [decorated_function], move by move *)

(** Run on its own, a call makes the moves of [rate_limit] up to the
    point where the view function is entered or the denial returned. *)
Lemma alone_spec now key limit (r : gmap string (Z * option Z)) :
  Interleaving.alone now key limit r =
  let current := default 0 (Redis.get now key r) in
  if current >=? limit then (Interleaving.Denied, r)
  else (Interleaving.Allowed current,
        Redis.expire now key 86400 (Redis.incr now key r)).
Proof.
  unfold Interleaving.alone. simpl.
  by destruct (default 0 (Redis.get now key r) >=? limit).
Qed.

Lemma rate_limit_alone cfg f req env w :
  rate_limit cfg f req env w =
  let '(key, limit) := quota_key cfg req w in
  match Interleaving.alone (clock w) key limit (redis w) with
  | (Interleaving.Allowed current, r) =>
      let '(response, w') := f req env (set_redis r w) in
      (attach_rate_limit current limit response, w')
  | (_, _) => (denial limit w, w)
  end.
Proof.
  unfold rate_limit. destruct (quota_key cfg req w) as [key limit].
  rewrite alone_spec.
  replace (match Redis.get (clock w) key (redis w) with
           | Some c => c | None => 0 end)
    with (default 0 (Redis.get (clock w) key (redis w)))
    by (by destruct (Redis.get _ _ _)).
  cbv zeta.
  by destruct (default 0 (Redis.get (clock w) key (redis w)) >=? limit).
Qed.




(** ** What the view function leaves alone *)

Section Frame.

Context `{PyLib}.

(** The parts of the world that an outgoing call does not touch. *)

Lemma same_stores_refl w : same_stores w w.
Proof. by repeat split. Qed.

Lemma same_stores_trans w1 w2 w3 :
  same_stores w1 w2 -> same_stores w2 w3 -> same_stores w1 w3.
Proof. unfold same_stores. intros (-> & -> & ->) (-> & -> & ->). done. Qed.

Lemma do_post_stores env p timeout image w :
  same_stores w (snd (do_post env p timeout image w)).
Proof. by repeat split. Qed.

Lemma extract_with_gemini_stores cfg self image env w :
  same_stores w (snd (extract_with_gemini cfg self image env w)).
Proof.
  unfold extract_with_gemini.
  destruct (negb (truthy_str (gemini_key self))); by repeat split.
Qed.

Lemma extract_with_openai_stores cfg self image env w :
  same_stores w (snd (extract_with_openai cfg self image env w)).
Proof.
  unfold extract_with_openai.
  destruct (negb (truthy_str (openai_key self))); by repeat split.
Qed.

Lemma process_image_stores cfg self image env w :
  same_stores w (snd (process_image cfg self image env w)).
Proof.
  unfold process_image.
  pose proof (extract_with_gemini_stores cfg self image env w) as Hg.
  destruct (extract_with_gemini cfg self image env w) as [g w1].
  simpl in Hg. destruct (truthy_opt g); [done|].
  pose proof (extract_with_openai_stores cfg self image env w1) as Ho.
  destruct (extract_with_openai cfg self image env w1) as [o w2].
  simpl in Ho.
  destruct (truthy_opt o); simpl; by apply (same_stores_trans _ w1).
Qed.

Lemma save_shot_redis user_id shot_data env w :
  redis (snd (save_shot user_id shot_data env w)) = redis w /\
  utc_offset (snd (save_shot user_id shot_data env w)) = utc_offset w.
Proof.
  unfold save_shot.
  destruct (append_shot _ _); [|done].
  destruct (open_for_write env); [done|].
  by destruct (write_error env).
Qed.

(** The view function never writes to Redis. *)
Lemma extract_shot_data_redis cfg req env w :
  redis (snd (extract_shot_data cfg req env w)) = redis w /\
  utc_offset (snd (extract_shot_data cfg req env w)) = utc_offset w.
Proof.
  unfold extract_shot_data.
  destruct (files_image req) as [image_file|]; [|done].
  destruct (String.eqb _ _); [done|].
  pose proof (process_image_stores cfg (AIProcessor_init cfg)
                (b64encode (content image_file)) env w) as Hp.
  destruct (process_image _ _ _ _ _) as [[shot_data processor_used] w1].
  destruct Hp as (Hr & Ho & _). simpl in Hr, Ho.
  destruct shot_data as [sd|]; [|done].
  destruct (negb (truthy sd)); [done|].
  destruct (session_user_id req) as [user_id|]; [|done].
  pose proof (save_shot_redis user_id sd env w1) as [Hr' Ho'].
  destruct (save_shot user_id sd env w1) as [[shot_id|e] w2]; simpl in *;
    split; congruence.
Qed.

(** The shapes of the replies of the view function: a bare response on
    success, a tuple with status 400, 422 or 500 otherwise. *)
Lemma extract_shot_data_shape cfg req env w :
  match fst (extract_shot_data cfg req env w) with
  | Bare body =>
      Dict.get body "success" = Some (PyBool true) /\
      Dict.get body "rate_limit" = None /\
      Dict.get body "error" = None
  | WithStatus body status =>
      (exists msg, body = error_body msg) /\
      (status = 400 \/ status = 422 \/ status = 500)
  end.
Proof.
  unfold extract_shot_data.
  destruct (files_image req) as [image_file|]; simpl; [|by eauto].
  destruct (String.eqb _ _); simpl; [by eauto|].
  destruct (process_image _ _ _ _ _) as [[shot_data processor_used] w1].
  destruct shot_data as [sd|]; simpl; [|by eauto].
  destruct (negb (truthy sd)); simpl; [by eauto|].
  destruct (session_user_id req) as [user_id|]; simpl; [|done].
  destruct (save_shot user_id sd env w1) as [[shot_id|e] w2]; simpl;
    by eauto.
Qed.

End Frame.

(** ** The quota and the view function *)

(** Below the limit, the decorator raises the counter, runs the wrapped
    function on the world with the counter raised, and attaches the
    counts to what it returns. *)
Lemma rate_limit_below_limit cfg (f : Handler) req env w :
  let key := fst (quota_key cfg req w) in
  let limit := snd (quota_key cfg req w) in
  let current := default 0 (Redis.get (clock w) key (redis w)) in
  current < limit ->
  let w1 := set_redis (Redis.expire (clock w) key 86400
                         (Redis.incr (clock w) key (redis w))) w in
  Redis.get (clock w1) key (redis w1) = Some (current + 1) /\
  rate_limit cfg f req env w =
    (attach_rate_limit current limit (fst (f req env w1)),
     snd (f req env w1)).
Proof.
  intros key limit current Hlt w1. split.
  - simpl. apply get_incr_expire. unfold Calendar.us_per_second. lia.
  - unfold rate_limit. subst key limit current w1.
    destruct (quota_key cfg req w) as [k l]. simpl in *.
    replace (match Redis.get (clock w) k (redis w) with
             | Some c => c | None => 0 end)
      with (default 0 (Redis.get (clock w) k (redis w)))
      by (by destruct (Redis.get _ _ _)).
    destruct (Z.geb_spec (default 0 (Redis.get (clock w) k (redis w))) l);
      [lia|].
    by destruct (f req env _).
Qed.

(** At or above the limit the decorator returns the denial and the world
    it was given. *)
Lemma rate_limit_at_limit cfg (f : Handler) req env w :
  snd (quota_key cfg req w)
    <= default 0 (Redis.get (clock w) (fst (quota_key cfg req w)) (redis w)) ->
  rate_limit cfg f req env w = (denial (snd (quota_key cfg req w)) w, w).
Proof.
  intros Hge. unfold rate_limit.
  destruct (quota_key cfg req w) as [k l]. simpl in *.
  replace (match Redis.get (clock w) k (redis w) with
           | Some c => c | None => 0 end)
    with (default 0 (Redis.get (clock w) k (redis w)))
    by (by destruct (Redis.get _ _ _)).
  by destruct (Z.geb_spec (default 0 (Redis.get (clock w) k (redis w))) l);
    [|lia].
Qed.

Section Quota.

Context `{PyLib}.

(** C9: a request that passes the quota check has the counter of its
    key raised by one before the view function starts, the view function
    runs on that world, and whatever it replies (success, 400, 422 or
    500) the counter is left at that value. *)
Theorem allowed_request_consumes_quota cfg req env w :
  let key := fst (quota_key cfg req w) in
  let limit := snd (quota_key cfg req w) in
  let current := default 0 (Redis.get (clock w) key (redis w)) in
  current < limit ->
  let w1 := set_redis (Redis.expire (clock w) key 86400
                         (Redis.incr (clock w) key (redis w))) w in
  Redis.get (clock w1) key (redis w1) = Some (current + 1) /\
  extract_route cfg req env w =
    (attach_rate_limit current limit (fst (extract_shot_data cfg req env w1)),
     snd (extract_shot_data cfg req env w1)) /\
  redis (snd (extract_route cfg req env w)) = redis w1.
Proof.
  intros key limit current Hlt w1.
  destruct (rate_limit_below_limit cfg (extract_shot_data cfg) req env w Hlt)
    as [Hget Hroute].
  fold key limit current w1 in Hget, Hroute.
  split_and!; [exact Hget | exact Hroute |].
  unfold extract_route. rewrite Hroute. simpl.
  apply extract_shot_data_redis.
Qed.


End Quota.

Lemma allowed_request_consumes_quota_witness :
  default 0 (Redis.get (clock Sample.world0)
               (fst (quota_key Sample.cfg Sample.signed_in Sample.world0))
               (redis Sample.world0))
    < snd (quota_key Sample.cfg Sample.signed_in Sample.world0) /\
  redis (snd (extract_route (H := python) Sample.cfg Sample.signed_in
                Sample.all_down Sample.world0))
  = Redis.expire Sample.noon Sample.quota_key_u1 86400
      (Redis.incr Sample.noon Sample.quota_key_u1 ∅).
Proof.
  split; [vm_compute; reflexivity|].
  apply (allowed_request_consumes_quota (H := python) Sample.cfg
           Sample.signed_in Sample.all_down Sample.world0).
  vm_compute. reflexivity.
Defined.


(** ** Requests counted under one key *)

(** Where the offset is the same at two instants of one local day, the
    instants are less than 24 hours apart. *)
Lemma same_day_within_24h off t t' :
  off t = off t' ->
  local_day off t = local_day off t' ->
  t' < t + 86400 * Calendar.us_per_second.
Proof.
  unfold local_day.
  change Calendar.us_per_day with 86400000000.
  change Calendar.us_per_second with 1000000.
  intros <- E.
  pose proof (Z.div_mod (t + off t * 1000000) 86400000000).
  pose proof (Z.div_mod (t' + off t * 1000000) 86400000000).
  pose proof (Z.mod_pos_bound (t + off t * 1000000) 86400000000).
  pose proof (Z.mod_pos_bound (t' + off t * 1000000) 86400000000).
  lia.
Qed.

(** In a zone that keeps one offset, the requests of one local day arrive
    within less than 86400 seconds of one another. *)
Lemma fixed_offset_within_24h off d calls :
  (forall t t', off t = off t') ->
  Forall (fun a => local_day off (arrives_at a) = d) calls ->
  within_24h calls.
Proof.
  intros Hoff Hall. unfold within_24h, soon_after.
  rewrite Forall_forall in Hall.
  apply Forall_forall. intros a Ha. apply Forall_forall. intros b Hb.
  apply (same_day_within_24h off); [apply Hoff|].
  by rewrite (Hall a Ha), (Hall b Hb).
Qed.

Lemma strftime_ymd_of_day t :
  Calendar.strftime_ymd (Calendar.of_microseconds t) =
  Calendar.strftime_ymd
    (Calendar.of_microseconds (t / Calendar.us_per_day * Calendar.us_per_day)).
Proof.
  unfold Calendar.of_microseconds. rewrite Z.div_mul by done.
  by destruct (Calendar.civil_from_days _) as [[y m] d].
Qed.

(** The key of a signed-in user is [user_key] of the local day, and the
    limit is 20. *)
Lemma quota_key_signed_in openai gemini req w u :
  session_user_id req = Some u -> u <> "" ->
  quota_key (CONFIG openai gemini) req w =
  (user_key u (local_day (utc_offset w) (clock w)), 20).
Proof.
  intros Hu Hne. unfold quota_key, user_key. rewrite Hu. simpl.
  destruct (String.eqb_spec u ""); [done|]. simpl.
  unfold datetime_now, local_day. by rewrite strftime_ymd_of_day.
Qed.

Lemma next_local_midnight_of_day w :
  next_local_midnight w =
  Calendar.of_microseconds
    ((local_day (utc_offset w) (clock w) + 1) * Calendar.us_per_day).
Proof. done. Qed.

Lemma counted_under_signed_in openai gemini u off d a :
  u <> "" -> of_the_day u off d a ->
  counted_under (CONFIG openai gemini) off (user_key u d) 20 a.
Proof.
  intros Hu [Hs Hd] w Hoff.
  rewrite (quota_key_signed_in _ _ _ _ u) by done.
  simpl. by rewrite Hoff, Hd.
Qed.

Lemma counter_at_zero T key (r : gmap string (Z * option Z)) :
  r !! key = None -> counter_at T key 0 r.
Proof. intros Hnone t _. unfold Redis.get. by rewrite Hnone. Qed.

(** Requests that are less than 86400 seconds apart arrive at instants
    at which the entries written for any of them are still there. *)
Lemma within_24h_counted_at cfg off key limit calls :
  within_24h calls ->
  Forall (counted_under cfg off key limit) calls ->
  Forall (counted_at cfg off key limit (soon_after calls)) calls.
Proof.
  unfold within_24h. rewrite !Forall_forall. intros Hin Hall a Ha.
  split_and!; [by apply Hall | by apply Hin |].
  intros t Ht. unfold soon_after in Ht. rewrite Forall_forall in Ht.
  by apply Ht.
Qed.

Section Counted.

Context `{PyLib}.
Variables (cfg : Config) (off : Z -> Z) (key : string) (limit : Z).

(** One request that reads a count below the limit. *)
Lemma serve_one_below a w k :
  counted_under cfg off key limit a -> utc_offset w = off ->
  default 0 (Redis.get (arrives_at a) key (redis w)) = k -> k < limit ->
  exists r w',
    extract_route cfg (request a) (surroundings a) (set_clock (arrives_at a) w)
      = (r, w') /\
    allowed_reply (k + 1) limit r /\
    utc_offset w' = off /\
    redis w' = Redis.expire (arrives_at a) key 86400
                 (Redis.incr (arrives_at a) key (redis w)).
Proof.
  intros Hkey Hoff Hcur Hlt.
  specialize (Hkey w Hoff).
  pose proof (rate_limit_below_limit cfg (extract_shot_data cfg) (request a)
                (surroundings a) (set_clock (arrives_at a) w)) as Hq.
  rewrite Hkey in Hq. cbn [fst snd clock redis set_clock] in Hq.
  cbv zeta in Hq. rewrite Hcur in Hq.
  destruct (Hq Hlt) as [_ Hroute]. clear Hq.
  remember (set_redis (Redis.expire (arrives_at a) key 86400
                         (Redis.incr (arrives_at a) key (redis w)))
                      (set_clock (arrives_at a) w)) as w1 eqn:Hw1.
  pose proof (extract_shot_data_shape cfg (request a) (surroundings a) w1) as Hs.
  destruct (extract_shot_data_redis cfg (request a) (surroundings a) w1)
    as [Hr Ho].
  exists (attach_rate_limit k limit
            (fst (extract_shot_data cfg (request a) (surroundings a) w1))),
         (snd (extract_shot_data cfg (request a) (surroundings a) w1)).
  split_and!.
  - exact Hroute.
  - destruct (fst (extract_shot_data cfg (request a) (surroundings a) w1))
      as [body|body status]; simpl.
    + by destruct Hs.
    + destruct Hs as [[msg ->] Hst]. split; [lia|]. reflexivity.
  - by rewrite Ho, Hw1.
  - by rewrite Hr, Hw1.
Qed.

(** One request that reads a count at the limit or above. *)
Lemma serve_one_at_limit a w k :
  counted_under cfg off key limit a -> utc_offset w = off ->
  default 0 (Redis.get (arrives_at a) key (redis w)) = k -> limit <= k ->
  extract_route cfg (request a) (surroundings a) (set_clock (arrives_at a) w)
    = (denial limit (set_clock (arrives_at a) w), set_clock (arrives_at a) w).
Proof.
  intros Hkey Hoff Hcur Hge.
  specialize (Hkey w Hoff).
  pose proof (rate_limit_at_limit cfg (extract_shot_data cfg)
                (request a) (surroundings a) (set_clock (arrives_at a) w)) as Hq.
  rewrite Hkey in Hq. cbn [fst snd clock redis set_clock] in Hq.
  apply Hq. by rewrite Hcur.
Qed.

Variable T : Z -> Prop.

(** Requests counted under one key, served in turn at instants less than
    86400 seconds after one another: they pass until the counter reaches
    the limit, and are denied from then on. *)
Lemma serve_counted calls : forall w k,
  Forall (counted_at cfg off key limit T) calls -> utc_offset w = off ->
  counter_at T key k (redis w) ->
  exists replies w',
    serve (extract_route cfg) calls w = (replies, w') /\
    length replies = length calls /\
    (forall (i : nat) r, replies !! i = Some r ->
       if k + Z.of_nat i <? limit
       then allowed_reply (k + Z.of_nat i + 1) limit r
       else reply_status r = Some 429) /\
    utc_offset w' = off /\
    counter_at T key (Z.max k (Z.min (k + Z.of_nat (length calls)) limit))
               (redis w').
Proof.
  induction calls as [|a calls IH]; intros w k Hall Hoff Hk.
  - exists [], w. simpl. split_and!; try done.
    by replace (Z.max k (Z.min (k + Z.of_nat 0) limit)) with k by lia.
  - apply Forall_cons in Hall as [(Ha & HT & Hsoon) Hall].
    pose proof (Hk _ HT) as Hcur.
    destruct (Z.lt_ge_cases k limit) as [Hlt|Hge].
    + destruct (serve_one_below a w k Ha Hoff Hcur Hlt)
        as (r & w1 & Hr & Hadm & Hoff1 & Hredis).
      assert (Hk1 : counter_at T key (k + 1) (redis w1)).
      { intros t Ht. rewrite Hredis, get_incr_expire by (by apply Hsoon).
        simpl. by rewrite Hcur. }
      destruct (IH w1 (k + 1) Hall Hoff1 Hk1)
        as (rs & w2 & Hrs & Hlen & Hall2 & Hoff2 & Hk2).
      exists (r :: rs), w2. simpl. rewrite Hr, Hrs.
      split_and!; try done.
      * by rewrite Hlen.
      * intros [|i] r'; simpl.
        -- intros [= <-]. replace (k + Z.of_nat 0) with k by lia.
           destruct (Z.ltb_spec k limit); [done | lia].
        -- intros Hi. specialize (Hall2 i r' Hi).
           by replace (k + Z.of_nat (S i)) with (k + 1 + Z.of_nat i) by lia.
      * replace (Z.max k (Z.min (k + Z.of_nat (S (length calls))) limit))
          with (Z.max (k + 1) (Z.min (k + 1 + Z.of_nat (length calls)) limit))
          by lia.
        exact Hk2.
    + pose proof (serve_one_at_limit a w k Ha Hoff Hcur Hge) as Hr.
      destruct (IH (set_clock (arrives_at a) w) k Hall Hoff Hk)
        as (rs & w2 & Hrs & Hlen & Hall2 & Hoff2 & Hk2).
      exists (denial limit (set_clock (arrives_at a) w) :: rs), w2.
      simpl. rewrite Hr, Hrs.
      split_and!; try done.
      * by rewrite Hlen.
      * intros [|i] r'; simpl.
        -- intros [= <-]. replace (k + Z.of_nat 0) with k by lia.
           destruct (Z.ltb_spec k limit); [lia | done].
        -- intros Hi. specialize (Hall2 i r' Hi).
           destruct (Z.ltb_spec (k + Z.of_nat i) limit); [lia|].
           destruct (Z.ltb_spec (k + Z.of_nat (S i)) limit); [lia | done].
      * replace (Z.max k (Z.min (k + Z.of_nat (S (length calls))) limit))
          with (Z.max k (Z.min (k + Z.of_nat (length calls)) limit))
          by lia.
        exact Hk2.
Qed.

End Counted.

Lemma serve_app h calls1 calls2 w :
  serve h (calls1 ++ calls2) w =
  let '(r1, w1) := serve h calls1 w in
  let '(r2, w2) := serve h calls2 w1 in
  ((r1 ++ r2)%list, w2).
Proof.
  revert w. induction calls1 as [|a calls1 IH]; intros w; simpl.
  - by destruct (serve h calls2 w).
  - destruct (h _ _ _) as [r w1]. rewrite IH.
    destruct (serve h calls1 w1) as [r1 w2].
    by destruct (serve h calls2 w2).
Qed.

(** C4, amended: for a signed-in user whose counter of the day does not
    exist yet, twenty-one requests that arrive on one local calendar day,
    less than 86400 seconds apart, are answered as follows.  The first
    twenty pass the quota check; whenever the reply to the i-th of them
    is a tuple its body reports used = i, limit = 20 and remaining =
    20 - i, that is 19 down to 0 (a bare success response reports no
    counts).  The twenty-first is answered with status 429, and its
    [reset_time] is on the local calendar day after the current one, at
    hour, minute and second zero. *)
Theorem twenty_allowed_then_denied `{PyLib} openai gemini u calls last w d :
  u <> "" ->
  length calls = 20%nat ->
  Forall (of_the_day u (utc_offset w) d) (calls ++ [last]) ->
  within_24h (calls ++ [last]) ->
  redis w !! user_key u d = None ->
  exists allowed rt w',
    serve (extract_route (CONFIG openai gemini)) (calls ++ [last]) w =
      ((allowed ++
        [WithStatus [("error", PyStr "Daily limit exceeded");
                     ("limit", PyInt 20);
                     ("reset_time", PyStr (Calendar.isoformat rt))] 429])%list,
       w') /\
    length allowed = 20%nat /\
    (forall (i : nat) r, allowed !! i = Some r ->
                         allowed_reply (Z.of_nat i + 1) 20 r) /\
    let midnight :=
      Calendar.of_microseconds ((d + 1) * Calendar.us_per_day) in
    year rt = year midnight /\ month rt = month midnight /\
    day rt = day midnight /\
    hour rt = 0 /\ minute rt = 0 /\ second rt = 0.
Proof.
  intros Hu Hlen Hall Hnear Hnone.
  set (T := soon_after (calls ++ [last])).
  assert (Hcounted : Forall (counted_at (CONFIG openai gemini) (utc_offset w)
                               (user_key u d) 20 T) (calls ++ [last])).
  { apply within_24h_counted_at; [done|].
    eapply Forall_impl; [exact Hall|]. intros a Ha.
    by apply counted_under_signed_in. }
  apply Forall_app in Hall as [_ Hlast].
  apply Forall_cons in Hlast as [[_ Hd] _].
  apply Forall_app in Hcounted as [Hcalls Hclast].
  apply Forall_cons in Hclast as [(Hkey & HT & _) _].
  destruct (serve_counted (CONFIG openai gemini) (utc_offset w) (user_key u d)
              20 T calls w 0 Hcalls eq_refl (counter_at_zero T _ _ Hnone))
    as (allowed & w1 & Hserve & Hlen1 & Hadm & Hoff1 & H20).
  rewrite Hlen in H20. change (Z.max 0 (Z.min (0 + Z.of_nat 20) 20)) with 20 in H20.
  pose proof (serve_one_at_limit (CONFIG openai gemini) (utc_offset w)
                (user_key u d) 20 last w1 20 Hkey Hoff1 (H20 _ HT))
    as Hdenied.
  exists allowed, (reset_time (set_clock (arrives_at last) w1)),
         (set_clock (arrives_at last) w1).
  split_and!.
  - rewrite serve_app, Hserve. simpl. rewrite Hdenied; [done | lia].
  - by rewrite Hlen1.
  - intros i r Hi. pose proof (lookup_lt_Some _ _ _ Hi) as Hlt.
    specialize (Hadm i r Hi).
    replace (0 + Z.of_nat i) with (Z.of_nat i) in Hadm by lia.
    rewrite Hlen1, Hlen in Hlt.
    destruct (Z.ltb_spec (Z.of_nat i) 20); [done | lia].
  - cbv zeta. rewrite reset_time_fields.
    rewrite next_local_midnight_of_day.
    cbn [year month day hour minute second utc_offset clock set_clock].
    rewrite Hoff1, Hd. done.
Qed.

Lemma twenty_allowed_then_denied_witness :
  "u1" <> "" /\
  length Sample.twenty = 20%nat /\
  Forall (of_the_day "u1" (utc_offset Sample.world0) 19723)
         (Sample.twenty ++ [Sample.one_more]) /\
  within_24h (Sample.twenty ++ [Sample.one_more]) /\
  redis Sample.world0 !! user_key "u1" 19723 = None /\
  exists allowed rt w',
    serve (extract_route (H := python) (CONFIG (Some "sk-openai") (Some "g-key")))
          (Sample.twenty ++ [Sample.one_more]) Sample.world0 =
      ((allowed ++
        [WithStatus [("error", PyStr "Daily limit exceeded");
                     ("limit", PyInt 20);
                     ("reset_time", PyStr (Calendar.isoformat rt))] 429])%list,
       w') /\
    length allowed = 20%nat /\
    (forall (i : nat) r, allowed !! i = Some r ->
                         allowed_reply (Z.of_nat i + 1) 20 r) /\
    let midnight :=
      Calendar.of_microseconds ((19723 + 1) * Calendar.us_per_day) in
    year rt = year midnight /\ month rt = month midnight /\
    day rt = day midnight /\
    hour rt = 0 /\ minute rt = 0 /\ second rt = 0.
Proof.
  assert (Hne : "u1" <> "") by discriminate.
  assert (Hlen : length Sample.twenty = 20%nat) by reflexivity.
  assert (Hall : Forall (of_the_day "u1" (utc_offset Sample.world0) 19723)
                         (Sample.twenty ++ [Sample.one_more])).
  { unfold Sample.twenty. simpl.
    repeat (constructor; [split; [reflexivity | vm_compute; reflexivity]|]).
    constructor. }
  assert (Hnear : within_24h (Sample.twenty ++ [Sample.one_more])).
  { apply (fixed_offset_within_24h (utc_offset Sample.world0) 19723);
      [reflexivity|].
    eapply Forall_impl; [exact Hall|]. by intros a [_ Hd]. }
  assert (Hnone : redis Sample.world0 !! user_key "u1" 19723 = None)
    by (vm_compute; reflexivity).
  split; [exact Hne|]. split; [exact Hlen|]. split; [exact Hall|].
  split; [exact Hnear|]. split; [exact Hnone|].
  exact (twenty_allowed_then_denied (H := python) (Some "sk-openai")
           (Some "g-key") "u1" Sample.twenty Sample.one_more Sample.world0
           19723 Hne Hlen Hall Hnear Hnone).
Defined.

(** The requests have to be that close.  In a zone whose 27 October 2024
    has 25 hours, twenty requests of [u1] five minutes after the midnight
    that starts that day and one more half an hour before the midnight
    that ends it are requests of one local day, and the twenty-first is
    not denied: the entry ran out 86400 seconds after the twentieth, and
    the count starts again at one. *)
Lemma long_day_lets_one_more_through :
  let calls :=
    replicate 20 Example.after_midnight ++ [Example.before_midnight] in
  let out :=
    serve (extract_route (H := python) Sample.cfg) calls Example.world_autumn in
  Forall (of_the_day "u1" Example.autumn_offset 20023) calls /\
  Forall (fun r => reply_status r = Some 422) (fst out) /\
  length (fst out) = 21%nat /\
  (reply_body <$> fst out !! 20%nat) =
    Some [("error", PyStr "Failed to extract data from image");
          ("rate_limit", PyDict [("used", PyInt 1);
                                 ("limit", PyInt 20);
                                 ("remaining", PyInt 19)])].
Proof.
  intros calls out. split_and!.
  - unfold calls. simpl.
    repeat (constructor; [split; [reflexivity | vm_compute; reflexivity]|]).
    constructor.
  - vm_compute. repeat (constructor; [reflexivity|]). constructor.
  - vm_compute. reflexivity.
  - vm_compute. reflexivity.
Qed.

(** C4, as the specification states it, fails.  On a server two hours
    east of UTC twenty-one requests arrive at 2024-01-01T23:30:00 UTC:
    the twenty-first is denied with [reset_time] 2024-01-03T00:00:00,
    the midnight after the server's local day, while the UTC midnight
    that follows the current moment is 2024-01-02T00:00:00. *)
Lemma reset_time_is_not_utc_midnight :
  let calls := replicate 21 Sample.late_evening in
  let replies :=
    fst (serve (extract_route (H := python) Sample.cfg) calls
               Sample.world_east0) in
  (forall i r, (i < 20)%nat -> replies !! i = Some r ->
               reply_status r = Some 400) /\
  (reply_status <$> replies !! 20%nat) = Some (Some 429) /\
  (reply_body <$> replies !! 20%nat) =
    Some [("error", PyStr "Daily limit exceeded");
          ("limit", PyInt 20);
          ("reset_time", PyStr "2024-01-03T00:00:00")] /\
  Calendar.isoformat (Spec.next_utc_midnight Sample.world_east0)
    = "2024-01-02T00:00:00" /\
  "2024-01-03T00:00:00" <> "2024-01-02T00:00:00".
Proof.
  vm_compute. split_and!; try done.
  intros i r Hi.
  do 20 (destruct i as [|i]; [intros [= <-]; reflexivity|]).
  lia.
Qed.

(** The microsecond of the current instant stays in [reset_time]: half a
    second past noon on a server that runs on UTC, a denial reports
    2024-01-02T00:00:00.500000. *)
Lemma reset_time_keeps_microsecond :
  Calendar.isoformat (reset_time Sample.world_half_past)
    = "2024-01-02T00:00:00.500000".
Proof. vm_compute. reflexivity. Qed.

(** ** AIProcessor *)

Section Providers.

Context `{PyLib}.

(** C6, amended: the text handed to [json.loads] is the one that runs
    from the leftmost ["{"] of the completion to the rightmost ["}"]
    after it, whatever lies in between; when there is no such pair the
    result is [None], and when [json.loads] rejects the text the result
    is [None] as well, with nothing to tell the two apart. *)
Theorem json_from_text_leftmost_longest text :
  match Re.search text with
  | Some m =>
      (exists pre body post,
          text = pre +:+ "{" +:+ body +:+ "}" +:+ post /\
          m = "{" +:+ body +:+ "}" /\
          Re.lacks Re.lbrace pre = true /\
          Re.lacks Re.rbrace post = true) /\
      json_from_text text = json_loads m
  | None =>
      (forall pre body post,
          text <> pre +:+ "{" +:+ body +:+ "}" +:+ post) /\
      json_from_text text = None
  end.
Proof.
  pose proof (search_leftmost_longest text) as Hs.
  unfold json_from_text.
  destruct (Re.search text) as [m|]; split; done.
Qed.

Lemma do_post_posts env p timeout image w :
  posts (snd (do_post env p timeout image w)) =
  posts w ++ [mkNetCall p timeout image (clock w)].
Proof. done. Qed.

Lemma extract_with_gemini_posts cfg self image env w :
  posts (snd (extract_with_gemini cfg self image env w)) =
  posts w ++
  (if truthy_str (gemini_key self)
   then [mkNetCall Gemini (RESPONSE_TIMEOUT cfg) image (clock w)]
   else []).
Proof.
  unfold extract_with_gemini.
  destruct (truthy_str (gemini_key self)); simpl; [done|].
  by rewrite app_nil_r.
Qed.

Lemma extract_with_openai_posts cfg self image env w :
  posts (snd (extract_with_openai cfg self image env w)) =
  posts w ++
  (if truthy_str (openai_key self)
   then [mkNetCall OpenAI (RESPONSE_TIMEOUT cfg) image (clock w)]
   else []).
Proof.
  unfold extract_with_openai.
  destruct (truthy_str (openai_key self)); simpl; [done|].
  by rewrite app_nil_r.
Qed.

(** C2, amended: every outgoing call carries the fixed
    [RESPONSE_TIMEOUT] of the configuration (2 seconds) as its timeout,
    whatever time has gone by since the request started.  Gemini is
    called whenever its key is set; OpenAI is called whenever Gemini's
    result is falsy and the OpenAI key is set, also when the time
    consumed by then exceeds the budget. *)
Theorem calls_carry_the_fixed_timeout cfg self image env w :
  let '(g, w1) := extract_with_gemini cfg self image env w in
  let '(_, _, w') := process_image cfg self image env w in
  posts w' =
    posts w ++
    (if truthy_str (gemini_key self)
     then [mkNetCall Gemini (RESPONSE_TIMEOUT cfg) image (clock w)]
     else []) ++
    (if negb (truthy_opt g) && truthy_str (openai_key self)
     then [mkNetCall OpenAI (RESPONSE_TIMEOUT cfg) image (clock w1)]
     else []).
Proof.
  unfold process_image.
  pose proof (extract_with_gemini_posts cfg self image env w) as Hg.
  destruct (extract_with_gemini cfg self image env w) as [g w1].
  simpl in Hg.
  destruct (truthy_opt g); simpl.
  - by rewrite Hg, app_nil_r.
  - pose proof (extract_with_openai_posts cfg self image env w1) as Ho.
    destruct (extract_with_openai cfg self image env w1) as [o w2].
    simpl in Ho.
    assert (posts w2 = posts w ++
              (if truthy_str (gemini_key self)
               then [mkNetCall Gemini (RESPONSE_TIMEOUT cfg) image (clock w)]
               else []) ++
              (if truthy_str (openai_key self)
               then [mkNetCall OpenAI (RESPONSE_TIMEOUT cfg) image (clock w1)]
               else [])) as Hw2
      by (by rewrite Ho, Hg, <- app_assoc).
    by destruct (truthy_opt o).
Qed.

Lemma prefix_nil s : String.prefix "" s = true.
Proof. by destruct s. Qed.

Lemma calls_to_app p l1 l2 :
  calls_to p (l1 ++ l2) = calls_to p l1 ++ calls_to p l2.
Proof. unfold calls_to. apply List.filter_app. Qed.

(** C5, amended: Gemini is tried first.  When its result is truthy (a
    non-empty object, even one whose seven values are all null) that
    result is returned under a label that starts with ["gemini ("] and
    no call to OpenAI is made.  When its result is [None] or falsy (no
    key, a failed call, text that does not decode, or the empty object)
    [extract_with_openai] runs next, calls OpenAI if its key is set, and
    its result is returned under a label that starts with ["openai ("]
    if truthy; otherwise the outcome is [(None, "failed")]. *)
Theorem providers_in_priority_order cfg self image env w :
  let '(g, w1) := extract_with_gemini cfg self image env w in
  let '(o, w2) := extract_with_openai cfg self image env w1 in
  let '(result, label, w') := process_image cfg self image env w in
  if truthy_opt g then
    result = g /\ String.prefix "gemini (" label = true /\ w' = w1 /\
    calls_to OpenAI (posts w') = calls_to OpenAI (posts w)
  else
    w' = w2 /\
    posts w' = posts w1 ++
               (if truthy_str (openai_key self)
                then [mkNetCall OpenAI (RESPONSE_TIMEOUT cfg) image (clock w1)]
                else []) /\
    if truthy_opt o
    then result = o /\ String.prefix "openai (" label = true
    else result = None /\ label = "failed".
Proof.
  unfold process_image.
  pose proof (extract_with_gemini_posts cfg self image env w) as Hg.
  destruct (extract_with_gemini cfg self image env w) as [g w1].
  simpl in Hg.
  pose proof (extract_with_openai_posts cfg self image env w1) as Ho.
  destruct (extract_with_openai cfg self image env w1) as [o w2].
  simpl in Ho.
  destruct (truthy_opt g); simpl.
  - split_and!; try done.
    + apply prefix_nil.
    + rewrite Hg, calls_to_app.
      destruct (truthy_str (gemini_key self)); simpl; by rewrite app_nil_r.
  - destruct (truthy_opt o); simpl; split_and!; try done.
    apply prefix_nil.
Qed.

End Providers.

(** C6, as the specification states it, fails: in a completion with two
    objects the first balanced one is the first object, which decodes,
    while the text located runs from the first ["{"] to the last ["}"],
    spans both objects and does not decode.  A completion without any
    brace and one with a malformed object both end in the same [None]. *)
Lemma located_text_is_not_the_first_object :
  Spec.first_balanced_object Sample.two_objects_text
    = Some Sample.first_object_text /\
  Json.loads Sample.first_object_text = Some (PyDict [("a", PyInt 1)]) /\
  Re.search Sample.two_objects_text = Some Sample.two_objects_text /\
  Sample.two_objects_text <> Sample.first_object_text /\
  json_from_text (H := python) Sample.two_objects_text = None /\
  json_from_text (H := python) "no object here" = None /\
  json_from_text (H := python) "{ball_speed: }" = None.
Proof. vm_compute. done. Qed.

(** C2, as the specification states it, fails: Gemini uses up 2.5 s of
    the 2 s budget and fails; OpenAI is called all the same, 2.5 s after
    the start, with a timeout of 2 s, while the remaining budget is
    -0.5 s. *)
Lemma provider_called_after_the_budget_is_spent :
  let '(_, _, w') :=
    process_image (H := python) Sample.cfg (AIProcessor_init Sample.cfg)
      "aGVsbG8=" Sample.gemini_slow Sample.world0 in
  posts w' =
    [mkNetCall Gemini 2 "aGVsbG8=" Sample.noon;
     mkNetCall OpenAI 2 "aGVsbG8=" (Sample.noon + 2500000)] /\
  (Spec.remaining_budget Sample.cfg Sample.noon (Sample.noon + 2500000)
     == - (1 # 2))%Q /\
  (Spec.remaining_budget Sample.cfg Sample.noon (Sample.noon + 2500000)
     <= 0)%Q /\
  ~ (2 == Spec.remaining_budget Sample.cfg Sample.noon (Sample.noon + 2500000))%Q.
Proof.
  vm_compute. split_and!; try done.
Qed.

(** C5, as the specification states it, fails: Gemini's completion is
    the empty object, which decodes; the result is falsy, OpenAI is
    called and the reply carries OpenAI's label. *)
Lemma empty_object_falls_through_to_openai :
  let '(g, w1) :=
    extract_with_gemini (H := python) Sample.cfg (AIProcessor_init Sample.cfg)
      "aGVsbG8=" Sample.gemini_empty Sample.world0 in
  let '(result, label, w') :=
    process_image (H := python) Sample.cfg (AIProcessor_init Sample.cfg)
      "aGVsbG8=" Sample.gemini_empty Sample.world0 in
  json_from_text (H := python) "{}" = Some (PyDict []) /\
  g = Some (PyDict []) /\
  label = "openai (1.00s)" /\
  calls_to OpenAI (posts w') =
    [mkNetCall OpenAI 2 "aGVsbG8=" (Sample.noon + 300000)].
Proof. vm_compute. done. Qed.

(** An object whose seven values are all null is truthy, and returned. *)
Lemma all_null_object_is_truthy :
  truthy (PyDict (map (fun k => (k, PyNone)) Spec.metric_keys)) = true.
Proof. reflexivity. Qed.

(** ** DataStore *)

Lemma user_file_inj u u' : user_file u = user_file u' -> u = u'.
Proof.
  unfold user_file, data_dir. simpl. intros [= E].
  by apply append_cancel_r in E.
Qed.

Section Ledger.

Context `{PyLib}.

(** When [save_shot] returns, the user's file held no document, or a
    dict whose ['shots'] is a list. *)
Lemma append_shot_Ok user_data shot_record user_data' :
  append_shot user_data shot_record = Ok user_data' ->
  exists d l,
    user_data = PyDict d /\
    Dict.get d "shots" = Some (PyList l) /\
    user_data' = PyDict (Dict.set d "shots" (PyList (l ++ [shot_record]))).
Proof.
  unfold append_shot.
  destruct user_data as [| | | | | |d]; try discriminate.
  destruct (Dict.get d "shots") as [[| | | | |l|]|] eqn:E; try discriminate.
  intros [= <-]. by exists d, l.
Qed.

Lemma save_shot_Ok user_id shot_data env w shot_id w' :
  save_shot user_id shot_data env w = (Ok shot_id, w') ->
  exists d l,
    load_user_data user_id w = PyDict d /\
    Dict.get d "shots" = Some (PyList l) /\
    shot_id = shot_id_of user_id w /\
    w' = set_files
           (<[user_file user_id :=
                Document (PyDict (Dict.set d "shots"
                   (PyList (l ++ [shot_record_of user_id shot_data w]))))]>
              (files w)) w.
Proof.
  unfold save_shot.
  destruct (append_shot _ _) as [user_data'|e] eqn:E; [|discriminate].
  destruct (append_shot_Ok _ _ _ E) as (d & l & Hd & Hl & ->).
  destruct (open_for_write env); [discriminate|].
  destruct (write_error env); [discriminate|].
  intros [= <- <-]. by exists d, l.
Qed.

(** What a well-shaped file is read as. *)
Lemma well_shaped_list user_id w :
  well_shaped (files w !! user_file user_id) ->
  exists d l,
    load_user_data user_id w = PyDict d /\
    Dict.get d "shots" = Some (PyList l) /\
    get_user_shots user_id w = PyList l.
Proof.
  unfold well_shaped, load_user_data, get_user_shots.
  destruct (files w !! user_file user_id) as [[|[| | | | | |d]]|]; try done.
  - intros _. by exists [("shots", PyList [])], [].
  - intros [l Hl]. exists d, l. by rewrite Hl.
  - intros _. by exists [("shots", PyList [])], [].
Qed.

(** On a well-shaped file, with a storage that takes the write,
    [save_shot] returns. *)
Lemma save_shot_accepted user_id shot_data env w :
  well_shaped (files w !! user_file user_id) ->
  storage_accepts env ->
  exists w', save_shot user_id shot_data env w = (Ok (shot_id_of user_id w), w').
Proof.
  intros Hshape [Hopen Hwrite].
  destruct (well_shaped_list user_id w Hshape) as (d & l & Hload & Hshots & _).
  unfold save_shot. rewrite Hload. simpl. rewrite Hshots, Hopen, Hwrite.
  by eexists.
Qed.

(** Once the user's file holds a dict, the list is its ['shots']. *)
Lemma get_user_shots_after_write user_id d shots fs w :
  get_user_shots user_id
    (set_files (<[user_file user_id :=
                    Document (PyDict (Dict.set d "shots" (PyList shots)))]> fs) w)
  = PyList shots.
Proof.
  unfold get_user_shots. simpl. rewrite lookup_insert_eq.
  by rewrite dict_get_set_eq.
Qed.




Lemma read_response_Some p r sd :
  read_response (text_of p) r = Some sd ->
  exists text,
    completion (text_of p) r = Some text /\ json_from_text text = Some sd.
Proof.
  unfold read_response.
  destruct (completion (text_of p) r) as [text|]; [|done].
  simpl. intros Hsd. by exists text.
Qed.

(** What an extractor returns is decoded from the completion of a call
    it has made. *)
Lemma extract_with_gemini_Some cfg self image env w sd w1 :
  extract_with_gemini cfg self image env w = (Some sd, w1) ->
  exists c text,
    In c (posts w1) /\ call_provider c = Gemini /\
    completion (text_of Gemini) (reply (requests_post env c)) = Some text /\
    json_from_text text = Some sd.
Proof.
  unfold extract_with_gemini.
  destruct (negb (truthy_str (gemini_key self))); [discriminate|].
  unfold do_post. intros [= Hr <-].
  destruct (read_response_Some Gemini _ _ Hr) as (text & Hc & Ht).
  exists (mkNetCall Gemini (RESPONSE_TIMEOUT cfg) image (clock w)), text. split_and!; [|reflexivity|exact Hc|exact Ht].
  simpl. apply in_or_app. right. by left.
Qed.

Lemma extract_with_openai_Some cfg self image env w sd w1 :
  extract_with_openai cfg self image env w = (Some sd, w1) ->
  exists c text,
    In c (posts w1) /\ call_provider c = OpenAI /\
    completion (text_of OpenAI) (reply (requests_post env c)) = Some text /\
    json_from_text text = Some sd.
Proof.
  unfold extract_with_openai.
  destruct (negb (truthy_str (openai_key self))); [discriminate|].
  unfold do_post. intros [= Hr <-].
  destruct (read_response_Some OpenAI _ _ Hr) as (text & Hc & Ht).
  exists (mkNetCall OpenAI (RESPONSE_TIMEOUT cfg) image (clock w)), text. split_and!; [|reflexivity|exact Hc|exact Ht].
  simpl. apply in_or_app. right. by left.
Qed.

Lemma process_image_Some cfg self image env w sd label w1 :
  process_image cfg self image env w = (Some sd, label, w1) ->
  exists c text,
    In c (posts w1) /\
    completion (text_of (call_provider c)) (reply (requests_post env c))
      = Some text /\
    json_from_text text = Some sd.
Proof.
  unfold process_image.
  destruct (extract_with_gemini cfg self image env w) as [g wg] eqn:Eg.
  destruct (truthy_opt g).
  - intros [= -> _ <-].
    destruct (extract_with_gemini_Some _ _ _ _ _ _ _ Eg)
      as (c & text & Hin & Hp & Hc & Ht).
    exists c, text. by rewrite Hp.
  - destruct (extract_with_openai cfg self image env wg) as [o wo] eqn:Eo.
    destruct (truthy_opt o); [|discriminate].
    intros [= -> _ <-].
    destruct (extract_with_openai_Some _ _ _ _ _ _ _ Eo)
      as (c & text & Hin & Hp & Hc & Ht).
    exists c, text. by rewrite Hp.
Qed.

(** C3, amended: the metrics of a successful extraction are the
    document that [json.loads] decoded from the provider's completion,
    as a whole: that value, with every key it has, is the ['data'] of
    the reply and, for a signed-in user, the ['data'] of the record
    appended to the user's list. *)
Theorem metrics_are_the_decoded_document cfg req env w body w' :
  extract_shot_data cfg req env w = (Bare body, w') ->
  exists c text sd,
    In c (posts w') /\
    completion (text_of (call_provider c)) (reply (requests_post env c))
      = Some text /\
    json_from_text text = Some sd /\
    Dict.get body "data" = Some sd /\
    match session_user_id req with
    | Some user_id =>
        exists shots record,
          get_user_shots user_id w' = PyList (shots ++ [record]) /\
          subscript_key record "data" = Some sd
    | None => files w' = files w
    end.
Proof.
  unfold extract_shot_data.
  destruct (files_image req) as [image_file|]; [|discriminate].
  destruct (String.eqb _ _); [discriminate|].
  pose proof (process_image_stores cfg (AIProcessor_init cfg)
                (b64encode (content image_file)) env w) as (_ & _ & Hfiles).
  destruct (process_image _ _ _ _ _) as [[shot_data processor_used] w1] eqn:Ep.
  simpl in Hfiles.
  destruct shot_data as [sd|]; [|discriminate].
  destruct (negb (truthy sd)); [discriminate|].
  destruct (process_image_Some _ _ _ _ _ _ _ _ Ep) as (c & text & Hin & Hc & Ht).
  destruct (session_user_id req) as [user_id|].
  - destruct (save_shot user_id sd env w1) as [[shot_id|e] w2] eqn:Es;
      [|discriminate].
    intros [= <- <-].
    destruct (save_shot_Ok _ _ _ _ _ _ Es) as (d0 & l0 & _ & _ & _ & Hw2).
    exists c, text, sd. split_and!; try done.
    + by rewrite Hw2.
    + exists l0, (shot_record_of user_id sd w1). split; [|done].
      rewrite Hw2. apply get_user_shots_after_write.
  - intros [= <- <-]. exists c, text, sd. by split_and!.
Qed.

End Ledger.




(** C3, as the specification states it, fails: Gemini's document has a
    key [foo] outside the schema; the key is in the ['data'] of the reply
    and in the record stored for the user. *)
Lemma unknown_key_is_kept :
  let '(r, w') :=
    extract_route (H := python) Sample.cfg Sample.signed_in
      Sample.gemini_extra_key Sample.world0 in
  let doc := PyDict [("ball_speed", PyInt 150); ("foo", PyInt 1)] in
  Dict.get (reply_body r) "data" = Some doc /\
  Spec.within_schema doc = false /\
  subscript_key doc "foo" = Some (PyInt 1) /\
  exists record,
    get_user_shots "u1" w' = PyList [record] /\
    subscript_key record "data" = Some doc.
Proof. vm_compute. split_and!; try done. by eexists. Qed.

Lemma metrics_are_the_decoded_document_witness :
  let out :=
    extract_shot_data (H := python) Sample.cfg Sample.signed_in
      Sample.gemini_extra_key Sample.world0 in
  out = (Bare (reply_body (fst out)), snd out) /\
  exists c text sd,
    In c (posts (snd out)) /\
    completion (text_of (call_provider c))
      (reply (requests_post Sample.gemini_extra_key c)) = Some text /\
    json_from_text (H := python) text = Some sd /\
    Dict.get (reply_body (fst out)) "data" = Some sd /\
    match session_user_id Sample.signed_in with
    | Some user_id =>
        exists shots record,
          get_user_shots user_id (snd out) = PyList (shots ++ [record]) /\
          subscript_key record "data" = Some sd
    | None => files (snd out) = files Sample.world0
    end.
Proof.
  intros out.
  assert (Hout : out = (Bare (reply_body (fst out)), snd out))
    by (vm_compute; reflexivity).
  split; [exact Hout|].
  exact (metrics_are_the_decoded_document (H := python) Sample.cfg
           Sample.signed_in Sample.gemini_extra_key Sample.world0
           (reply_body (fst out)) (snd out) Hout).
Defined.

(** An anonymous caller is counted under the key of its address with the
    limit of 3, and its extraction is returned without being stored. *)
Lemma anonymous_extraction_is_not_stored :
  let '(r, w') :=
    extract_route (H := python) Sample.cfg Sample.anonymous Sample.gemini_good
      Sample.world0 in
  quota_key Sample.cfg Sample.anonymous Sample.world0
    = ("rate_limit:anon:10.0.0.7:2024-01-01", 3) /\
  Dict.get (reply_body r) "saved" = Some (PyBool false) /\
  Dict.get (reply_body r) "shot_id" = Some PyNone /\
  Dict.get (reply_body r) "processor" = Some (PyStr "gemini (0.40s)") /\
  files w' = files Sample.world0 /\
  Redis.get Sample.noon "rate_limit:anon:10.0.0.7:2024-01-01" (redis w') = Some 1.
Proof. vm_compute. done. Qed.

(** * Further properties *)

(** ** The rate limiter: keys *)

Lemma zfill_length width n : String.length (Calendar.zfill width n) = width.
Proof.
  revert n. induction width as [|w IH]; intros n; simpl; [done|].
  rewrite append_length, IH. simpl. lia.
Qed.

Lemma strftime_ymd_length dt : String.length (Calendar.strftime_ymd dt) = 10%nat.
Proof.
  unfold Calendar.strftime_ymd.
  rewrite !append_length, !zfill_length. reflexivity.
Qed.

(** Two texts that end in suffixes of the same length are equal only if
    the parts before the suffixes are. *)
Lemma append_eq_same_length (a b s t : string) :
  a +:+ s = b +:+ t -> String.length s = String.length t -> a = b /\ s = t.
Proof.
  revert b. induction a as [|x a IH]; intros [|y b] E Hlen; simpl in E.
  - done.
  - subst s. simpl in Hlen. rewrite append_length in Hlen. lia.
  - subst t. simpl in Hlen. rewrite append_length in Hlen. lia.
  - injection E as -> E. destruct (IH b E Hlen) as [-> ->]. done.
Qed.

Lemma quota_key_anonymous openai gemini req w :
  truthy_str (session_user_id req) = false ->
  quota_key (CONFIG openai gemini) req w =
  (anon_key (counted_address req) (local_day (utc_offset w) (clock w)), 3).
Proof.
  intros Hanon. unfold quota_key, anon_key, counted_address.
  rewrite Hanon. simpl.
  unfold datetime_now, local_day. by rewrite strftime_ymd_of_day.
Qed.

(** X1: the key tells the identity.  Two requests that are counted under
    the same key, on whatever days, are both signed in with the same user
    id or both anonymous with the same counted address. *)
Theorem quota_key_tells_the_identity openai gemini req req' w w' :
  fst (quota_key (CONFIG openai gemini) req w)
    = fst (quota_key (CONFIG openai gemini) req' w') ->
  if truthy_str (session_user_id req)
  then truthy_str (session_user_id req') = true /\
       session_user_id req = session_user_id req'
  else truthy_str (session_user_id req') = false /\
       counted_address req = counted_address req'.
Proof.
  unfold quota_key.
  destruct (truthy_str (session_user_id req)) eqn:E;
    destruct (truthy_str (session_user_id req')) eqn:E'; simpl.
  - intros [= Hk]. split; [done|].
    destruct (session_user_id req) as [u|]; [|done].
    destruct (session_user_id req') as [u'|]; [|done].
    simpl in Hk.
    apply append_eq_same_length in Hk as [-> _]; [done|].
    cbn [String.length]. by rewrite !strftime_ymd_length.
  - by intros [=].
  - by intros [=].
  - intros [= Hk]. split; [done|]. unfold counted_address.
    apply append_eq_same_length in Hk as [-> _]; [done|].
    cbn [String.length]. by rewrite !strftime_ymd_length.
Qed.

(** ** The rate limiter: one request *)

(** X2: a request that finds the counter at or above the limit is answered
    with the denial at once: the wrapped function is not run, whatever it
    is, and the world, the counter included, is left as it was. *)
Theorem denied_request_changes_nothing cfg (f : Handler) req env w :
  let key := fst (quota_key cfg req w) in
  let limit := snd (quota_key cfg req w) in
  limit <= default 0 (Redis.get (clock w) key (redis w)) ->
  rate_limit cfg f req env w = (denial limit w, w) /\
  reply_status (denial limit w) = Some 429 /\
  Dict.get (reply_body (denial limit w)) "limit" = Some (PyInt limit).
Proof.
  intros key limit Hge. split; [|done].
  by apply rate_limit_at_limit.
Qed.

Lemma denied_request_changes_nothing_witness :
  let w := Example.world_at_limit in
  let limit := snd (quota_key Sample.cfg Sample.signed_in w) in
  limit <= default 0 (Redis.get (clock w)
                        (fst (quota_key Sample.cfg Sample.signed_in w))
                        (redis w)) /\
  rate_limit Sample.cfg (extract_shot_data (H := python) Sample.cfg)
    Sample.signed_in Sample.gemini_good w = (denial limit w, w) /\
  reply_status (denial limit w) = Some 429 /\
  Dict.get (reply_body (denial limit w)) "limit" = Some (PyInt limit).
Proof.
  intros w limit.
  assert (Hge : limit <= default 0 (Redis.get (clock w)
                           (fst (quota_key Sample.cfg Sample.signed_in w))
                           (redis w)))
    by (vm_compute; discriminate).
  split; [exact Hge|].
  exact (denied_request_changes_nothing Sample.cfg
           (extract_shot_data (H := python) Sample.cfg)
           Sample.signed_in Sample.gemini_good w Hge).
Defined.

Section OneRequest.

Context `{PyLib}.

(** X3: serving a request never touches a counter other than its own. *)
Theorem other_counters_untouched cfg req env w key' :
  key' <> fst (quota_key cfg req w) ->
  redis (snd (extract_route cfg req env w)) !! key' = redis w !! key'.
Proof.
  intros Hne.
  destruct (Z.lt_ge_cases
              (default 0 (Redis.get (clock w) (fst (quota_key cfg req w))
                            (redis w)))
              (snd (quota_key cfg req w))) as [Hlt|Hge].
  - destruct (rate_limit_below_limit cfg (extract_shot_data cfg) req env w Hlt)
      as [_ Hroute].
    unfold extract_route. rewrite Hroute. simpl.
    destruct (extract_shot_data_redis cfg req env
                (set_redis (Redis.expire (clock w) (fst (quota_key cfg req w))
                              86400
                              (Redis.incr (clock w) (fst (quota_key cfg req w))
                                 (redis w))) w)) as [-> _].
    simpl. by apply incr_expire_other.
  - pose proof (rate_limit_at_limit cfg (extract_shot_data cfg)
                req env w Hge) as Hroute.
    unfold extract_route. by rewrite Hroute.
Qed.

(** X4: every request that passes the check moves the expiry of its key
    to 24 hours after that request, whatever expiry the key had. *)
Theorem expiry_restarts_with_each_request cfg req env w :
  let key := fst (quota_key cfg req w) in
  let limit := snd (quota_key cfg req w) in
  let current := default 0 (Redis.get (clock w) key (redis w)) in
  current < limit ->
  redis (snd (extract_route cfg req env w)) !! key =
  Some (current + 1, Some (clock w + 86400 * Calendar.us_per_second)).
Proof.
  intros key limit current Hlt.
  destruct (rate_limit_below_limit cfg (extract_shot_data cfg) req env w Hlt)
    as [_ Hroute].
  unfold extract_route. rewrite Hroute. simpl.
  destruct (extract_shot_data_redis cfg req env
              (set_redis (Redis.expire (clock w) (fst (quota_key cfg req w))
                            86400
                            (Redis.incr (clock w) (fst (quota_key cfg req w))
                               (redis w))) w)) as [-> _].
  simpl. apply incr_expire_lookup.
Qed.

End OneRequest.

(** ** The rate limiter: the requests of a day *)

Lemma counted_under_anonymous openai gemini ip off d a :
  anonymous_from ip off d a ->
  counted_under (CONFIG openai gemini) off (anon_key ip d) 3 a.
Proof.
  intros (Hs & Hip & Hd) w Hoff.
  rewrite quota_key_anonymous by done.
  simpl. by rewrite Hoff, Hd, Hip.
Qed.

(** X5: a signed-in user whose counter of the day does not exist yet
    sends any number of requests on one local day, less than 86400
    seconds apart, served one after the other: the first 20 pass the
    check, all the following ones are denied with status 429, and the
    counter, read less than 86400 seconds after each of the requests,
    ends at the number of requests or at 20, whichever is smaller. *)
Theorem signed_in_requests_of_a_day `{PyLib} openai gemini u calls w d :
  u <> "" ->
  Forall (of_the_day u (utc_offset w) d) calls ->
  within_24h calls ->
  redis w !! user_key u d = None ->
  exists replies w',
    serve (extract_route (CONFIG openai gemini)) calls w = (replies, w') /\
    length replies = length calls /\
    (forall (i : nat) r, replies !! i = Some r ->
       if Z.of_nat i <? 20
       then allowed_reply (Z.of_nat i + 1) 20 r
       else reply_status r = Some 429) /\
    counter_at (soon_after calls) (user_key u d)
               (Z.min (Z.of_nat (length calls)) 20) (redis w').
Proof.
  intros Hu Hall Hnear Hnone.
  destruct (serve_counted (CONFIG openai gemini) (utc_offset w)
              (user_key u d) 20 (soon_after calls) calls w 0)
    as (replies & w' & Hserve & Hlen & Hrs & _ & Hk).
  - apply within_24h_counted_at; [done|].
    eapply Forall_impl; [exact Hall|]. intros a Ha.
    by apply counted_under_signed_in.
  - done.
  - by apply counter_at_zero.
  - exists replies, w'. split_and!; try done.
    by replace (Z.min (Z.of_nat (length calls)) 20)
         with (Z.max 0 (Z.min (0 + Z.of_nat (length calls)) 20)) by lia.
Qed.

(** X6: the same for anonymous requests counted under one address, with
    the limit of 3. *)
Theorem anonymous_requests_of_a_day `{PyLib} openai gemini ip calls w d :
  Forall (anonymous_from ip (utc_offset w) d) calls ->
  within_24h calls ->
  redis w !! anon_key ip d = None ->
  exists replies w',
    serve (extract_route (CONFIG openai gemini)) calls w = (replies, w') /\
    length replies = length calls /\
    (forall (i : nat) r, replies !! i = Some r ->
       if Z.of_nat i <? 3
       then allowed_reply (Z.of_nat i + 1) 3 r
       else reply_status r = Some 429) /\
    counter_at (soon_after calls) (anon_key ip d)
               (Z.min (Z.of_nat (length calls)) 3) (redis w').
Proof.
  intros Hall Hnear Hnone.
  destruct (serve_counted (CONFIG openai gemini) (utc_offset w)
              (anon_key ip d) 3 (soon_after calls) calls w 0)
    as (replies & w' & Hserve & Hlen & Hrs & _ & Hk).
  - apply within_24h_counted_at; [done|].
    eapply Forall_impl; [exact Hall|]. intros a Ha.
    by apply counted_under_anonymous.
  - done.
  - by apply counter_at_zero.
  - exists replies, w'. split_and!; try done.
    by replace (Z.min (Z.of_nat (length calls)) 3)
         with (Z.max 0 (Z.min (0 + Z.of_nat (length calls)) 3)) by lia.
Qed.

Lemma anon_key_inj ip ip' d : anon_key ip d = anon_key ip' d -> ip = ip'.
Proof.
  unfold anon_key. simpl. intros [= E]. by apply append_cancel_r in E.
Qed.

(** Anonymous requests of one day counted under pairwise different
    addresses, none of which has a counter yet, all pass the check. *)
Lemma serve_different_addresses `{PyLib} openai gemini off d calls : forall w,
  utc_offset w = off ->
  Forall (fun a => truthy_str (session_user_id (request a)) = false /\
                   local_day off (arrives_at a) = d) calls ->
  NoDup (map (fun a => counted_address (request a)) calls) ->
  Forall (fun a => redis w !! anon_key (counted_address (request a)) d = None)
         calls ->
  exists replies w',
    serve (extract_route (CONFIG openai gemini)) calls w = (replies, w') /\
    length replies = length calls /\
    Forall (allowed_reply 1 3) replies.
Proof.
  induction calls as [|a calls IH]; intros w Hoff Hall Hnodup Hfree.
  - by exists [], w.
  - apply Forall_cons in Hall as [[Hanon Hd] Hall].
    apply Forall_cons in Hfree as [Hfree0 Hfree].
    simpl in Hnodup. apply NoDup_cons in Hnodup as [Hnotin Hnodup].
    set (ip := counted_address (request a)) in *.
    destruct (serve_one_below (CONFIG openai gemini) off (anon_key ip d) 3
                a w 0)
      as (r & w1 & Hr & Hadm & Hoff1 & Hredis).
    { by apply (counted_under_anonymous _ _ ip off d). }
    { done. }
    { unfold Redis.get. by rewrite Hfree0. }
    { lia. }
    destruct (IH w1 Hoff1 Hall Hnodup) as (rs & w2 & Hrs & Hlen & Hrsall).
    { rewrite Forall_forall in Hfree. apply Forall_forall. intros a' Ha'.
      rewrite Hredis, incr_expire_other; [by apply Hfree|].
      intros E. apply anon_key_inj in E. apply Hnotin.
      rewrite E. apply list_elem_of_fmap. by exists a'. }
    exists (r :: rs), w2. simpl. rewrite Hr, Hrs.
    split_and!; [done | by rewrite Hlen | by constructor].
Qed.

(** X7: the anonymous counter follows the [X-Forwarded-For] header.
    Anonymous requests of one day that carry pairwise different values of
    the header all pass the check, however many they are and whatever
    address they come from. *)
Theorem forwarded_for_escapes_the_limit `{PyLib} openai gemini calls w d :
  Forall (fun a => truthy_str (session_user_id (request a)) = false /\
                   is_Some (x_forwarded_for (request a)) /\
                   local_day (utc_offset w) (arrives_at a) = d) calls ->
  NoDup (map (fun a => x_forwarded_for (request a)) calls) ->
  (forall ip, redis w !! anon_key ip d = None) ->
  exists replies w',
    serve (extract_route (CONFIG openai gemini)) calls w = (replies, w') /\
    length replies = length calls /\
    Forall (fun r => reply_status r <> Some 429) replies.
Proof.
  intros Hall Hnodup Hfree.
  destruct (serve_different_addresses openai gemini (utc_offset w) d calls w)
    as (replies & w' & Hserve & Hlen & Hrs).
  - done.
  - eapply Forall_impl; [exact Hall|]. by intros a (? & _ & ?).
  - clear Hfree. induction calls as [|a calls IH]; [constructor|].
    apply Forall_cons in Hall as [(_ & [h Hh] & _) Hall].
    simpl in *. apply NoDup_cons in Hnodup as [Hnotin Hnodup].
    apply NoDup_cons. split; [|by apply IH].
    intros Hin. apply Hnotin.
    apply list_elem_of_fmap in Hin as (a' & Heq & Ha').
    apply list_elem_of_fmap. exists a'. split; [|done].
    rewrite Forall_forall in Hall.
    destruct (Hall a' Ha') as (_ & [h' Hh'] & _).
    unfold counted_address in Heq. rewrite Hh, Hh' in Heq. simpl in Heq.
    by rewrite Hh, Hh', Heq.
  - apply Forall_forall. intros a _. apply Hfree.
  - exists replies, w'. split_and!; [done | done |].
    eapply Forall_impl; [exact Hrs|].
    intros [body|body status]; simpl; [done|]. intros [Hst _] [= ->]. done.
Qed.

(** ** Extraction: what one request does *)

Section OneExtraction.

Context `{PyLib}.

(** The calls [process_image] makes: at most one to Gemini, then at most
    one to OpenAI, each with the image it was given. *)
Lemma process_image_calls cfg self image env w :
  exists calls,
    posts (snd (process_image cfg self image env w)) = posts w ++ calls /\
    map call_provider calls `sublist_of` [Gemini; OpenAI] /\
    Forall (fun c => call_image c = image) calls.
Proof.
  unfold process_image.
  pose proof (extract_with_gemini_posts cfg self image env w) as Hg.
  destruct (extract_with_gemini cfg self image env w) as [g w1].
  simpl in Hg.
  assert (Hsub1 : forall (b : bool) (c : NetCall),
            call_provider c = Gemini ->
            map call_provider (if b then [c] else []) `sublist_of` [Gemini]).
  { intros [|] c Hc; simpl; [rewrite Hc; done | apply sublist_nil_l]. }
  assert (Hsub2 : forall (b : bool) (c : NetCall),
            call_provider c = OpenAI ->
            map call_provider (if b then [c] else []) `sublist_of` [OpenAI]).
  { intros [|] c Hc; simpl; [rewrite Hc; done | apply sublist_nil_l]. }
  assert (Himg : forall (b : bool) (c : NetCall),
            call_image c = image ->
            Forall (fun c => call_image c = image) (if b then [c] else [])).
  { intros [|] c Hc; by repeat constructor. }
  destruct (truthy_opt g).
  - eexists. split; [exact Hg|]. split.
    + apply (sublist_inserts_r [OpenAI] _ [Gemini]). by apply Hsub1.
    + by apply Himg.
  - pose proof (extract_with_openai_posts cfg self image env w1) as Ho.
    destruct (extract_with_openai cfg self image env w1) as [o w2].
    simpl in Ho.
    exists ((if truthy_str (gemini_key self)
             then [mkNetCall Gemini (RESPONSE_TIMEOUT cfg) image (clock w)]
             else []) ++
            (if truthy_str (openai_key self)
             then [mkNetCall OpenAI (RESPONSE_TIMEOUT cfg) image (clock w1)]
             else [])).
    split_and!.
    + destruct (truthy_opt o); simpl; by rewrite Ho, Hg, <- app_assoc.
    + rewrite map_app.
      apply (sublist_app _ [Gemini] _ [OpenAI]); [by apply Hsub1 | by apply Hsub2].
    + apply Forall_app. split; by apply Himg.
Qed.

(** X8: what [process_image] returns is [(None, "failed")] or a truthy
    document under the label of the provider it came from; it never
    returns a falsy document. *)
Theorem process_image_outcomes cfg self image env w :
  let '(result, label, _) := process_image cfg self image env w in
  match result with
  | None => label = "failed"
  | Some sd =>
      truthy sd = true /\
      (String.prefix "gemini (" label = true \/
       String.prefix "openai (" label = true)
  end.
Proof.
  unfold process_image.
  destruct (extract_with_gemini cfg self image env w) as [g w1].
  destruct (truthy_opt g) eqn:Eg.
  - destruct g as [sd|]; [|done]. split; [exact Eg|]. left. apply prefix_nil.
  - destruct (extract_with_openai cfg self image env w1) as [o w2].
    destruct (truthy_opt o) eqn:Eo; [|done].
    destruct o as [sd|]; [|done]. split; [exact Eo|]. right. apply prefix_nil.
Qed.

Lemma save_shot_posts user_id shot_data env w :
  posts (snd (save_shot user_id shot_data env w)) = posts w.
Proof.
  unfold save_shot. destruct (append_shot _ _); [|done].
  destruct (open_for_write env); [done|].
  by destruct (write_error env).
Qed.

(** X9: serving one request makes at most two outgoing calls, to Gemini
    first and to OpenAI second, never two to the same provider; each call
    carries the Base64 encoding of the uploaded image, and a request
    without an image makes none. *)
Theorem calls_of_one_request cfg req env w :
  exists calls,
    posts (snd (extract_route cfg req env w)) = posts w ++ calls /\
    map call_provider calls `sublist_of` [Gemini; OpenAI] /\
    match files_image req with
    | Some image_file =>
        Forall (fun c => call_image c = b64encode (content image_file)) calls
    | None => calls = []
    end.
Proof.
  assert (Hview : forall w0, exists calls,
            posts (snd (extract_shot_data cfg req env w0)) = posts w0 ++ calls /\
            map call_provider calls `sublist_of` [Gemini; OpenAI] /\
            match files_image req with
            | Some image_file =>
                Forall (fun c => call_image c = b64encode (content image_file))
                       calls
            | None => calls = []
            end).
  { intros w0. unfold extract_shot_data.
    destruct (files_image req) as [image_file|].
    - destruct (String.eqb _ _).
      + exists []. simpl. rewrite app_nil_r.
        split_and!; [done | apply sublist_nil_l | constructor].
      + destruct (process_image_calls cfg (AIProcessor_init cfg)
                    (b64encode (content image_file)) env w0)
          as (calls & Hposts & Hsub & Himg).
        destruct (process_image _ _ _ _ _) as [[shot_data label] w1].
        simpl in Hposts. exists calls. split; [|done].
        destruct shot_data as [sd|]; [|done].
        destruct (negb (truthy sd)); [done|].
        destruct (session_user_id req) as [user_id|]; [|done].
        pose proof (save_shot_posts user_id sd env w1) as Hs.
        destruct (save_shot user_id sd env w1) as [[shot_id|e] w2];
          simpl in *; congruence.
    - exists []. simpl. rewrite app_nil_r.
      split_and!; [done | apply sublist_nil_l | done]. }
  destruct (Z.lt_ge_cases
              (default 0 (Redis.get (clock w) (fst (quota_key cfg req w))
                            (redis w)))
              (snd (quota_key cfg req w))) as [Hlt|Hge].
  - destruct (rate_limit_below_limit cfg (extract_shot_data cfg) req env w Hlt)
      as [_ Hroute].
    unfold extract_route. rewrite Hroute. simpl.
    match goal with
    | |- context [extract_shot_data cfg req env ?w1] =>
        destruct (Hview w1) as (calls & Hposts & Hsub & Himg)
    end.
    by exists calls.
  - pose proof (rate_limit_at_limit cfg (extract_shot_data cfg)
                req env w Hge) as Hroute.
    unfold extract_route. rewrite Hroute. simpl.
    exists []. rewrite app_nil_r.
    split_and!; [done | apply sublist_nil_l |].
    destruct (files_image req); [constructor | done].
Qed.

(** X10: the view answers 400 exactly when the request has no image or an
    image with an empty file name, and then it leaves the world as it
    was. *)
Theorem bad_upload_is_400 cfg req env w :
  let usable :=
    match files_image req with
    | Some image_file => negb (String.eqb (filename image_file) "")
    | None => false
    end in
  (reply_status (fst (extract_shot_data cfg req env w)) = Some 400
   <-> usable = false) /\
  (usable = false -> snd (extract_shot_data cfg req env w) = w).
Proof.
  unfold extract_shot_data.
  destruct (files_image req) as [image_file|]; simpl; [|done].
  destruct (String.eqb _ _); simpl; [done|].
  destruct (process_image _ _ _ _ _) as [[shot_data label] w1].
  split; [|done]. split; [|done].
  destruct shot_data as [sd|]; simpl; [|done].
  destruct (negb (truthy sd)); simpl; [done|].
  destruct (session_user_id req) as [user_id|]; simpl; [|done].
  by destruct (save_shot user_id sd env w1) as [[shot_id|e] w2].
Qed.

(** When [save_shot] raises, the store is as it was, unless the write
    broke off: then the user's file is left without a document. *)
Lemma save_shot_raise_files user_id shot_data env w e w' :
  save_shot user_id shot_data env w = (Raise e, w') ->
  w' = w \/
  (write_breaks_off env /\
   w' = set_files (<[user_file user_id := Unreadable]> (files w)) w).
Proof.
  unfold save_shot. destruct (append_shot _ _); [|intros [= _ <-]; by left].
  destruct (open_for_write env) eqn:Hopen; [intros [= _ <-]; by left|].
  destruct (write_error env) eqn:Hwrite; [|done].
  intros [= _ <-]. right. split; [|done]. split; [done|]. by eexists.
Qed.

(** X11: a request that is answered with an error has stored nothing,
    with one exception.  Every file is as it was before, unless the write
    of the user's file broke off: then the reply is the 500, the file of
    that user no longer decodes, so that the shots the user had are gone,
    and the other files are as they were. *)
Theorem error_replies_and_the_files cfg req env w :
  is_tuple (fst (extract_route cfg req env w)) = true ->
  files (snd (extract_route cfg req env w)) = files w \/
  exists user_id,
    session_user_id req = Some user_id /\
    write_breaks_off env /\
    reply_status (fst (extract_route cfg req env w)) = Some 500 /\
    files (snd (extract_route cfg req env w))
      = <[user_file user_id := Unreadable]> (files w) /\
    get_user_shots user_id (snd (extract_route cfg req env w)) = PyList [].
Proof.
  assert (Hview : forall w0,
            is_tuple (fst (extract_shot_data cfg req env w0)) = true ->
            files (snd (extract_shot_data cfg req env w0)) = files w0 \/
            exists user_id,
              session_user_id req = Some user_id /\
              write_breaks_off env /\
              reply_status (fst (extract_shot_data cfg req env w0)) = Some 500 /\
              files (snd (extract_shot_data cfg req env w0))
                = <[user_file user_id := Unreadable]> (files w0) /\
              get_user_shots user_id (snd (extract_shot_data cfg req env w0))
                = PyList []).
  { intros w0. unfold extract_shot_data.
    destruct (files_image req) as [image_file|]; [|by left].
    destruct (String.eqb _ _); [by left|].
    pose proof (process_image_stores cfg (AIProcessor_init cfg)
                  (b64encode (content image_file)) env w0) as (_ & _ & Hf).
    destruct (process_image _ _ _ _ _) as [[shot_data label] w1].
    simpl in Hf.
    destruct shot_data as [sd|]; [|by left].
    destruct (negb (truthy sd)); [by left|].
    destruct (session_user_id req) as [user_id|]; [|done].
    destruct (save_shot user_id sd env w1) as [[shot_id|e] w2] eqn:Es;
      [done|].
    intros _.
    apply save_shot_raise_files in Es as [->|[Hbreak ->]]; [by left|].
    right. exists user_id. simpl. rewrite Hf.
    split_and!; try done.
    unfold get_user_shots. simpl. by rewrite lookup_insert_eq. }
  destruct (Z.lt_ge_cases
              (default 0 (Redis.get (clock w) (fst (quota_key cfg req w))
                            (redis w)))
              (snd (quota_key cfg req w))) as [Hlt|Hge].
  - destruct (rate_limit_below_limit cfg (extract_shot_data cfg) req env w Hlt)
      as [_ Hroute].
    unfold extract_route. rewrite Hroute. simpl. intros Ht.
    match goal with
    | |- context [extract_shot_data cfg req env ?w1] =>
        specialize (Hview w1); set (view := extract_shot_data cfg req env w1) in *
    end.
    destruct Hview as [Hsame|(user_id & Hu & Hbreak & Hst & Hfiles & Hshots)].
    + by destruct (fst view).
    + by left.
    + right. exists user_id. split_and!; try done.
      by destruct (fst view).
  - pose proof (rate_limit_at_limit cfg (extract_shot_data cfg)
                req env w Hge) as Hroute.
    unfold extract_route. rewrite Hroute. by left.
Qed.

(** X12: with neither key configured no call is made: every request with
    an image is answered 422 and the world is left as it was. *)
Theorem without_keys_every_image_fails cfg req env w image_file :
  truthy_str (GEMINI_API_KEY cfg) = false ->
  truthy_str (OPENAI_API_KEY cfg) = false ->
  files_image req = Some image_file ->
  filename image_file <> "" ->
  extract_shot_data cfg req env w =
    (WithStatus [("error", PyStr "Failed to extract data from image")] 422, w).
Proof.
  intros Hg Ho Himg Hname. unfold extract_shot_data. rewrite Himg.
  destruct (String.eqb_spec (filename image_file) ""); [done|].
  unfold process_image, extract_with_gemini, extract_with_openai. simpl.
  by rewrite Hg, Ho.
Qed.

End OneExtraction.

(** ** DataStore: edges *)

Section LedgerEdges.

Context `{PyLib}.

(** X13: a file that does not decode is overwritten.  When the user's file
    exists but [json.load] fails on it and the storage takes the write,
    [save_shot] returns normally and the file then holds the new record
    alone. *)
Theorem unreadable_file_is_replaced user_id m env w :
  files w !! user_file user_id = Some Unreadable ->
  storage_accepts env ->
  exists w',
    save_shot user_id m env w = (Ok (shot_id_of user_id w), w') /\
    get_user_shots user_id w = PyList [] /\
    get_user_shots user_id w' = PyList [shot_record_of user_id m w].
Proof.
  intros Hfile [Hopen Hwrite]. unfold save_shot, load_user_data.
  rewrite Hfile. simpl. rewrite Hopen, Hwrite.
  eexists. split; [reflexivity|]. split.
  - unfold get_user_shots. by rewrite Hfile.
  - unfold get_user_shots. simpl. by rewrite lookup_insert_eq.
Qed.

(** X14: a file that decodes to something other than a dict with a list
    under ['shots'] makes [save_shot] raise before anything is written,
    whether or not the file could be opened for writing. *)
Theorem misshapen_file_makes_save_fail user_id m env w v :
  files w !! user_file user_id = Some (Document v) ->
  match v with
  | PyDict d =>
      match Dict.get d "shots" with
      | Some (PyList _) => False
      | _ => True
      end
  | _ => True
  end ->
  exists e,
    save_shot user_id m env w = (Raise e, w) /\
    (exn_class e = "KeyError" \/ exn_class e = "TypeError" \/
     exn_class e = "AttributeError").
Proof.
  intros Hfile Hshape. unfold save_shot, load_user_data. rewrite Hfile.
  destruct v as [| | | | | |d]; simpl; try (eexists; split; [reflexivity|]; tauto).
  destruct (Dict.get d "shots") as [[| | | | |l|]|];
    simpl; try done; eexists; (split; [reflexivity|]); tauto.
Qed.



End LedgerEdges.

(** ** DataStore: what a sequence of requests leaves in the files *)

Section Ledgers.

Context `{PyLib}.

(** What [save_shot] has read when it returns was well shaped. *)
Lemma load_user_data_well_shaped user_id w d l :
  load_user_data user_id w = PyDict d ->
  Dict.get d "shots" = Some (PyList l) ->
  well_shaped (files w !! user_file user_id).
Proof.
  unfold load_user_data, well_shaped.
  destruct (files w !! user_file user_id) as [[|v]|]; [done| |done].
  intros -> Hl. by exists l.
Qed.

(** X16: [save_shot] returns normally in one case only: the user's file
    is missing, does not decode or holds a dict with a list under
    ['shots'], the file opens for writing, and the write goes through to
    the end. *)
Theorem save_shot_returns_exactly_when user_id m env w :
  (exists shot_id w', save_shot user_id m env w = (Ok shot_id, w'))
  <-> well_shaped (files w !! user_file user_id) /\ storage_accepts env.
Proof.
  split.
  - intros (shot_id & w' & Hsave).
    destruct (save_shot_Ok _ _ _ _ _ _ Hsave) as (d & l & Hload & Hshots & _).
    split; [by apply (load_user_data_well_shaped _ _ d l)|].
    revert Hsave. unfold save_shot, storage_accepts.
    destruct (append_shot _ _); [|done].
    destruct (open_for_write env); [done|].
    by destruct (write_error env).
  - intros [Hshape Hstorage].
    destruct (save_shot_accepted user_id m env w Hshape Hstorage) as [w' Hw'].
    by eexists _, _.
Qed.

(** What the view does to the files. *)
Lemma extract_shot_data_files cfg req env w :
  let '(r, w') := extract_shot_data cfg req env w in
  match r, session_user_id req with
  | Bare _, Some user_id =>
      exists d l record,
        load_user_data user_id w = PyDict d /\
        Dict.get d "shots" = Some (PyList l) /\
        files w' =
          <[user_file user_id :=
              Document (PyDict (Dict.set d "shots" (PyList (l ++ [record]))))]>
            (files w)
  | WithStatus _ _, Some user_id =>
      files w' = files w \/
      (write_breaks_off env /\
       files w' = <[user_file user_id := Unreadable]> (files w))
  | _, None => files w' = files w
  end.
Proof.
  unfold extract_shot_data.
  destruct (files_image req) as [image_file|];
    [|destruct (session_user_id req); [by left | done]].
  destruct (String.eqb _ _); [destruct (session_user_id req); [by left | done]|].
  pose proof (process_image_stores cfg (AIProcessor_init cfg)
                (b64encode (content image_file)) env w) as (_ & _ & Hf).
  destruct (process_image _ _ _ _ _) as [[shot_data label] w1].
  simpl in Hf.
  destruct shot_data as [sd|]; [|destruct (session_user_id req); [by left | done]].
  destruct (negb (truthy sd)); [destruct (session_user_id req); [by left | done]|].
  destruct (session_user_id req) as [user_id|]; [|done].
  destruct (save_shot user_id sd env w1) as [[shot_id|e] w2] eqn:Es.
  - destruct (save_shot_Ok _ _ _ _ _ _ Es) as (d & l & Hload & Hs & _ & ->).
    exists d, l, (shot_record_of user_id sd w1). split_and!.
    + revert Hload. unfold load_user_data. by rewrite Hf.
    + done.
    + simpl. by rewrite Hf.
  - apply save_shot_raise_files in Es as [->|[Hbreak ->]]; [by left|].
    right. split; [done|]. simpl. by rewrite Hf.
Qed.

Lemma attach_rate_limit_is_tuple current limit r :
  is_tuple (attach_rate_limit current limit r) = is_tuple r.
Proof. by destruct r. Qed.

(** The same for the view behind the rate limiter. *)
Lemma extract_route_files cfg req env w :
  let '(r, w') := extract_route cfg req env w in
  match r, session_user_id req with
  | Bare _, Some user_id =>
      exists d l record,
        load_user_data user_id w = PyDict d /\
        Dict.get d "shots" = Some (PyList l) /\
        files w' =
          <[user_file user_id :=
              Document (PyDict (Dict.set d "shots" (PyList (l ++ [record]))))]>
            (files w)
  | WithStatus _ _, Some user_id =>
      files w' = files w \/
      (write_breaks_off env /\
       files w' = <[user_file user_id := Unreadable]> (files w))
  | _, None => files w' = files w
  end.
Proof.
  destruct (Z.lt_ge_cases
              (default 0 (Redis.get (clock w) (fst (quota_key cfg req w))
                            (redis w)))
              (snd (quota_key cfg req w))) as [Hlt|Hge].
  - destruct (rate_limit_below_limit cfg (extract_shot_data cfg) req env w Hlt)
      as [_ Hroute].
    unfold extract_route. rewrite Hroute.
    match goal with
    | |- context [extract_shot_data cfg req env ?w1] =>
        pose proof (extract_shot_data_files cfg req env w1) as Hv;
        destruct (extract_shot_data cfg req env w1) as [r w']
    end.
    simpl. by destruct r.
  - pose proof (rate_limit_at_limit cfg (extract_shot_data cfg)
                req env w Hge) as Hroute.
    unfold extract_route. rewrite Hroute. simpl.
    destruct (session_user_id req); [by left | done].
Qed.

(** One request: the store stays well shaped, and the list of a user
    grows by one record if the request is the user's and is answered with
    a bare success response, and not at all otherwise, unless the write
    of the user's own file broke off. *)
Lemma extract_route_ledgers cfg req env w :
  ledgers_ok w ->
  ledgers_ok (snd (extract_route cfg req env w)) /\
  forall user_id l,
    get_user_shots user_id w = PyList l ->
    (session_user_id req = Some user_id -> ~ write_breaks_off env) ->
    exists new,
      get_user_shots user_id (snd (extract_route cfg req env w))
        = PyList (l ++ new) /\
      length new =
        if bool_decide (session_user_id req = Some user_id)
           && negb (is_tuple (fst (extract_route cfg req env w)))
        then 1%nat else 0%nat.
Proof.
  intros Hok.
  pose proof (extract_route_files cfg req env w) as Hf.
  destruct (extract_route cfg req env w) as [r w']. simpl.
  assert (Hsame : files w' = files w ->
            ledgers_ok w' /\
            forall user_id l, get_user_shots user_id w = PyList l ->
                              get_user_shots user_id w' = PyList l).
  { intros E. split.
    - intros path. rewrite E. apply Hok.
    - intros user_id l. unfold get_user_shots. by rewrite E. }
  destruct r as [body|body status].
  - destruct (session_user_id req) as [v|] eqn:Ev.
    + destruct Hf as (d & l & record & Hload & Hshots & Hfiles).
      destruct (well_shaped_list v w (Hok _)) as (d' & l' & Hload' & Hshots' & Hget).
      rewrite Hload in Hload'. injection Hload' as <-.
      rewrite Hshots in Hshots'. injection Hshots' as <-.
      split.
      * intros path. rewrite Hfiles.
        destruct (decide (path = user_file v)) as [->|Hne].
        -- rewrite lookup_insert_eq. eexists. apply dict_get_set_eq.
        -- rewrite lookup_insert_ne by done. apply Hok.
      * intros user_id l0 Hl0 _. simpl.
        destruct (decide (v = user_id)) as [->|Hne].
        -- rewrite bool_decide_true by done. simpl.
           rewrite Hget in Hl0. injection Hl0 as <-.
           exists [record]. split; [|done].
           unfold get_user_shots. rewrite Hfiles, lookup_insert_eq.
           by rewrite dict_get_set_eq.
        -- rewrite bool_decide_false by congruence. simpl.
           exists []. rewrite app_nil_r. split; [|done].
           rewrite <- Hl0. unfold get_user_shots.
           rewrite Hfiles, lookup_insert_ne; [done|].
           intros E. by apply user_file_inj in E.
    + destruct (Hsame Hf) as [Hok' Hget]. split; [done|].
      intros user_id l Hl _. exists []. rewrite app_nil_r.
      split; [by apply Hget|]. by rewrite bool_decide_false.
  - assert (Hnew : forall user_id l,
              get_user_shots user_id w' = PyList l ->
              exists new : list pyval,
                get_user_shots user_id w' = PyList (l ++ new) /\
                length new =
                  (if bool_decide (session_user_id req = Some user_id)
                      && negb (is_tuple (WithStatus body status))
                   then 1%nat else 0%nat)).
    { intros user_id l Hl. exists []. rewrite app_nil_r. split; [done|].
      cbn [is_tuple negb]. by rewrite andb_false_r. }
    destruct (session_user_id req) as [v|] eqn:Ev.
    + destruct Hf as [E|[Hbreak Hfiles]].
      * destruct (Hsame E) as [Hok' Hget]. split; [done|].
        intros user_id l Hl _. apply Hnew. by apply Hget.
      * split.
        -- intros path. rewrite Hfiles.
           destruct (decide (path = user_file v)) as [->|Hne].
           ++ by rewrite lookup_insert_eq.
           ++ rewrite lookup_insert_ne by done. apply Hok.
        -- intros user_id l Hl Hwhole. apply Hnew.
           destruct (decide (v = user_id)) as [->|Hne];
             [by destruct (Hwhole eq_refl)|].
           rewrite <- Hl. unfold get_user_shots.
           rewrite Hfiles, lookup_insert_ne; [done|].
           intros E. by apply user_file_inj in E.
    + destruct (Hsame Hf) as [Hok' Hget]. split; [done|].
      intros user_id l Hl _. apply Hnew. by apply Hget.
Qed.

Lemma ledgers_ok_set_clock t w : ledgers_ok w -> ledgers_ok (set_clock t w).
Proof. done. Qed.

(** Any number of requests, served one after the other. *)
Lemma serve_ledgers cfg calls : forall w,
  ledgers_ok w ->
  ledgers_ok (snd (serve (extract_route cfg) calls w)) /\
  forall user_id l,
    get_user_shots user_id w = PyList l ->
    writes_complete user_id calls ->
    exists new,
      get_user_shots user_id (snd (serve (extract_route cfg) calls w))
        = PyList (l ++ new) /\
      length new =
        stored_for user_id calls (fst (serve (extract_route cfg) calls w)).
Proof.
  induction calls as [|a calls IH]; intros w Hok.
  - split; [done|]. intros user_id l Hl _. exists []. by rewrite app_nil_r.
  - simpl.
    destruct (extract_route_ledgers cfg (request a) (surroundings a)
                (set_clock (arrives_at a) w) (ledgers_ok_set_clock _ _ Hok))
      as [Hok1 Hstep].
    destruct (extract_route cfg (request a) (surroundings a)
                (set_clock (arrives_at a) w)) as [r w1].
    simpl in Hok1, Hstep.
    destruct (IH w1 Hok1) as [Hok2 Hrest].
    destruct (serve (extract_route cfg) calls w1) as [rs w2].
    simpl in *. split; [done|].
    intros user_id l Hl Hwhole.
    apply Forall_cons in Hwhole as [Ha Hwhole].
    destruct (Hstep user_id l Hl Ha) as (new1 & Hget1 & Hlen1).
    destruct (Hrest user_id _ Hget1 Hwhole) as (new2 & Hget2 & Hlen2).
    exists (new1 ++ new2). rewrite app_assoc. split; [done|].
    rewrite length_app, Hlen1, Hlen2. done.
Qed.

(** X17: the shape that [save_shot] needs is kept.  Starting from a store
    in which every file either does not decode or holds a dict with a
    list under ['shots'] (an empty store is one), the store is of that
    kind after any sequence of requests, whatever the storage does while
    they are served. *)
Theorem ledgers_stay_well_shaped cfg calls w :
  ledgers_ok w -> ledgers_ok (snd (serve (extract_route cfg) calls w)).
Proof. intros Hok. by apply serve_ledgers. Qed.


End Ledgers.

(** ** The session views *)

(** X19: signing in and asking for the status.  When the token carries a
    user info with ['sub'] and ['email'], [auth_callback] answers with
    the user and [auth_status] on the resulting session reports the same
    id and e-mail; the name reported is the one of the user info, or
    ['User'] when it has none (the reply of [auth_callback] itself shows
    [None] in that case), whatever the session held before. *)
Theorem sign_in_then_status token session user_info sub email :
  Dict.get token "userinfo" = Some user_info ->
  truthy user_info = true ->
  subscript user_info "sub" = Ok sub ->
  subscript user_info "email" = Ok email ->
  exists session',
    auth_callback token session =
      (Ok (Bare [("success", PyBool true);
                 ("user", PyDict [("id", sub);
                                  ("email", email);
                                  ("name", get_or user_info "name" PyNone)])]),
       session') /\
    auth_status session' =
      Ok (Bare [("authenticated", PyBool true);
                ("user", PyDict [("id", sub);
                                 ("email", email);
                                 ("name", get_or user_info "name" (PyStr "User"))])]).
Proof.
  intros Htoken Htruthy Hsub Hemail.
  unfold auth_callback. rewrite Htoken, Htruthy, Hsub, Hemail.
  eexists. split; [reflexivity|].
  unfold auth_status, subscript.
  rewrite dict_get_set_ne by done.
  rewrite dict_get_set_ne by done.
  rewrite dict_get_set_eq.
  rewrite dict_get_set_ne by done.
  rewrite dict_get_set_eq.
  by rewrite dict_get_set_eq.
Qed.

Lemma callback_keeps_session_on_401 token session body :
  fst (auth_callback token session) = Ok (WithStatus body 401) ->
  snd (auth_callback token session) = session.
Proof.
  unfold auth_callback.
  destruct (Dict.get token "userinfo") as [user_info|]; [|done].
  destruct (truthy user_info); [|done].
  destruct (subscript user_info "sub") as [sub|e]; [|done].
  by destruct (subscript user_info "email") as [email|e'].
Qed.

(** X20: [auth_callback] answers 401 exactly when the token has no user
    info or a falsy one, and then the session is left as it was: a failed
    sign-in does not sign out the user of the session. *)
Theorem callback_without_user_info token session :
  let answered_401 :=
    exists body, fst (auth_callback token session) = Ok (WithStatus body 401) in
  (answered_401 <-> truthy_opt (Dict.get token "userinfo") = false) /\
  (answered_401 ->
   fst (auth_callback token session)
     = Ok (WithStatus [("error", PyStr "Authentication failed")] 401) /\
   snd (auth_callback token session) = session).
Proof.
  split.
  - unfold auth_callback.
    destruct (Dict.get token "userinfo") as [user_info|]; simpl;
      [|split; [done | by eexists]].
    destruct (truthy user_info); [|split; [done | by eexists]].
    split; [|done]. intros [body Hb]. revert Hb.
    destruct (subscript user_info "sub") as [sub|e]; [|done].
    by destruct (subscript user_info "email") as [email|e'].
  - intros [body Hb]. split; [|by apply (callback_keeps_session_on_401 _ _ body)].
    revert Hb. unfold auth_callback.
    destruct (Dict.get token "userinfo") as [user_info|]; [|done].
    destruct (truthy user_info); [|done].
    destruct (subscript user_info "sub") as [sub|e]; [|done].
    by destruct (subscript user_info "email") as [email|e'].
Qed.

(** X21: a user info with ['sub'] and without ['email'].  [auth_callback]
    raises [KeyError], and by then the session holds the new id; the
    other keys are as before.  On the session of a user who was signed
    in, [auth_status] afterwards reports the new id with the e-mail and
    the name of the previous user. *)
Theorem callback_without_email_keeps_the_new_id
    token session d sub old_id old_email old_name :
  Dict.get token "userinfo" = Some (PyDict d) ->
  Dict.get d "sub" = Some sub ->
  Dict.get d "email" = None ->
  auth_status session =
    Ok (Bare [("authenticated", PyBool true);
              ("user", PyDict [("id", old_id);
                               ("email", old_email);
                               ("name", old_name)])]) ->
  exists session',
    auth_callback token session = (Raise (mkExn "KeyError" "'email'"), session') /\
    Dict.get session' "user_id" = Some sub /\
    (forall k, k <> "user_id" -> Dict.get session' k = Dict.get session k) /\
    auth_status session' =
      Ok (Bare [("authenticated", PyBool true);
                ("user", PyDict [("id", sub);
                                 ("email", old_email);
                                 ("name", old_name)])]).
Proof.
  intros Htoken Hsub Hemail Hstatus.
  assert (Htruthy : truthy (PyDict d) = true).
  { destruct d; [done | done]. }
  unfold auth_callback. rewrite Htoken, Htruthy. simpl.
  rewrite Hsub, Hemail.
  eexists. split; [reflexivity|]. split_and!.
  - apply dict_get_set_eq.
  - intros k Hk. by apply dict_get_set_ne.
  - revert Hstatus. unfold auth_status, subscript.
    rewrite dict_get_set_eq.
    rewrite !dict_get_set_ne by done.
    destruct (Dict.get session "user_id") as [uid|]; [|done].
    destruct (Dict.get session "user_email") as [em|]; [|done].
    destruct (Dict.get session "user_name") as [nm|]; [|done].
    by intros [= _ -> ->].
Qed.

(** X22: signing out.  After [logout] the status is "not authenticated"
    and signing in again gives the status of the new user alone, with
    nothing of the earlier session in it. *)
Theorem sign_out_then_sign_in token session user_info sub email :
  Dict.get token "userinfo" = Some user_info ->
  truthy user_info = true ->
  subscript user_info "sub" = Ok sub ->
  subscript user_info "email" = Ok email ->
  auth_status (snd (logout session)) = Ok (Bare [("authenticated", PyBool false)]) /\
  snd (auth_callback token (snd (logout session))) =
    [("user_id", sub); ("user_email", email);
     ("user_name", get_or user_info "name" (PyStr "User"))].
Proof.
  intros Htoken Htruthy Hsub Hemail. split; [done|].
  unfold auth_callback. by rewrite Htoken, Htruthy, Hsub, Hemail.
Qed.

(** ** The health view *)

(** X23: what [health_check] reports about a provider is what the
    extractor does: a provider reported as available is called by its
    extractor, one reported as unavailable is not.  When the ping of
    Redis raises, [health_check] raises. *)
Theorem health_flags_match_the_extractors `{PyLib}
    cfg pong w image env (gemini_up openai_up : bool) body services :
  health_check cfg (Ok pong) w = Ok (Bare body) ->
  Dict.get body "services" = Some (PyDict services) ->
  Dict.get services "gemini" = Some (PyBool gemini_up) ->
  Dict.get services "openai" = Some (PyBool openai_up) ->
  posts (snd (extract_with_gemini cfg (AIProcessor_init cfg) image env w)) =
    posts w ++ (if gemini_up
                then [mkNetCall Gemini (RESPONSE_TIMEOUT cfg) image (clock w)]
                else []) /\
  posts (snd (extract_with_openai cfg (AIProcessor_init cfg) image env w)) =
    posts w ++ (if openai_up
                then [mkNetCall OpenAI (RESPONSE_TIMEOUT cfg) image (clock w)]
                else []) /\
  forall e, health_check cfg (Raise e) w = Raise e.
Proof.
  unfold health_check. intros [= <-]. simpl.
  intros [= <-]. simpl. intros [= <-] [= <-].
  split_and!; [apply extract_with_gemini_posts | apply extract_with_openai_posts | done].
Qed.

(** ** The denial's reset time *)

(** X24: the [reset_time] of a denial is the midnight that starts the next
    local day exactly when the current instant falls on a whole second;
    otherwise it is that midnight plus the microseconds of the current
    instant, which [replace(hour=0, minute=0, second=0)] leaves in. *)
Theorem reset_time_is_midnight_on_whole_seconds w :
  (reset_time w = next_local_midnight w
   <-> microsecond (datetime_now w) = 0) /\
  year (reset_time w) = year (next_local_midnight w) /\
  month (reset_time w) = month (next_local_midnight w) /\
  day (reset_time w) = day (next_local_midnight w) /\
  hour (reset_time w) = 0 /\ minute (reset_time w) = 0 /\
  second (reset_time w) = 0 /\
  microsecond (reset_time w) = microsecond (datetime_now w).
Proof.
  pose proof (next_local_midnight_time w) as (Hh & Hm & Hs & Hu).
  pose proof (reset_time_fields w) as Hrt.
  generalize dependent (next_local_midnight w). intros nlm.
  generalize (microsecond (datetime_now w)). intros mu.
  generalize (reset_time w). intros rt.
  intros Hh Hm Hs Hu ->.
  destruct nlm as [y mo dd h mi s u].
  cbn [year month day hour minute second microsecond] in *. subst.
  split_and!; try done. split.
  - by intros [= ->].
  - by intros ->.
Qed.

(** ** Two calls at once, in any order *)

Section AnySchedule.

Variables (now : Z) (key : string) (limit : Z).

Lemma get_incr (r : gmap string (Z * option Z)) :
  Redis.get now key (Redis.incr now key r)
    = Some (default 0 (Redis.get now key r) + 1).
Proof.
  destruct (live_incr now key r) as (e & -> & L & He).
  unfold Redis.get at 1. by rewrite lookup_insert_eq, L, He.
Qed.

Lemma get_expire (r : gmap string (Z * option Z)) :
  Redis.get now key (Redis.expire now key 86400 r) = Redis.get now key r.
Proof.
  unfold Redis.expire, Redis.get.
  destruct (r !! key) as [e|] eqn:E; [|by rewrite E].
  destruct (Redis.live now e) eqn:L; [|by rewrite E, L].
  rewrite lookup_insert_eq. unfold Redis.live. simpl.
  destruct (Z.ltb_spec now (now + 86400 * Calendar.us_per_second)); [done|].
  unfold Calendar.us_per_second in *. lia.
Qed.

(** The other call's soundness survives a move of this one, which can
    only raise what this one has added. *)
Lemma sound_other c p p' other :
  bumped p <= bumped p' -> bumped p' <= 1 ->
  sound c other p -> sound c other p'.
Proof.
  intros Hle Hone. destruct other; simpl; try done; lia.
Qed.

Lemma step_invariant c (p other : Interleaving.pc)
    (r : gmap string (Z * option Z)) :
  c < limit ->
  default 0 (Redis.get now key r) = c + bumped p + bumped other ->
  sound c p other ->
  0 <= bumped other <= 1 ->
  let '(p', r') := Interleaving.step now key limit p r in
  default 0 (Redis.get now key r') = c + bumped p' + bumped other /\
  sound c p' other /\
  bumped p <= bumped p' <= 1.
Proof.
  intros Hc Hcount Hsound Hother.
  destruct p as [|cur|cur|cur|]; cbn [Interleaving.step bumped sound] in *.
  - split_and!; lia.
  - destruct (Z.geb_spec cur limit) as [Hge|Hlt]; cbn [bumped sound].
    + split_and!; lia.
    + rewrite get_incr. simpl in *. split_and!; try done; lia.
  - rewrite get_expire. split_and!; try done; lia.
  - split_and!; try done; lia.
  - split_and!; try done; lia.
Qed.

Lemma bumped_range p : 0 <= bumped p <= 1.
Proof. destruct p; simpl; lia. Qed.

Lemma move_invariant c who s :
  c < limit -> in_step now key c s ->
  in_step now key c (Interleaving.move now key limit who s).
Proof.
  intros Hc (Hcount & Hs1 & Hs2).
  destruct s as [p1 p2 r].
  cbn [Interleaving.pc_first Interleaving.pc_second Interleaving.store] in *.
  destruct who; unfold Interleaving.move, in_step;
    cbn [Interleaving.pc_first Interleaving.pc_second Interleaving.store].
  - pose proof (step_invariant c p1 p2 r Hc Hcount Hs1 (bumped_range p2)) as Hst.
    destruct (Interleaving.step now key limit p1 r) as [p1' r'].
    destruct Hst as (Hcount' & Hs1' & Hle).
    cbn [Interleaving.pc_first Interleaving.pc_second Interleaving.store].
    split_and!; [done | done |].
    apply (sound_other c p1 p1' p2); [lia | lia | done].
  - assert (Hcount2 : default 0 (Redis.get now key r)
                      = c + bumped p2 + bumped p1) by lia.
    pose proof (step_invariant c p2 p1 r Hc Hcount2 Hs2 (bumped_range p1)) as Hst.
    destruct (Interleaving.step now key limit p2 r) as [p2' r'].
    destruct Hst as (Hcount' & Hs2' & Hle).
    cbn [Interleaving.pc_first Interleaving.pc_second Interleaving.store].
    split_and!; [lia | | done].
    apply (sound_other c p2 p2' p1); [lia | lia | done].
Qed.

Lemma run_invariant c schedule : forall s,
  c < limit -> in_step now key c s ->
  in_step now key c (Interleaving.run now key limit schedule s).
Proof.
  induction schedule as [|who schedule IH]; intros s Hc Hinv; [done|].
  simpl. apply IH; [done|]. by apply move_invariant.
Qed.

(** X25: two calls at once with at least one slot left, their Redis
    commands interleaved in any order whatever: once both have finished,
    at least one of them has been let through, the counter has grown by
    one for each call let through, and so it exceeds the limit by one at
    most. *)
Theorem two_calls_in_any_order (r : gmap string (Z * option Z)) schedule :
  let c := default 0 (Redis.get now key r) in
  let s := Interleaving.run now key limit schedule (Interleaving.start r) in
  c < limit ->
  Interleaving.finished (Interleaving.pc_first s) = true ->
  Interleaving.finished (Interleaving.pc_second s) = true ->
  Interleaving.allowed (Interleaving.pc_first s)
    || Interleaving.allowed (Interleaving.pc_second s) = true /\
  default 0 (Redis.get now key (Interleaving.store s)) =
    c + (if Interleaving.allowed (Interleaving.pc_first s) then 1 else 0)
      + (if Interleaving.allowed (Interleaving.pc_second s) then 1 else 0) /\
  default 0 (Redis.get now key (Interleaving.store s)) <= limit + 1.
Proof.
  intros c s Hc Hf1 Hf2.
  assert (Hinv : in_step now key c s).
  { apply run_invariant; [done|]. by split_and!; simpl; try lia. }
  destruct Hinv as (Hcount & Hs1 & Hs2).
  destruct (Interleaving.pc_first s) as [|c1|c1|c1|];
    destruct (Interleaving.pc_second s) as [|c2|c2|c2|];
    simpl in *; try done; split_and!; try done; lia.
Qed.

End AnySchedule.

(** ** The further properties at sample inputs *)

Lemma quota_key_tells_the_identity_witness :
  fst (quota_key Sample.cfg Sample.signed_in Sample.world0)
    = fst (quota_key Sample.cfg Sample.signed_in Example.world_at_limit) /\
  if truthy_str (session_user_id Sample.signed_in)
  then truthy_str (session_user_id Sample.signed_in) = true /\
       session_user_id Sample.signed_in = session_user_id Sample.signed_in
  else truthy_str (session_user_id Sample.signed_in) = false /\
       counted_address Sample.signed_in = counted_address Sample.signed_in.
Proof.
  assert (Hk : fst (quota_key Sample.cfg Sample.signed_in Sample.world0)
               = fst (quota_key Sample.cfg Sample.signed_in
                        Example.world_at_limit)) by reflexivity.
  split; [exact Hk|].
  exact (quota_key_tells_the_identity (Some "sk-openai") (Some "g-key")
           Sample.signed_in Sample.signed_in Sample.world0
           Example.world_at_limit Hk).
Defined.

Lemma other_counters_untouched_witness :
  "rate_limit:anon:10.0.0.7:2024-01-01"
    <> fst (quota_key Sample.cfg Sample.signed_in Sample.world0) /\
  redis (snd (extract_route (H := python) Sample.cfg Sample.signed_in
                Sample.gemini_good Sample.world0))
    !! "rate_limit:anon:10.0.0.7:2024-01-01"
  = redis Sample.world0 !! "rate_limit:anon:10.0.0.7:2024-01-01".
Proof.
  assert (Hne : "rate_limit:anon:10.0.0.7:2024-01-01"
                <> fst (quota_key Sample.cfg Sample.signed_in Sample.world0)).
  { intros E. vm_compute in E. discriminate E. }
  split; [exact Hne|].
  exact (other_counters_untouched (H := python) Sample.cfg Sample.signed_in
           Sample.gemini_good Sample.world0 _ Hne).
Defined.

Lemma expiry_restarts_with_each_request_witness :
  default 0 (Redis.get (clock Sample.world0)
               (fst (quota_key Sample.cfg Sample.signed_in Sample.world0))
               (redis Sample.world0))
    < snd (quota_key Sample.cfg Sample.signed_in Sample.world0) /\
  redis (snd (extract_route (H := python) Sample.cfg Sample.signed_in
                Sample.gemini_good Sample.world0))
    !! fst (quota_key Sample.cfg Sample.signed_in Sample.world0)
  = Some (default 0 (Redis.get (clock Sample.world0)
                       (fst (quota_key Sample.cfg Sample.signed_in Sample.world0))
                       (redis Sample.world0)) + 1,
          Some (clock Sample.world0 + 86400 * Calendar.us_per_second)).
Proof.
  assert (Hlt : default 0 (Redis.get (clock Sample.world0)
                  (fst (quota_key Sample.cfg Sample.signed_in Sample.world0))
                  (redis Sample.world0))
                < snd (quota_key Sample.cfg Sample.signed_in Sample.world0))
    by (vm_compute; reflexivity).
  split; [exact Hlt|].
  exact (expiry_restarts_with_each_request (H := python) Sample.cfg
           Sample.signed_in Sample.gemini_good Sample.world0 Hlt).
Defined.

Lemma signed_in_requests_of_a_day_witness :
  "u1" <> "" /\
  Forall (of_the_day "u1" (utc_offset Sample.world0) 19723) Example.twenty_two /\
  within_24h Example.twenty_two /\
  redis Sample.world0 !! user_key "u1" 19723 = None /\
  exists replies w',
    serve (extract_route (H := python) (CONFIG (Some "sk-openai") (Some "g-key")))
          Example.twenty_two Sample.world0 = (replies, w') /\
    length replies = length Example.twenty_two /\
    (forall (i : nat) r, replies !! i = Some r ->
       if Z.of_nat i <? 20
       then allowed_reply (Z.of_nat i + 1) 20 r
       else reply_status r = Some 429) /\
    counter_at (soon_after Example.twenty_two) (user_key "u1" 19723)
               (Z.min (Z.of_nat (length Example.twenty_two)) 20) (redis w').
Proof.
  assert (Hne : "u1" <> "") by discriminate.
  assert (Hall : Forall (of_the_day "u1" (utc_offset Sample.world0) 19723)
                        Example.twenty_two).
  { unfold Example.twenty_two, Sample.twenty. simpl.
    repeat (constructor; [split; [reflexivity | vm_compute; reflexivity]|]).
    constructor. }
  assert (Hnear : within_24h Example.twenty_two).
  { apply (fixed_offset_within_24h (utc_offset Sample.world0) 19723);
      [reflexivity|].
    eapply Forall_impl; [exact Hall|]. by intros a [_ Hd]. }
  assert (Hnone : redis Sample.world0 !! user_key "u1" 19723 = None)
    by (vm_compute; reflexivity).
  split; [exact Hne|]. split; [exact Hall|]. split; [exact Hnear|].
  split; [exact Hnone|].
  exact (signed_in_requests_of_a_day (H := python) (Some "sk-openai")
           (Some "g-key") "u1" Example.twenty_two Sample.world0 19723
           Hne Hall Hnear Hnone).
Defined.

Lemma anonymous_requests_of_a_day_witness :
  Forall (anonymous_from "10.0.0.7" (utc_offset Sample.world0) 19723)
         Example.five_anonymous /\
  within_24h Example.five_anonymous /\
  redis Sample.world0 !! anon_key "10.0.0.7" 19723 = None /\
  exists replies w',
    serve (extract_route (H := python) (CONFIG (Some "sk-openai") (Some "g-key")))
          Example.five_anonymous Sample.world0 = (replies, w') /\
    length replies = length Example.five_anonymous /\
    (forall (i : nat) r, replies !! i = Some r ->
       if Z.of_nat i <? 3
       then allowed_reply (Z.of_nat i + 1) 3 r
       else reply_status r = Some 429) /\
    counter_at (soon_after Example.five_anonymous) (anon_key "10.0.0.7" 19723)
               (Z.min (Z.of_nat (length Example.five_anonymous)) 3) (redis w').
Proof.
  assert (Hall : Forall (anonymous_from "10.0.0.7" (utc_offset Sample.world0) 19723)
                        Example.five_anonymous).
  { unfold Example.five_anonymous. simpl.
    repeat (constructor;
            [split_and!; [reflexivity | reflexivity | vm_compute; reflexivity]|]).
    constructor. }
  assert (Hnear : within_24h Example.five_anonymous).
  { apply (fixed_offset_within_24h (utc_offset Sample.world0) 19723);
      [reflexivity|].
    eapply Forall_impl; [exact Hall|]. by intros a (_ & _ & Hd). }
  assert (Hnone : redis Sample.world0 !! anon_key "10.0.0.7" 19723 = None)
    by (vm_compute; reflexivity).
  split; [exact Hall|]. split; [exact Hnear|]. split; [exact Hnone|].
  exact (anonymous_requests_of_a_day (H := python) (Some "sk-openai")
           (Some "g-key") "10.0.0.7" Example.five_anonymous Sample.world0 19723
           Hall Hnear Hnone).
Defined.

Lemma forwarded_for_escapes_the_limit_witness :
  Forall (fun a => truthy_str (session_user_id (request a)) = false /\
                   is_Some (x_forwarded_for (request a)) /\
                   local_day (utc_offset Sample.world0) (arrives_at a) = 19723)
         Example.four_headers /\
  NoDup (map (fun a => x_forwarded_for (request a)) Example.four_headers) /\
  (forall ip, redis Sample.world0 !! anon_key ip 19723 = None) /\
  exists replies w',
    serve (extract_route (H := python) (CONFIG (Some "sk-openai") (Some "g-key")))
          Example.four_headers Sample.world0 = (replies, w') /\
    length replies = length Example.four_headers /\
    Forall (fun r => reply_status r <> Some 429) replies.
Proof.
  assert (Hall : Forall (fun a =>
                   truthy_str (session_user_id (request a)) = false /\
                   is_Some (x_forwarded_for (request a)) /\
                   local_day (utc_offset Sample.world0) (arrives_at a) = 19723)
                 Example.four_headers).
  { unfold Example.four_headers.
    repeat (constructor;
            [split_and!; [reflexivity | by eexists | vm_compute; reflexivity]|]).
    constructor. }
  assert (Hnodup : NoDup (map (fun a => x_forwarded_for (request a))
                            Example.four_headers)).
  { unfold Example.four_headers. simpl.
    repeat (apply NoDup_cons; split;
            [intros Hin; repeat (apply elem_of_cons in Hin as [Hin|Hin];
                                 [discriminate Hin|]);
             by apply elem_of_nil in Hin|]).
    apply NoDup_nil. done. }
  assert (Hfree : forall ip, redis Sample.world0 !! anon_key ip 19723 = None)
    by (intros ip; apply lookup_empty).
  split; [exact Hall|]. split; [exact Hnodup|]. split; [exact Hfree|].
  exact (forwarded_for_escapes_the_limit (H := python) (Some "sk-openai")
           (Some "g-key") Example.four_headers Sample.world0 19723
           Hall Hnodup Hfree).
Defined.

Lemma error_replies_and_the_files_witness :
  let out :=
    extract_route (H := python) Sample.cfg Sample.signed_in Example.write_fails
      Example.world_one_shot in
  is_tuple (fst out) = true /\
  (files (snd out) = files Example.world_one_shot \/
   exists user_id,
     session_user_id Sample.signed_in = Some user_id /\
     write_breaks_off Example.write_fails /\
     reply_status (fst out) = Some 500 /\
     files (snd out)
       = <[user_file user_id := Unreadable]> (files Example.world_one_shot) /\
     get_user_shots user_id (snd out) = PyList []).
Proof.
  intros out.
  assert (Ht : is_tuple (fst out) = true) by (vm_compute; reflexivity).
  split; [exact Ht|].
  exact (error_replies_and_the_files (H := python) Sample.cfg Sample.signed_in
           Example.write_fails Example.world_one_shot Ht).
Defined.

Lemma without_keys_every_image_fails_witness :
  truthy_str (GEMINI_API_KEY Example.no_keys) = false /\
  truthy_str (OPENAI_API_KEY Example.no_keys) = false /\
  files_image Sample.signed_in = Some Sample.image /\
  filename Sample.image <> "" /\
  extract_shot_data (H := python) Example.no_keys Sample.signed_in
    Sample.gemini_good Sample.world0 =
    (WithStatus [("error", PyStr "Failed to extract data from image")] 422,
     Sample.world0).
Proof.
  assert (Hname : filename Sample.image <> "") by discriminate.
  split; [reflexivity|]. split; [reflexivity|]. split; [reflexivity|].
  split; [exact Hname|].
  exact (without_keys_every_image_fails (H := python) Example.no_keys
           Sample.signed_in Sample.gemini_good Sample.world0 Sample.image
           eq_refl eq_refl eq_refl Hname).
Defined.

Lemma unreadable_file_is_replaced_witness :
  files Example.world_unreadable !! user_file "u1" = Some Unreadable /\
  storage_accepts Sample.gemini_good /\
  exists w',
    save_shot (H := python) "u1" Example.metrics Sample.gemini_good
      Example.world_unreadable
      = (Ok (shot_id_of (H := python) "u1" Example.world_unreadable), w') /\
    get_user_shots "u1" Example.world_unreadable = PyList [] /\
    get_user_shots "u1" w' =
      PyList [shot_record_of (H := python) "u1" Example.metrics
                Example.world_unreadable].
Proof.
  assert (Hfile : files Example.world_unreadable !! user_file "u1"
                  = Some Unreadable) by (vm_compute; reflexivity).
  assert (Hstorage : storage_accepts Sample.gemini_good) by (by split).
  split; [exact Hfile|]. split; [exact Hstorage|].
  exact (unreadable_file_is_replaced (H := python) "u1" Example.metrics
           Sample.gemini_good Example.world_unreadable Hfile Hstorage).
Defined.

Lemma misshapen_file_makes_save_fail_witness :
  files Example.world_misshapen !! user_file "u1" = Some (Document (PyDict [])) /\
  exists e,
    save_shot (H := python) "u1" Example.metrics Sample.gemini_good
      Example.world_misshapen = (Raise e, Example.world_misshapen) /\
    (exn_class e = "KeyError" \/ exn_class e = "TypeError" \/
     exn_class e = "AttributeError").
Proof.
  assert (Hfile : files Example.world_misshapen !! user_file "u1"
                  = Some (Document (PyDict []))) by (vm_compute; reflexivity).
  split; [exact Hfile|].
  exact (misshapen_file_makes_save_fail (H := python) "u1" Example.metrics
           Sample.gemini_good Example.world_misshapen (PyDict []) Hfile I).
Defined.


Lemma ledgers_ok_empty w : files w = ∅ -> ledgers_ok w.
Proof. intros E path. by rewrite E, lookup_empty. Qed.

Lemma ledgers_stay_well_shaped_witness :
  ledgers_ok Sample.world0 /\
  ledgers_ok (snd (serve (extract_route (H := python) Sample.cfg)
                     Example.broken_write Sample.world0)).
Proof.
  assert (Hok : ledgers_ok Sample.world0) by (by apply ledgers_ok_empty).
  split; [exact Hok|].
  exact (ledgers_stay_well_shaped (H := python) Sample.cfg Example.broken_write
           Sample.world0 Hok).
Defined.


Lemma sign_in_then_status_witness :
  let user_info := PyDict [("sub", PyStr "u1");
                           ("email", PyStr "u1@example.org");
                           ("name", PyStr "Pat")] in
  Dict.get Example.token "userinfo" = Some user_info /\
  truthy user_info = true /\
  subscript user_info "sub" = Ok (PyStr "u1") /\
  subscript user_info "email" = Ok (PyStr "u1@example.org") /\
  exists session',
    auth_callback Example.token [] =
      (Ok (Bare [("success", PyBool true);
                 ("user", PyDict [("id", PyStr "u1");
                                  ("email", PyStr "u1@example.org");
                                  ("name", get_or user_info "name" PyNone)])]),
       session') /\
    auth_status session' =
      Ok (Bare [("authenticated", PyBool true);
                ("user", PyDict [("id", PyStr "u1");
                                 ("email", PyStr "u1@example.org");
                                 ("name", get_or user_info "name" (PyStr "User"))])]).
Proof.
  intros user_info.
  split; [reflexivity|]. split; [reflexivity|]. split; [reflexivity|].
  split; [reflexivity|].
  exact (sign_in_then_status Example.token [] user_info (PyStr "u1")
           (PyStr "u1@example.org") eq_refl eq_refl eq_refl eq_refl).
Defined.

Lemma callback_without_email_keeps_the_new_id_witness :
  Dict.get Example.token_without_email "userinfo"
    = Some (PyDict [("sub", PyStr "u2")]) /\
  Dict.get [("sub", PyStr "u2")] "sub" = Some (PyStr "u2") /\
  Dict.get [("sub", PyStr "u2")] "email" = None /\
  auth_status Example.session_u1 =
    Ok (Bare [("authenticated", PyBool true);
              ("user", PyDict [("id", PyStr "u1");
                               ("email", PyStr "u1@example.org");
                               ("name", PyStr "Pat")])]) /\
  exists session',
    auth_callback Example.token_without_email Example.session_u1
      = (Raise (mkExn "KeyError" "'email'"), session') /\
    Dict.get session' "user_id" = Some (PyStr "u2") /\
    (forall k, k <> "user_id" ->
               Dict.get session' k = Dict.get Example.session_u1 k) /\
    auth_status session' =
      Ok (Bare [("authenticated", PyBool true);
                ("user", PyDict [("id", PyStr "u2");
                                 ("email", PyStr "u1@example.org");
                                 ("name", PyStr "Pat")])]).
Proof.
  split; [reflexivity|]. split; [reflexivity|]. split; [reflexivity|].
  split; [reflexivity|].
  exact (callback_without_email_keeps_the_new_id Example.token_without_email
           Example.session_u1 [("sub", PyStr "u2")] (PyStr "u2") (PyStr "u1")
           (PyStr "u1@example.org") (PyStr "Pat")
           eq_refl eq_refl eq_refl eq_refl).
Defined.

Lemma sign_out_then_sign_in_witness :
  let user_info := PyDict [("sub", PyStr "u1");
                           ("email", PyStr "u1@example.org");
                           ("name", PyStr "Pat")] in
  Dict.get Example.token "userinfo" = Some user_info /\
  truthy user_info = true /\
  subscript user_info "sub" = Ok (PyStr "u1") /\
  subscript user_info "email" = Ok (PyStr "u1@example.org") /\
  auth_status (snd (logout Example.session_u1))
    = Ok (Bare [("authenticated", PyBool false)]) /\
  snd (auth_callback Example.token (snd (logout Example.session_u1))) =
    [("user_id", PyStr "u1"); ("user_email", PyStr "u1@example.org");
     ("user_name", get_or user_info "name" (PyStr "User"))].
Proof.
  intros user_info.
  split; [reflexivity|]. split; [reflexivity|]. split; [reflexivity|].
  split; [reflexivity|].
  exact (sign_out_then_sign_in Example.token Example.session_u1 user_info
           (PyStr "u1") (PyStr "u1@example.org")
           eq_refl eq_refl eq_refl eq_refl).
Defined.

Lemma health_flags_match_the_extractors_witness :
  let services := [("openai", PyBool true); ("gemini", PyBool true);
                   ("redis", PyBool true)] in
  let body := [("status", PyStr "healthy");
               ("timestamp", PyStr "2024-01-01T12:00:00");
               ("services", PyDict services)] in
  health_check Sample.cfg (Ok (PyBool true)) Sample.world0 = Ok (Bare body) /\
  Dict.get body "services" = Some (PyDict services) /\
  Dict.get services "gemini" = Some (PyBool true) /\
  Dict.get services "openai" = Some (PyBool true) /\
  posts (snd (extract_with_gemini (H := python) Sample.cfg
                (AIProcessor_init Sample.cfg) "aGVsbG8=" Sample.all_down
                Sample.world0)) =
    posts Sample.world0 ++
    [mkNetCall Gemini (RESPONSE_TIMEOUT Sample.cfg) "aGVsbG8="
       (clock Sample.world0)] /\
  posts (snd (extract_with_openai (H := python) Sample.cfg
                (AIProcessor_init Sample.cfg) "aGVsbG8=" Sample.all_down
                Sample.world0)) =
    posts Sample.world0 ++
    [mkNetCall OpenAI (RESPONSE_TIMEOUT Sample.cfg) "aGVsbG8="
       (clock Sample.world0)] /\
  forall e, health_check Sample.cfg (Raise e) Sample.world0 = Raise e.
Proof.
  intros services body.
  assert (Hh : health_check Sample.cfg (Ok (PyBool true)) Sample.world0
               = Ok (Bare body)) by (vm_compute; reflexivity).
  split; [exact Hh|]. split; [reflexivity|]. split; [reflexivity|].
  split; [reflexivity|].
  exact (health_flags_match_the_extractors (H := python) Sample.cfg
           (PyBool true) Sample.world0 "aGVsbG8=" Sample.all_down true true
           body services Hh eq_refl eq_refl eq_refl).
Defined.

Lemma two_calls_in_any_order_witness :
  let s := Interleaving.run Sample.noon Sample.quota_key_u1 20
             Sample.interleaved (Interleaving.start Sample.one_slot_left) in
  default 0 (Redis.get Sample.noon Sample.quota_key_u1 Sample.one_slot_left)
    < 20 /\
  Interleaving.finished (Interleaving.pc_first s) = true /\
  Interleaving.finished (Interleaving.pc_second s) = true /\
  Interleaving.allowed (Interleaving.pc_first s)
    || Interleaving.allowed (Interleaving.pc_second s) = true /\
  default 0 (Redis.get Sample.noon Sample.quota_key_u1 (Interleaving.store s)) =
    default 0 (Redis.get Sample.noon Sample.quota_key_u1 Sample.one_slot_left)
      + (if Interleaving.allowed (Interleaving.pc_first s) then 1 else 0)
      + (if Interleaving.allowed (Interleaving.pc_second s) then 1 else 0) /\
  default 0 (Redis.get Sample.noon Sample.quota_key_u1 (Interleaving.store s))
    <= 20 + 1.
Proof.
  intros s.
  assert (Hc : default 0 (Redis.get Sample.noon Sample.quota_key_u1
                            Sample.one_slot_left) < 20)
    by (vm_compute; reflexivity).
  assert (H1 : Interleaving.finished (Interleaving.pc_first s) = true)
    by (vm_compute; reflexivity).
  assert (H2 : Interleaving.finished (Interleaving.pc_second s) = true)
    by (vm_compute; reflexivity).
  split; [exact Hc|]. split; [exact H1|]. split; [exact H2|].
  exact (two_calls_in_any_order Sample.noon Sample.quota_key_u1 20
           Sample.one_slot_left Sample.interleaved Hc H1 H2).
Defined.
